(** * Paramata-System: the rental status-transition handlers

    A shallow embedding of the admin rental routes
    ([app/api/admin/rentals/route.ts] and [app/api/admin/rentals/[id]/route.ts])
    over a model of the Prisma schema, and the properties of the
    status-transition engine checked against them.

    The entity store is a record of tables.  Handlers run in a small monad
    that threads the store, reads the oracles of a run (the clock, the
    availability of the store at each round trip, the uuid generator, the
    date parser) and raises exceptions the way the Prisma client does.  The
    helpers of [@/lib] that the routes call after the commit are parameters. *)

From Stdlib Require Import ZArith.
From stdpp Require Import gmap strings list fin_maps sorting.

Local Open Scope Z_scope.
Local Open Scope string_scope.

(** ** Enumerations of the schema *)

Module Role.
Inductive t := ADMIN | USER.
#[global] Instance eq_dec : EqDecision t.
Proof. solve_decision. Defined.
End Role.

Module ItemStatus.
Inductive t := AVAILABLE | IN_CALIBRATION | RENTED | IN_MAINTENANCE.
#[global] Instance eq_dec : EqDecision t.
Proof. solve_decision. Defined.
End ItemStatus.

Module RequestStatus.
Inductive t := PENDING | APPROVED | REJECTED | COMPLETED | CANCELLED.
#[global] Instance eq_dec : EqDecision t.
Proof. solve_decision. Defined.

(** The enum members are the strings of their names. *)
Definition to_string (s : t) : string :=
  match s with
  | PENDING => "PENDING"
  | APPROVED => "APPROVED"
  | REJECTED => "REJECTED"
  | COMPLETED => "COMPLETED"
  | CANCELLED => "CANCELLED"
  end.

(** What the client accepts for a [RequestStatus] column. *)
Definition of_string (s : string) : option t :=
  if String.eqb s "PENDING" then Some PENDING
  else if String.eqb s "APPROVED" then Some APPROVED
  else if String.eqb s "REJECTED" then Some REJECTED
  else if String.eqb s "COMPLETED" then Some COMPLETED
  else if String.eqb s "CANCELLED" then Some CANCELLED
  else None.

(** The terminal statuses of the specification. *)
Definition terminal (s : t) : bool :=
  match s with
  | COMPLETED | REJECTED | CANCELLED => true
  | PENDING | APPROVED => false
  end.
End RequestStatus.

Module ActivityType.
Inductive t :=
| LOGIN
| ITEM_CREATED | ITEM_UPDATED | ITEM_DELETED
| CALIBRATION_CREATED | CALIBRATION_UPDATED | CALIBRATION_DELETED
| MAINTENANCE_CREATED | MAINTENANCE_UPDATED | MAINTENANCE_DELETED
| RENTAL_CREATED | RENTAL_UPDATED | RENTAL_DELETED
| USER_CREATED | USER_UPDATED | USER_DELETED
| CUSTOMER_CREATED | CUSTOMER_UPDATED | CUSTOMER_DELETED
| REMINDER_CREATED | NOTIFICATION_CREATED.
#[global] Instance eq_dec : EqDecision t.
Proof. solve_decision. Defined.
End ActivityType.

Module ReminderType.
Inductive t := CALIBRATION | RENTAL | SCHEDULE | MAINTENANCE.
End ReminderType.

Module ReminderStatus.
Inductive t := PENDING | SENT | ACKNOWLEDGED.
End ReminderStatus.

(** ** Values of a JSON request body

    A field of the parsed body is absent, null or a string (the routes
    read their fields as strings; numbers, booleans and nested values are
    left out).  Dates are instants (milliseconds), [DateTime?] columns are
    [option Z]. *)

Inductive JsValue := undefined | null | str (s : string).

(** JavaScript truthiness: [!v] is [negb (truthy v)]. *)
Definition truthy (v : JsValue) : bool :=
  match v with
  | str s => negb (String.eqb s EmptyString)
  | undefined | null => false
  end.

(** [`${v}`] *)
Definition template (v : JsValue) : string :=
  match v with
  | str s => s
  | undefined => "undefined"
  | null => "null"
  end.

(** [v || null] stored in a [String?] column. *)
Definition or_null (v : JsValue) : option string :=
  match v with
  | str s => if String.eqb s EmptyString then None else Some s
  | undefined | null => None
  end.

(** A [String?] column given [v]: [undefined] leaves the column unset. *)
Definition nullable (v : JsValue) : option string :=
  match v with
  | str s => Some s
  | undefined | null => None
  end.

(** ** Models of the schema *)

Module User.
Record t := mk {
  id : string;
  name : string;
  email : string;
  role : Role.t;
}.
End User.

Module Customer.
Record t := mk {
  id : string;
  name : string;
  isDeleted : bool;
}.
End Customer.

Module Item.
Record t := mk {
  serialNumber : string;
  name : string;
  partNumber : string;
  customerId : option string;
  status : ItemStatus.t;
  lastVerifiedAt : option Z;
  createdAt : Z;
  updatedAt : Z;
}.

(** [data: { status }], with the [@updatedAt] column refreshed. *)
Definition set_status (s : ItemStatus.t) (at_ : Z) (i : t) : t :=
  {| serialNumber := serialNumber i; name := name i;
     partNumber := partNumber i; customerId := customerId i;
     status := s; lastVerifiedAt := lastVerifiedAt i;
     createdAt := createdAt i; updatedAt := at_ |}.
End Item.

Module Rental.
Record t := mk {
  id : string;
  itemSerial : string;
  userId : string;
  customerId : option string;
  poNumber : option string;
  doNumber : option string;
  status : RequestStatus.t;
  startDate : Z;
  endDate : option Z;
  returnDate : option Z;
  createdAt : Z;
  updatedAt : Z;
  renterName : option string;
  renterPhone : option string;
  renterAddress : option string;
  initialCondition : option string;
  returnCondition : option string;
}.
End Rental.

Module RentalStatusLog.
Record t := mk {
  rentalId : string;
  status : RequestStatus.t;
  notes : option string;
  userId : string;
  createdAt : Z;
}.
End RentalStatusLog.

Module ActivityLog.
Record t := mk {
  type : ActivityType.t;
  action : string;
  details : option string;
  userId : string;
  itemSerial : option string;
  rentalId : option string;
  calibrationId : option string;
  maintenanceId : option string;
  affectedUserId : option string;
  customerId : option string;
  createdAt : Z;
}.
End ActivityLog.

Module ItemHistory.
Record t := mk {
  itemSerial : string;
  action : string;
  details : option string;
  relatedId : option string;
  startDate : Z;
  endDate : option Z;
  createdAt : Z;
}.

Definition set_endDate (e : Z) (h : t) : t :=
  {| itemSerial := itemSerial h; action := action h; details := details h;
     relatedId := relatedId h; startDate := startDate h;
     endDate := Some e; createdAt := createdAt h |}.
End ItemHistory.

Module Reminder.
Record t := mk {
  type : ReminderType.t;
  status : ReminderStatus.t;
  title : string;
  message : string;
  dueDate : Z;
  reminderDate : Z;
  itemSerial : option string;
  rentalId : option string;
  userId : string;
}.
End Reminder.

Module Notification.
Record t := mk {
  title : string;
  message : string;
  isRead : bool;
  shouldPlaySound : bool;
  reminderId : option string;
  userId : string;
}.
End Notification.

(** ** The entity store

    Tables with a primary key the handlers look up are finite maps; the
    append-only tables are lists in insertion order (a row is identified by
    its position). *)

Record Store := mkStore {
  users : gmap string User.t;
  customers : gmap string Customer.t;
  items : gmap string Item.t;
  rentals : gmap string Rental.t;
  rentalStatusLogs : list RentalStatusLog.t;
  activityLogs : list ActivityLog.t;
  itemHistories : list ItemHistory.t;
  reminders : list Reminder.t;
  notifications : list Notification.t;
}.

Definition set_items (f : gmap string Item.t → gmap string Item.t)
    (s : Store) : Store :=
  mkStore (users s) (customers s) (f (items s)) (rentals s)
    (rentalStatusLogs s) (activityLogs s) (itemHistories s)
    (reminders s) (notifications s).

Definition set_rentals (f : gmap string Rental.t → gmap string Rental.t)
    (s : Store) : Store :=
  mkStore (users s) (customers s) (items s) (f (rentals s))
    (rentalStatusLogs s) (activityLogs s) (itemHistories s)
    (reminders s) (notifications s).

Definition set_rentalStatusLogs
    (f : list RentalStatusLog.t → list RentalStatusLog.t)
    (s : Store) : Store :=
  mkStore (users s) (customers s) (items s) (rentals s)
    (f (rentalStatusLogs s)) (activityLogs s) (itemHistories s)
    (reminders s) (notifications s).

Definition set_activityLogs (f : list ActivityLog.t → list ActivityLog.t)
    (s : Store) : Store :=
  mkStore (users s) (customers s) (items s) (rentals s)
    (rentalStatusLogs s) (f (activityLogs s)) (itemHistories s)
    (reminders s) (notifications s).

Definition set_itemHistories (f : list ItemHistory.t → list ItemHistory.t)
    (s : Store) : Store :=
  mkStore (users s) (customers s) (items s) (rentals s)
    (rentalStatusLogs s) (activityLogs s) (f (itemHistories s))
    (reminders s) (notifications s).

Definition set_reminding (rs : list Reminder.t) (ns : list Notification.t)
    (s : Store) : Store :=
  mkStore (users s) (customers s) (items s) (rentals s)
    (rentalStatusLogs s) (activityLogs s) (itemHistories s) rs ns.

(** The store and the number of effects performed so far: every round trip
    to the store, clock read and uuid draw takes the next tick, and the
    oracles are indexed by it. *)
Record World := mkWorld {
  db : Store;
  tick : nat;
}.

(** ** Exceptions *)

Inductive Exn :=
| RecordNotFound          (* update of a row that is not there *)
| ForeignKeyViolation     (* relation field pointing nowhere *)
| UniqueViolation         (* primary key already taken *)
| ValidationError         (* value refused for a column: bad enum, bad date *)
| StoreUnavailable        (* the round trip to the store failed *)
| HelperRejected.         (* a promise of a library helper rejected *)

(** ** Environment

    The oracles of a run: the clock, whether the store answers a round trip,
    the uuid generator and the parser of date strings, each indexed by the
    tick at which it is consulted. *)

Record Env := mkEnv {
  now : nat → Z;
  db_up : nat → bool;
  uuid : nat → string;
  parse_date : string → option Z;
}.

(** Modelled from the spec: the helpers of [@/lib] that the routes call after
    the commit ([notification-service], [reminder-service],
    [activity-logger]) are not among the sources, and are parameters of the
    routes.  By the specification the notification and reminder services
    create and update reminders and notifications, and the audit logger
    appends activity-log rows: a helper is any function of the world that
    may reject and that writes the tables its service owns. *)

Record Lib := mkLib {
  lib_createInstantNotificationForReminder :
    string → ReminderType.t → World →
    option Exn * (list Reminder.t * list Notification.t);
  lib_handleRentalStatusChange :
    string → RequestStatus.t → World →
    option Exn * (list Reminder.t * list Notification.t);
  lib_logRentalActivity :
    string → ActivityType.t → string → string → string → World →
    option Exn * list ActivityLog.t;
}.

(** ** The handler monad *)

Definition M (A : Type) : Type := Env → World → (Exn + A) * World.

Definition ret {A} (a : A) : M A := λ _ w, (inr a, w).

Definition throw {A} (e : Exn) : M A := λ _ w, (inl e, w).

Definition bind {A B} (m : M A) (k : A → M B) : M B :=
  λ env w,
    match m env w with
    | (inr a, w') => k a env w'
    | (inl e, w') => (inl e, w')
    end.

Declare Scope handler_scope.
Delimit Scope handler_scope with handler.
Notation "x <- m ;; k" := (bind m (λ x, k))
  (at level 100, m at next level, right associativity) : handler_scope.
Notation "m ;; k" := (bind m (λ _, k))
  (at level 100, right associativity) : handler_scope.
Local Open Scope handler_scope.

(** [try { m } catch (error) { h }] *)
Definition try_catch {A} (m : M A) (h : Exn → M A) : M A :=
  λ env w,
    match m env w with
    | (inr a, w') => (inr a, w')
    | (inl e, w') => h e env w'
    end.

Definition next (w : World) : World := mkWorld (db w) (S (tick w)).

(** One round trip to the store. *)
Definition query : M unit :=
  λ env w,
    if db_up env (tick w) then (inr tt, next w)
    else (inl StoreUnavailable, next w).

(** [new Date()], and [now()] as a column default. *)
Definition new_Date : M Z := λ env w, (inr (now env (tick w)), next w).

(** [uuid()] as a column default. *)
Definition new_uuid : M string := λ env w, (inr (uuid env (tick w)), next w).

Definition read : M Store := λ _ w, (inr (db w), w).

Definition write (f : Store → Store) : M unit :=
  λ _ w, (inr tt, mkWorld (f (db w)) (tick w)).

(** [prisma.$transaction(async (tx) => body)]: the writes of [body] are
    kept when [body] returns and the commit goes through, and all of them
    are undone when [body] throws or the commit fails. *)
Definition transaction {A} (body : M A) : M A :=
  λ env w,
    match (query ;; a <- body ;; query ;; ret a) env w with
    | (inr a, w') => (inr a, w')
    | (inl e, w') => (inl e, mkWorld (db w) (tick w'))
    end.

(** A [Date] object: [new Date(s)] is invalid when [s] does not parse. *)
Inductive JsDate := ValidDate (z : Z) | InvalidDate.

Definition Date_of (env : Env) (s : string) : JsDate :=
  match parse_date env s with
  | Some z => ValidDate z
  | None => InvalidDate
  end.

Definition new_Date_of (s : string) : M JsDate :=
  λ env w, (inr (Date_of env s), w).

(** A required body field: [None] when [!v]. *)
Definition required (v : JsValue) : option string :=
  match v with
  | str s => if String.eqb s EmptyString then None else Some s
  | undefined | null => None
  end.

(** [status === RequestStatus.X] for a string [status]. *)
Definition is_status (s : string) (x : RequestStatus.t) : bool :=
  String.eqb s (RequestStatus.to_string x).

(** ** The Prisma client

    Each call is one round trip.  [update] throws when the row is not there,
    [create] when a relation field points nowhere, and a value that does not
    fit its column is refused before the call is sent. *)

(** A rental with [include: { item: true, user: true }].  The two relation
    fields are foreign keys and always resolve in a store of the schema; in
    a store of the model where one does not, the call throws. *)
Module Included.
Record t := mk {
  rental : Rental.t;
  item : Item.t;
  user : User.t;
}.
End Included.

Definition include (s : Store) (r : Rental.t) : option Included.t :=
  match items s !! Rental.itemSerial r, users s !! Rental.userId r with
  | Some i, Some u => Some (Included.mk r i u)
  | _, _ => None
  end.

(** A relation field that may be null. *)
Definition refers {V} (k : option string) (m : gmap string V) : bool :=
  match k with
  | Some x => bool_decide (is_Some (m !! x))
  | None => true
  end.

Module RentalData.
(** The [data] object of [rental.update]: [None] is a key that is not
    there. *)
Record t := mk {
  status : option string;
  poNumber : option (option string);
  doNumber : option (option string);
  startDate : option JsDate;
  endDate : option JsDate;
  returnDate : option Z;
  returnCondition : option string;
}.

Definition status_only (s : string) : t :=
  mk (Some s) None None None None None None.

(** Whether every value fits its column. *)
Definition well_typed (d : t) : bool :=
  match status d with
  | Some s => bool_decide (is_Some (RequestStatus.of_string s))
  | None => true
  end
  && match startDate d with Some InvalidDate => false | _ => true end
  && match endDate d with Some InvalidDate => false | _ => true end.

(** A [data] object without a key: the client then writes nothing, the
    [@updatedAt] stamp included. *)
Definition is_empty (d : t) : bool :=
  match status d, poNumber d, doNumber d, startDate d, endDate d,
        returnDate d, returnCondition d with
  | None, None, None, None, None, None, None => true
  | _, _, _, _, _, _, _ => false
  end.

(** The columns after the update with well-typed [d]. *)
Definition apply (d : t) (at_ : Z) (r : Rental.t) : Rental.t :=
  {| Rental.id := Rental.id r;
     Rental.itemSerial := Rental.itemSerial r;
     Rental.userId := Rental.userId r;
     Rental.customerId := Rental.customerId r;
     Rental.poNumber := default (Rental.poNumber r) (poNumber d);
     Rental.doNumber := default (Rental.doNumber r) (doNumber d);
     Rental.status :=
       default (Rental.status r) (status d ≫= RequestStatus.of_string);
     Rental.startDate :=
       match startDate d with
       | Some (ValidDate z) => z
       | _ => Rental.startDate r
       end;
     Rental.endDate :=
       match endDate d with
       | Some (ValidDate z) => Some z
       | _ => Rental.endDate r
       end;
     Rental.returnDate :=
       match returnDate d with
       | Some z => Some z
       | None => Rental.returnDate r
       end;
     Rental.createdAt := Rental.createdAt r;
     Rental.updatedAt := if is_empty d then Rental.updatedAt r else at_;
     Rental.renterName := Rental.renterName r;
     Rental.renterPhone := Rental.renterPhone r;
     Rental.renterAddress := Rental.renterAddress r;
     Rental.initialCondition := Rental.initialCondition r;
     Rental.returnCondition :=
       match returnCondition d with
       | Some x => Some x
       | None => Rental.returnCondition r
       end |}.
End RentalData.

Module RentalCreate.
(** The [data] object of [rental.create]. *)
Record t := mk {
  itemSerial : string;
  userId : string;
  status : RequestStatus.t;
  startDate : JsDate;
  endDate : option JsDate;
  poNumber : option string;
  doNumber : option string;
  renterName : option string;
  renterPhone : option string;
  renterAddress : option string;
  initialCondition : option string;
  customerId : option string;
}.

(** The two dates when both fit their columns. *)
Definition dates (d : t) : option (Z * option Z) :=
  match startDate d, endDate d with
  | ValidDate sd, Some (ValidDate ed) => Some (sd, Some ed)
  | ValidDate sd, None => Some (sd, None)
  | _, _ => None
  end.

Definition row (d : t) (id : string) (at_ : Z) (sd : Z) (ed : option Z)
  : Rental.t :=
  Rental.mk id (itemSerial d) (userId d) (customerId d)
    (poNumber d) (doNumber d) (status d) sd ed None at_ at_
    (renterName d) (renterPhone d) (renterAddress d)
    (initialCondition d) None.
End RentalCreate.

Module prisma.

Module rental.
(** [findUnique({ where: { id }, include: { item: true, user: true } })];
    the routes that include the item alone read no more of the result. *)
Definition findUnique (id : string) : M (option Included.t) :=
  query ;;
  s <- read ;;
  match rentals s !! id with
  | None => ret None
  | Some r =>
      match include s r with
      | Some x => ret (Some x)
      | None => throw ForeignKeyViolation
      end
  end.

(** [update({ where: { id }, data, include: { item: true, user: true } })] *)
Definition update (id : string) (data : RentalData.t)
  : M Included.t :=
  if RentalData.well_typed data then
    at_ <- new_Date ;;
    query ;;
    s <- read ;;
    match rentals s !! id with
    | None => throw RecordNotFound
    | Some r =>
        let r' := RentalData.apply data at_ r in
        match include s r' with
        | None => throw ForeignKeyViolation
        | Some x =>
            write (set_rentals (insert id r')) ;;
            ret x
        end
    end
  else throw ValidationError.

(** [create({ data, include: { item: true, user: true } })] *)
Definition create (data : RentalCreate.t) : M Included.t :=
  match RentalCreate.dates data with
  | None => throw ValidationError
  | Some (sd, ed) =>
      id <- new_uuid ;;
      at_ <- new_Date ;;
      query ;;
      s <- read ;;
      let r := RentalCreate.row data id at_ sd ed in
      match rentals s !! id with
      | Some _ => throw UniqueViolation
      | None =>
          if refers (RentalCreate.customerId data) (customers s) then
            match include s r with
            | None => throw ForeignKeyViolation
            | Some x =>
                write (set_rentals (insert id r)) ;;
                ret x
            end
          else throw ForeignKeyViolation
      end
  end.
End rental.

Module item.
(** [findUnique({ where: { serialNumber } })] *)
Definition findUnique (serialNumber : string) : M (option Item.t) :=
  query ;;
  s <- read ;;
  ret (items s !! serialNumber).

(** [update({ where: { serialNumber }, data: { status } })] *)
Definition update (serialNumber : string) (status : ItemStatus.t)
  : M unit :=
  at_ <- new_Date ;;
  query ;;
  s <- read ;;
  match items s !! serialNumber with
  | None => throw RecordNotFound
  | Some i =>
      write (set_items (insert serialNumber (Item.set_status status at_ i)))
  end.
End item.

Module customer.
(** [findUnique({ where: { id } })] *)
Definition findUnique (id : string) : M (option Customer.t) :=
  query ;;
  s <- read ;;
  ret (customers s !! id).
End customer.

Module rentalStatusLog.
(** [create({ data: { rentalId, status, userId, notes } })] *)
Definition create (rentalId status userId notes : string) : M unit :=
  match RequestStatus.of_string status with
  | None => throw ValidationError
  | Some st =>
      at_ <- new_Date ;;
      query ;;
      s <- read ;;
      if bool_decide (is_Some (rentals s !! rentalId))
         && bool_decide (is_Some (users s !! userId))
      then
        write (set_rentalStatusLogs
                 (λ l, (l ++ [RentalStatusLog.mk rentalId st (Some notes)
                                userId at_])%list))
      else throw ForeignKeyViolation
  end.
End rentalStatusLog.

Module itemHistory.
(** The [where] of the one [updateMany] of the routes:
    [{ itemSerial, action, relatedId, endDate: null }]. *)
Definition open_row (itemSerial action relatedId : string)
    (h : ItemHistory.t) : bool :=
  String.eqb (ItemHistory.itemSerial h) itemSerial
  && String.eqb (ItemHistory.action h) action
  && bool_decide (ItemHistory.relatedId h = Some relatedId)
  && bool_decide (ItemHistory.endDate h = None).

(** [updateMany({ where: { itemSerial, action, relatedId, endDate: null },
                  data: { endDate } })] *)
Definition updateMany (itemSerial action relatedId : string) (endDate : Z)
  : M unit :=
  query ;;
  write (set_itemHistories
           (map (λ h, if open_row itemSerial action relatedId h
                      then ItemHistory.set_endDate endDate h else h))).
End itemHistory.

Module activityLog.
Record data := mk {
  type : ActivityType.t;
  action : string;
  userId : string;
  itemSerial : option string;
  rentalId : option string;
  affectedUserId : option string;
  customerId : option string;
}.

Definition row (d : data) (at_ : Z) : ActivityLog.t :=
  ActivityLog.mk (type d) (action d) None (userId d) (itemSerial d)
    (rentalId d) None None (affectedUserId d) (customerId d) at_.

(** [create({ data })]: [customerId] is a plain column of the activity
    log, the other references are relations. *)
Definition create (d : data) : M unit :=
  at_ <- new_Date ;;
  query ;;
  s <- read ;;
  if bool_decide (is_Some (users s !! userId d))
     && refers (itemSerial d) (items s)
     && refers (rentalId d) (rentals s)
     && refers (affectedUserId d) (users s)
  then write (set_activityLogs (λ l, (l ++ [row d at_])%list))
  else throw ForeignKeyViolation.
End activityLog.

Definition _transaction {A} (body : M A) : M A := transaction body.

End prisma.

(** Inside [$transaction] the callback receives the client as [tx]. *)
Module tx := prisma.

(** ** Requests and responses *)

(** The authenticated principal of a request. *)
Module Session.
Record t := mk {
  userId : string;
  name : JsValue;
  role : Role.t;
}.
End Session.

(** A request: who sent it, and its parsed JSON body ([None] when the body
    does not parse and [req.json()] rejects). *)
Record NextRequest (B : Type) := mkRequest {
  session : option Session.t;
  json : option B;
}.
Arguments mkRequest {B} _ _.
Arguments session {B} _.
Arguments json {B} _.

Inductive Body :=
| error (msg : string)
| data (r : Included.t).

Module NextResponse.
Record t := mk {
  body : Body;
  status : nat;
}.

(** [NextResponse.json(body, { status })] *)
Definition json (b : Body) (status : nat) : t := mk b status.

(** [NextResponse.json(body)] *)
Definition ok (r : Included.t) : t := mk (data r) 200.
End NextResponse.

Definition Handler : Type := Env → World → NextResponse.t * World.

(** The [try { ... } catch (error) { return NextResponse.json(..., 500) }]
    every route is wrapped in. *)
Definition route (m : M NextResponse.t) (failed : string) : Handler :=
  λ env w,
    match m env w with
    | (inr r, w') => (r, w')
    | (inl _, w') => (NextResponse.json (error failed) 500, w')
    end.

(** [await req.json()] *)
Definition req_json {B} (req : NextRequest B) : M B :=
  match json req with
  | Some b => ret b
  | None => throw ValidationError
  end.

(** Modelled from the spec: [getUserFromRequest] and [isAdmin] of [@/lib/auth]
    are not among the sources; the caller is an already-authenticated
    principal with an id and a role in ADMIN, USER. *)
Definition getUserFromRequest {B} (req : NextRequest B) : option Session.t :=
  session req.

Definition isAdmin (u : Session.t) : bool :=
  bool_decide (Session.role u = Role.ADMIN).

(** Modelled from the spec: [verifyAdmin] of [@/app/api/auth/authUtils] is
    not among the sources; it yields the principal when it is an admin. *)
Definition verifyAdmin {B} (req : NextRequest B) : option Session.t :=
  match session req with
  | Some u => if isAdmin u then Some u else None
  | None => None
  end.

(** ** The helpers called after the commit *)

(** Awaiting a helper of the notification or reminder service: its rows
    replace the two tables it owns, and its rejection is thrown. *)
Definition await_reminding
    (h : World → option Exn * (list Reminder.t * list Notification.t))
  : M unit :=
  λ _ w,
    let w' := mkWorld (set_reminding (h w).2.1 (h w).2.2 (db w)) (S (tick w)) in
    match (h w).1 with
    | Some e => (inl e, w')
    | None => (inr tt, w')
    end.

Definition createInstantNotificationForReminder (lib : Lib) (id : string)
    (type : ReminderType.t) : M unit :=
  await_reminding (lib_createInstantNotificationForReminder lib id type).

Definition handleRentalStatusChange (lib : Lib) (id : string)
    (status : RequestStatus.t) : M unit :=
  await_reminding (lib_handleRentalStatusChange lib id status).

(** Awaiting the activity logger: its rows are appended to the activity
    log, and its rejection is thrown. *)
Definition logRentalActivity (lib : Lib) (userId : string)
    (type : ActivityType.t) (rentalId itemSerial action : string) : M unit :=
  λ _ w,
    let r := lib_logRentalActivity lib userId type rentalId itemSerial action w in
    let w' := mkWorld (set_activityLogs (λ l, (l ++ r.2)%list) (db w))
                (S (tick w)) in
    match r.1 with
    | Some e => (inl e, w')
    | None => (inr tt, w')
    end.

(** ** [app/api/admin/rentals/route.ts] *)

Module AdminRentals.

Record PatchBody := mkPatch {
  p_id : JsValue;
  p_status : JsValue;
  p_notes : JsValue;
  p_returnCondition : JsValue;
}.

(** The item status derived from the new rental status. *)
Definition newItemStatus (status : string) : option ItemStatus.t :=
  if is_status status RequestStatus.APPROVED then Some ItemStatus.RENTED
  else if is_status status RequestStatus.COMPLETED then Some ItemStatus.AVAILABLE
  else if is_status status RequestStatus.REJECTED then Some ItemStatus.AVAILABLE
  else None.

(** The callback of the transaction of [PATCH]. *)
Definition PATCH_tx (adminId id status : string) (notes returnCondition : JsValue)
    (currentRental : Included.t) : M Included.t :=
  (* Update rental status *)
  returnDate <-
    (if is_status status RequestStatus.COMPLETED
        && bool_decide (Rental.returnDate (Included.rental currentRental) = None)
     then d <- new_Date ;; ret (Some d)
     else ret None) ;;
  updated <-
    tx.rental.update id
      (RentalData.mk (Some status) None None None None returnDate
         (required returnCondition)) ;;
  (* Create a status log *)
  tx.rentalStatusLog.create id status adminId
    (default ("Status changed to " +:+ status) (required notes)) ;;
  (* Update item status based on rental status *)
  (if is_status status RequestStatus.COMPLETED then
     (* Update item history to mark the end of the rental period *)
     endDate <- new_Date ;;
     tx.itemHistory.updateMany
       (Rental.itemSerial (Included.rental currentRental)) "RENTED" id endDate
   else ret tt) ;;
  (* Update the item status if needed *)
  match newItemStatus status with
  | Some st => tx.item.update (Rental.itemSerial (Included.rental currentRental)) st
  | None => ret tt
  end ;;
  (* Create activity log *)
  tx.activityLog.create
    (tx.activityLog.mk ActivityType.RENTAL_UPDATED
       ("Updated rental status to " +:+ status) adminId
       (Some (Rental.itemSerial (Included.rental currentRental))) (Some id)
       (Some (Rental.userId (Included.rental currentRental))) None) ;;
  ret updated.

(** PATCH - Update rental status *)
Definition PATCH (lib : Lib) (req : NextRequest PatchBody) : Handler :=
  route
    match getUserFromRequest req with
    | None => ret (NextResponse.json (error "Unauthorized") 401)
    | Some user =>
    if negb (isAdmin user)
    then ret (NextResponse.json (error "Unauthorized") 401) else
    let adminId := Session.userId user in
    b <- req_json req ;;
    match required (p_id b), required (p_status b) with
    | Some id, Some status =>
        (* Check if rental exists *)
        currentRental <- prisma.rental.findUnique id ;;
        match currentRental with
        | None => ret (NextResponse.json (error "Rental not found") 404)
        | Some currentRental =>
            updatedRental <-
              prisma._transaction
                (PATCH_tx adminId id status (p_notes b)
                   (p_returnCondition b) currentRental) ;;
            (* Fire and forget: create reminder and notification if approved *)
            (if is_status status RequestStatus.APPROVED then
               try_catch
                 (createInstantNotificationForReminder lib id
                    ReminderType.RENTAL)
                 (λ _, ret tt)
             else ret tt) ;;
            ret (NextResponse.ok updatedRental)
        end
    | _, _ => ret (NextResponse.json (error "Missing required fields") 400)
    end
    end
    "Failed to update rental status".

Record PostBody := mkPost {
  c_itemSerial : JsValue;
  c_startDate : JsValue;
  c_endDate : JsValue;
  c_poNumber : JsValue;
  c_doNumber : JsValue;
  c_customerId : JsValue;
  c_renterName : JsValue;
  c_renterPhone : JsValue;
  c_renterAddress : JsValue;
  c_initialCondition : JsValue;
}.

(** The callback of the transaction of [POST]. *)
Definition POST_tx (user : Session.t) (itemSerial startDate : string)
    (b : PostBody) (item : Item.t) : M Included.t :=
  (* Create a new rental (APPROVED by default when admin creates it) *)
  startDate' <- new_Date_of startDate ;;
  endDate' <-
    match required (c_endDate b) with
    | Some e => d <- new_Date_of e ;; ret (Some d)
    | None => ret None
    end ;;
  newRental <-
    tx.rental.create
      (RentalCreate.mk itemSerial (Session.userId user)
         RequestStatus.APPROVED startDate' endDate'
         (nullable (c_poNumber b)) (nullable (c_doNumber b))
         (or_null (c_renterName b)) (or_null (c_renterPhone b))
         (or_null (c_renterAddress b)) (or_null (c_initialCondition b))
         (or_null (c_customerId b))) ;;
  (* Create a status log *)
  tx.rentalStatusLog.create (Rental.id (Included.rental newRental))
    (RequestStatus.to_string RequestStatus.APPROVED) (Session.userId user)
    "Rental created and approved by admin" ;;
  (* Update the item status to RENTED *)
  tx.item.update itemSerial ItemStatus.RENTED ;;
  (* Create activity log *)
  tx.activityLog.create
    (tx.activityLog.mk ActivityType.RENTAL_CREATED
       ("Created new rental for " +:+ Item.name item +:+
        (if truthy (c_customerId b) then " for customer" else EmptyString))
       (Session.userId user) (Some itemSerial)
       (Some (Rental.id (Included.rental newRental)))
       (Some (Session.userId user)) (or_null (c_customerId b))) ;;
  ret newRental.

(** POST - Create a new rental request by admin *)
Definition POST (lib : Lib) (req : NextRequest PostBody) : Handler :=
  route
    match getUserFromRequest req with
    | None => ret (NextResponse.json (error "Unauthorized") 401)
    | Some user =>
    if negb (isAdmin user)
    then ret (NextResponse.json (error "Unauthorized") 401) else
    b <- req_json req ;;
    match required (c_itemSerial b), required (c_startDate b) with
    | Some itemSerial, Some startDate =>
        (* Check if item exists and is available *)
        item <- prisma.item.findUnique itemSerial ;;
        match item with
        | None => ret (NextResponse.json (error "Item not found") 404)
        | Some item =>
        if negb (bool_decide (Item.status item = ItemStatus.AVAILABLE))
        then ret (NextResponse.json
                    (error "Item is not available for rental") 400)
        else
        (* Check if the customer exists (if provided) *)
        customer_missing <-
          match required (c_customerId b) with
          | Some customerId =>
              customer <- prisma.customer.findUnique customerId ;;
              ret (bool_decide (customer = None))
          | None => ret false
          end ;;
        if (customer_missing : bool)
        then ret (NextResponse.json (error "Customer not found") 404)
        else
        rental <-
          prisma._transaction (POST_tx user itemSerial startDate b item) ;;
        (* Create rental reminder and notification instantly *)
        try_catch
          (createInstantNotificationForReminder lib
             (Rental.id (Included.rental rental)) ReminderType.RENTAL)
          (λ _, ret tt) ;;
        ret (NextResponse.ok rental)
        end
    | _, _ => ret (NextResponse.json (error "Missing required fields") 400)
    end
    end
    "Failed to create rental".

End AdminRentals.

(** ** [app/api/admin/rentals/[id]/route.ts] *)

Module AdminRentalsId.

Record PatchBody := mkPatch {
  p_status : JsValue;
  p_notes : JsValue;
  p_poNumber : JsValue;
  p_doNumber : JsValue;
  p_startDate : JsValue;
  p_endDate : JsValue;
}.

(** The item status derived from the new rental status. *)
Definition newItemStatus (status : string) : option ItemStatus.t :=
  if is_status status RequestStatus.APPROVED then Some ItemStatus.RENTED
  else if is_status status RequestStatus.COMPLETED then Some ItemStatus.AVAILABLE
  else if is_status status RequestStatus.REJECTED
          || is_status status RequestStatus.CANCELLED
  then Some ItemStatus.AVAILABLE
  else None.

(** [if (v !== undefined) updateData.k = v] for a [String?] column. *)
Definition if_defined (v : JsValue) : option (option string) :=
  match v with
  | undefined => None
  | null => Some None
  | str s => Some (Some s)
  end.

(** Prepare update data: only the fields that are provided. *)
Definition updateData (b : PatchBody) (currentRental : Included.t)
  : M RentalData.t :=
  startDate <-
    match required (p_startDate b) with
    | Some s => d <- new_Date_of s ;; ret (Some d)
    | None => ret None
    end ;;
  endDate <-
    match required (p_endDate b) with
    | Some s => d <- new_Date_of s ;; ret (Some d)
    | None => ret None
    end ;;
  (* If completing a rental, set the returnDate if not already set *)
  returnDate <-
    (if match required (p_status b) with
        | Some status => is_status status RequestStatus.COMPLETED
        | None => false
        end
        && bool_decide (Rental.returnDate (Included.rental currentRental) = None)
     then d <- new_Date ;; ret (Some d)
     else ret None) ;;
  ret (RentalData.mk (required (p_status b)) (if_defined (p_poNumber b))
         (if_defined (p_doNumber b)) startDate endDate returnDate None).

(** The callback of the transaction of [PATCH]. *)
Definition PATCH_tx (adminId rentalId : string) (b : PatchBody)
    (updateData : RentalData.t) (currentRental : Included.t)
  : M Included.t :=
  (* Update the rental *)
  updated <- tx.rental.update rentalId updateData ;;
  (* Create status log if status changed *)
  match required (p_status b) with
  | Some status =>
      tx.rentalStatusLog.create rentalId status adminId
        (default ("Status updated to " +:+ status +:+ " by admin")
           (required (p_notes b))) ;;
      (* Update the item status if needed *)
      match newItemStatus status with
      | Some st =>
          tx.item.update (Rental.itemSerial (Included.rental currentRental)) st
      | None => ret tt
      end ;;
      (* Create activity log *)
      tx.activityLog.create
        (tx.activityLog.mk ActivityType.RENTAL_UPDATED
           ("Updated rental status to " +:+ status) adminId
           (Some (Rental.itemSerial (Included.rental currentRental)))
           (Some rentalId)
           (Some (Rental.userId (Included.rental currentRental))) None)
  | None =>
      (* If only details were updated (not status) *)
      tx.activityLog.create
        (tx.activityLog.mk ActivityType.RENTAL_UPDATED
           ("Updated rental details for "
            +:+ Item.name (Included.item currentRental)) adminId
           (Some (Rental.itemSerial (Included.rental currentRental)))
           (Some rentalId)
           (Some (Rental.userId (Included.rental currentRental))) None)
  end ;;
  ret updated.

(** PATCH - Update specific rental *)
Definition PATCH (lib : Lib) (req : NextRequest PatchBody)
    (rentalId : string) : Handler :=
  route
    match verifyAdmin req with
    | None => ret (NextResponse.json (error "Unauthorized") 401)
    | Some user =>
    let adminId := Session.userId user in
    b <- req_json req ;;
    (* Find rental *)
    currentRental <- prisma.rental.findUnique rentalId ;;
    match currentRental with
    | None => ret (NextResponse.json (error "Rental not found") 404)
    | Some currentRental =>
        d <- updateData b currentRental ;;
        (* Start a transaction *)
        updatedRental <-
          prisma._transaction (PATCH_tx adminId rentalId b d currentRental) ;;
        (* Create activity log *)
        logRentalActivity lib adminId ActivityType.RENTAL_UPDATED rentalId
          (Rental.itemSerial (Included.rental currentRental))
          ("Admin "
           +:+ default "Unknown" (required (Session.name user))
           +:+ " updated rental status to " +:+ template (p_status b)) ;;
        (* Create rental reminder if status is APPROVED *)
        (if match required (p_status b) with
            | Some status => is_status status RequestStatus.APPROVED
            | None => false
            end
         then
           try_catch
             (handleRentalStatusChange lib rentalId RequestStatus.APPROVED)
             (λ _, ret tt)
         else ret tt) ;;
        ret (NextResponse.ok updatedRental)
    end
    end
    "Failed to update rental".

(** The callback of the transaction of [DELETE]. *)
Definition DELETE_tx (adminId rentalId : string) (rental : Included.t)
  : M Included.t :=
  (* Update rental status to cancelled *)
  updated <-
    tx.rental.update rentalId
      (RentalData.status_only
         (RequestStatus.to_string RequestStatus.CANCELLED)) ;;
  (* Create status log *)
  tx.rentalStatusLog.create rentalId
    (RequestStatus.to_string RequestStatus.CANCELLED) adminId
    "Rental cancelled by admin" ;;
  (* Update item status to AVAILABLE if it was RENTED *)
  (if bool_decide (Item.status (Included.item rental) = ItemStatus.RENTED)
   then tx.item.update (Rental.itemSerial (Included.rental rental))
          ItemStatus.AVAILABLE
   else ret tt) ;;
  (* Create activity log *)
  tx.activityLog.create
    (tx.activityLog.mk ActivityType.RENTAL_UPDATED
       ("Cancelled rental for " +:+ Item.name (Included.item rental)) adminId
       (Some (Rental.itemSerial (Included.rental rental))) (Some rentalId)
       (Some (Rental.userId (Included.rental rental))) None) ;;
  ret updated.

(** DELETE - Delete rental (soft delete or cancel) *)
Definition DELETE (req : NextRequest unit) (rentalId : string) : Handler :=
  route
    match verifyAdmin req with
    | None => ret (NextResponse.json (error "Unauthorized") 401)
    | Some user =>
    let adminId := Session.userId user in
    (* Find rental *)
    rental <- prisma.rental.findUnique rentalId ;;
    match rental with
    | None => ret (NextResponse.json (error "Rental not found") 404)
    | Some rental =>
        (* Cancel the rental instead of deleting *)
        updatedRental <-
          prisma._transaction (DELETE_tx adminId rentalId rental) ;;
        ret (NextResponse.ok updatedRental)
    end
    end
    "Failed to cancel rental".

End AdminRentalsId.

(** * Specification *)

(** An environment whose store answers every call. *)
Definition reliable (env : Env) : Prop := ∀ n, db_up env n = true.


(** What [tx.item.update] leaves in the item table. *)
Definition item_status_set (sn : string) (ist : ItemStatus.t)
    (s s' : Store) : Prop :=
  ∃ i at_, items s !! sn = Some i
    ∧ items s' = <[sn := Item.set_status ist at_ i]> (items s).

(** The item table after the optional item update of a transition. *)
Definition item_derived (sn : string) (ist : option ItemStatus.t)
    (s s' : Store) : Prop :=
  match ist with
  | Some st => item_status_set sn st s s'
  | None => items s' = items s
  end.

(** Closing the open history rows of a rental. *)
Definition close_history (sn id : string) (e : Z) (l : list ItemHistory.t)
  : list ItemHistory.t :=
  map (λ h, if prisma.itemHistory.open_row sn "RENTED" id h
            then ItemHistory.set_endDate e h else h) l.


(** The store after the helper of the notification service ran on [w]. *)
Definition reminded
    (h : World → option Exn * (list Reminder.t * list Notification.t))
    (w : World) : Store :=
  set_reminding (h w).2.1 (h w).2.2 (db w).


(** The tables of the store that the notification and reminder services do
    not own. *)
Definition core (s : Store) : Store := set_reminding [] [] s.

(** The helpers with another notification helper. *)
Definition with_notifier
    (h : string → ReminderType.t → World →
         option Exn * (list Reminder.t * list Notification.t))
    (lib : Lib) : Lib :=
  mkLib h (lib_handleRentalStatusChange lib) (lib_logRentalActivity lib).

(** The helpers with another reminder helper. *)
Definition with_reminder
    (h : string → RequestStatus.t → World →
         option Exn * (list Reminder.t * list Notification.t))
    (lib : Lib) : Lib :=
  mkLib (lib_createInstantNotificationForReminder lib) h
    (lib_logRentalActivity lib).

(** The effects of one status transition of rental [id] to [st], from store
    [s] to store [s']: the rental row carries [st], one status-log row was
    appended, the activity log grew by [act] for this rental followed by
    [rest], and the item has the derived status. *)
Definition transition_applied (id : string) (st : RequestStatus.t)
    (actor : string) (derived : option ItemStatus.t)
    (rest : list ActivityLog.t) (s s' : Store) : Prop :=
  ∃ r r' log act,
    rentals s !! id = Some r
    ∧ rentals s' !! id = Some r'
    ∧ Rental.status r' = st
    ∧ rentalStatusLogs s' = (rentalStatusLogs s ++ [log])%list
    ∧ RentalStatusLog.rentalId log = id
    ∧ RentalStatusLog.status log = st
    ∧ RentalStatusLog.userId log = actor
    ∧ activityLogs s' = (activityLogs s ++ act :: rest)%list
    ∧ ActivityLog.userId act = actor
    ∧ ActivityLog.rentalId act = Some id
    ∧ ActivityLog.itemSerial act = Some (Rental.itemSerial r)
    ∧ ActivityLog.affectedUserId act = Some (Rental.userId r)
    ∧ item_derived (Rental.itemSerial r) derived s s'.

(** The effects of the creation of an approved rental by [actor] for the
    item [sn]. *)
Definition creation_applied (r' : Rental.t) (actor sn : string)
    (s s' : Store) : Prop :=
  ∃ log act,
    rentals s !! Rental.id r' = None
    ∧ rentals s' = <[Rental.id r' := r']> (rentals s)
    ∧ Rental.status r' = RequestStatus.APPROVED
    ∧ Rental.itemSerial r' = sn
    ∧ Rental.userId r' = actor
    ∧ item_status_set sn ItemStatus.RENTED s s'
    ∧ rentalStatusLogs s' = (rentalStatusLogs s ++ [log])%list
    ∧ RentalStatusLog.rentalId log = Rental.id r'
    ∧ RentalStatusLog.status log = RequestStatus.APPROVED
    ∧ RentalStatusLog.userId log = actor
    ∧ activityLogs s' = (activityLogs s ++ [act])%list
    ∧ ActivityLog.type act = ActivityType.RENTAL_CREATED
    ∧ ActivityLog.userId act = actor
    ∧ ActivityLog.rentalId act = Some (Rental.id r')
    ∧ ActivityLog.itemSerial act = Some sn.

(** The rejection of a creation against a busy item. *)
Definition ItemNotAvailableError : NextResponse.t :=
  NextResponse.json (error "Item is not available for rental") 400.

(** Modelled from the spec: [logRentalActivity] of [@/lib/activity-logger]
    is not among the sources.  The audit logger of the specification
    "appends ... an activity-log row for every transition and every
    create/update/delete of tracked entities": called with the acting user,
    the activity type, the rental, the item and the action text, the helper
    appends the one row they describe. *)
Definition logRentalActivity_model (clock : nat → Z) (userId : string)
    (type : ActivityType.t) (rentalId itemSerial action : string) (w : World)
  : option Exn * list ActivityLog.t :=
  (None,
   [ActivityLog.mk type action None userId (Some itemSerial) (Some rentalId)
      None None None None (clock (tick w))]).

(** ** A small store to run the routes on *)

Module Fixture.

Definition admin : User.t :=
  User.mk "admin-1" "Admin" "admin@example.test" Role.ADMIN.

Definition renter : User.t :=
  User.mk "user-1" "Renter" "renter@example.test" Role.USER.

Definition detector (st : ItemStatus.t) : Item.t :=
  Item.mk "SN-001" "Gas detector" "PN-100" None st None 0 0.

Definition rental1 (st : RequestStatus.t) : Rental.t :=
  Rental.mk "rental-1" "SN-001" "user-1" None None None st 10 (Some 20)
    None 5 5 None None None None None.

(** The history row opened when the detector was handed out. *)
Definition handed_out : ItemHistory.t :=
  ItemHistory.mk "SN-001" "RENTED" None (Some "rental-1") 10 None 10.

Definition store (rst : RequestStatus.t) (ist : ItemStatus.t) : Store :=
  mkStore {[ "admin-1" := admin; "user-1" := renter ]} ∅
    {[ "SN-001" := detector ist ]} {[ "rental-1" := rental1 rst ]}
    [] [] [handed_out] [] [].

Definition world (rst : RequestStatus.t) (ist : ItemStatus.t) : World :=
  mkWorld (store rst ist) 0.

Definition clock (n : nat) : Z := 1000 + Z.of_nat n.

(** A notification service that schedules one reminder and shows one
    notification. *)
Definition notify (id : string) (type : ReminderType.t) (w : World)
  : option Exn * (list Reminder.t * list Notification.t) :=
  (None,
   ((reminders (db w)
     ++ [Reminder.mk type ReminderStatus.PENDING "Rental due" "Rental due"
           20 19 None (Some id) "admin-1"])%list,
    (notifications (db w)
     ++ [Notification.mk "Rental due" "Rental due" false true None
           "admin-1"])%list)).

(** A notification service that is down. *)
Definition notify_down (id : string) (type : ReminderType.t) (w : World)
  : option Exn * (list Reminder.t * list Notification.t) :=
  (Some HelperRejected, (reminders (db w), notifications (db w))).

Definition remind (id : string) (st : RequestStatus.t) (w : World)
  : option Exn * (list Reminder.t * list Notification.t) :=
  (None, (reminders (db w), notifications (db w))).

Definition env : Env :=
  mkEnv clock (λ _, true) (λ _, "rental-2")
    (λ s, if String.eqb s "2025-01-01" then Some 1735689600000
          else if String.eqb s "2025-02-01" then Some 1738368000000
          else None).

Definition lib : Lib := mkLib notify remind (logRentalActivity_model clock).

Definition session : Session.t :=
  Session.mk "admin-1" (str "Admin") Role.ADMIN.

(** [PATCH /api/admin/rentals] with [{ id: "rental-1", status }]. *)
Definition patch (status : string) : NextRequest AdminRentals.PatchBody :=
  mkRequest (Some session)
    (Some (AdminRentals.mkPatch (str "rental-1") (str status)
             undefined undefined)).

(** [PATCH /api/admin/rentals/rental-1] with [{ status }]. *)
Definition patch_by_id (status : string)
  : NextRequest AdminRentalsId.PatchBody :=
  mkRequest (Some session)
    (Some (AdminRentalsId.mkPatch (str status) undefined undefined
             undefined undefined undefined)).

(** [DELETE /api/admin/rentals/rental-1]. *)
Definition delete : NextRequest unit := mkRequest (Some session) (Some tt).

(** [POST /api/admin/rentals] for the detector. *)
Definition post : NextRequest AdminRentals.PostBody :=
  mkRequest (Some session)
    (Some (AdminRentals.mkPost (str "SN-001") (str "2025-01-01")
             (str "2025-02-01") undefined undefined undefined
             (str "Budi") undefined undefined undefined)).

(** The store before the detector was first requested. *)
Definition fresh (ist : ItemStatus.t) : World :=
  mkWorld
    (mkStore {[ "admin-1" := admin; "user-1" := renter ]} ∅
       {[ "SN-001" := detector ist ]} ∅ [] [] [] [] []) 0.

End Fixture.

(** Two runs that return the same and agree on the tables outside the
    notification and reminder services. *)
Definition agree {A} (x y : A * World) : Prop :=
  x.1 = y.1 ∧ core (db x.2) = core (db y.2).

(** * More of the routes *)

(** ** [GET] of [app/api/admin/rentals/[id]/route.ts] *)

Module RentalDetail.
(** A status-log row with
    [include: { changedBy: { select: { id: true, name: true } } }]. *)
Record log := mklog {
  row : RentalStatusLog.t;
  changedBy_id : string;
  changedBy_name : string;
}.

(** A rental with its item, the selected columns of its user and its status
    logs. *)
Record t := mk {
  rental : Rental.t;
  item : Item.t;
  user_id : string;
  user_name : string;
  user_email : string;
  statusLogs : list log;
}.
End RentalDetail.

(** [orderBy: { createdAt: 'desc' }] on the status logs: [a] may come before
    [b].  Rows of the same instant come in the order the sort leaves them;
    the store promises none. *)
Definition newer_first (a b : RentalStatusLog.t) : Prop :=
  (RentalStatusLog.createdAt b ≤ RentalStatusLog.createdAt a)%Z.

#[global] Instance newer_first_dec a b : Decision (newer_first a b).
Proof. unfold newer_first. apply _. Defined.

Module AdminRentalsIdGet.

Definition with_changedBy (s : Store) (l : RentalStatusLog.t)
  : option RentalDetail.log :=
  match users s !! RentalStatusLog.userId l with
  | Some u => Some (RentalDetail.mklog l (User.id u) (User.name u))
  | None => None
  end.

(** The status logs of a rental, newest first, each with who changed it. *)
Definition statusLogs_of (s : Store) (id : string)
  : option (list RentalDetail.log) :=
  mapM (with_changedBy s)
    (merge_sort newer_first
       (filter (λ l, RentalStatusLog.rentalId l = id) (rentalStatusLogs s))).

(** [findUnique({ where: { id }, include: { item: true,
      user: { select: { id, name, email } },
      statusLogs: { include: { changedBy: ... },
                    orderBy: { createdAt: 'desc' } } } })] *)
Definition findUnique (id : string) : M (option RentalDetail.t) :=
  query ;;
  s <- read ;;
  match rentals s !! id with
  | None => ret None
  | Some r =>
      match include s r, statusLogs_of s id with
      | Some x, Some logs =>
          ret (Some (RentalDetail.mk r (Included.item x)
                       (User.id (Included.user x))
                       (User.name (Included.user x))
                       (User.email (Included.user x)) logs))
      | _, _ => throw ForeignKeyViolation
      end
  end.

Inductive Body :=
| error (msg : string)
| data (r : RentalDetail.t).

Record Response := mkResponse {
  body : Body;
  status : nat;
}.

(** GET - Get rental by ID *)
Definition GET (req : NextRequest unit) (rentalId : string)
  : Env → World → Response * World :=
  λ env w,
    match
      match verifyAdmin req with
      | None => ret (mkResponse (error "Unauthorized") 401)
      | Some user =>
          (* Get rental with related data *)
          rental <- findUnique rentalId ;;
          match rental with
          | None => ret (mkResponse (error "Rental not found") 404)
          | Some rental => ret (mkResponse (data rental) 200)
          end
      end env w
    with
    | (inr r, w') => (r, w')
    | (inl _, w') => (mkResponse (error "Failed to fetch rental") 500, w')
    end.

End AdminRentalsIdGet.

(** ** What a transition leaves in a rental row and around it *)

(** An item row that differs from another at most in its status and its
    [updatedAt] stamp. *)
Definition same_item (i i' : Item.t) : Prop :=
  Item.serialNumber i' = Item.serialNumber i
  ∧ Item.name i' = Item.name i
  ∧ Item.partNumber i' = Item.partNumber i
  ∧ Item.customerId i' = Item.customerId i
  ∧ Item.lastVerifiedAt i' = Item.lastVerifiedAt i
  ∧ Item.createdAt i' = Item.createdAt i.

(** The columns of a rental that no status update writes. *)
Definition same_contract (r r' : Rental.t) : Prop :=
  Rental.id r' = Rental.id r
  ∧ Rental.itemSerial r' = Rental.itemSerial r
  ∧ Rental.userId r' = Rental.userId r
  ∧ Rental.customerId r' = Rental.customerId r
  ∧ Rental.createdAt r' = Rental.createdAt r
  ∧ Rental.renterName r' = Rental.renterName r
  ∧ Rental.renterPhone r' = Rental.renterPhone r
  ∧ Rental.renterAddress r' = Rental.renterAddress r
  ∧ Rental.initialCondition r' = Rental.initialCondition r.

(** The columns of a rental that only the by-id update of the details
    writes. *)
Definition same_terms (r r' : Rental.t) : Prop :=
  Rental.poNumber r' = Rental.poNumber r
  ∧ Rental.doNumber r' = Rental.doNumber r
  ∧ Rental.startDate r' = Rental.startDate r
  ∧ Rental.endDate r' = Rental.endDate r.

(** No table other than the ones a transition is meant to write has
    changed, no rental other than [id] and no item other than [sn] has
    changed, and the item [sn] is still the same item. *)
Definition around (id sn : string) (s s' : Store) : Prop :=
  users s' = users s
  ∧ customers s' = customers s
  ∧ (∀ k, k ≠ id → rentals s' !! k = rentals s !! k)
  ∧ (∀ k, k ≠ sn → items s' !! k = items s !! k)
  ∧ (∀ i, items s !! sn = Some i →
          ∃ i', items s' !! sn = Some i' ∧ same_item i i')
  ∧ dom (rentals s) ⊆ dom (rentals s')
  ∧ dom (items s') = dom (items s).

(** The two audit tables only grow at the end. *)
Definition logs_appended (s s' : Store) : Prop :=
  rentalStatusLogs s `prefix_of` rentalStatusLogs s'
  ∧ activityLogs s `prefix_of` activityLogs s'.

(** A history row is open for the rental [id] of the item [sn]. *)
Definition open_for (sn id : string) (h : ItemHistory.t) : Prop :=
  prisma.itemHistory.open_row sn "RENTED" id h = true.

(** A history row after a request: as it was, or closed at some instant
    when it was open. *)
Definition kept_or_closed (h h' : ItemHistory.t) : Prop :=
  h' = h
  ∨ (ItemHistory.endDate h = None ∧ ∃ e, h' = ItemHistory.set_endDate e h).

(** Every status-log row names a user of the store. *)
Definition authors_known (s : Store) : Prop :=
  Forall (λ l, is_Some (users s !! RentalStatusLog.userId l))
    (rentalStatusLogs s).

(** What a creation leaves around the new rental: every rental that was
    there is as it was, at most one key is new, and no item other than [sn]
    has changed. *)
Definition around_new (sn : string) (s s' : Store) : Prop :=
  users s' = users s
  ∧ customers s' = customers s
  ∧ itemHistories s' = itemHistories s
  ∧ (∀ k r, rentals s !! k = Some r → rentals s' !! k = Some r)
  ∧ (∃ id, ∀ k, k ≠ id → rentals s' !! k = rentals s !! k)
  ∧ (∀ k, k ≠ sn → items s' !! k = items s !! k)
  ∧ dom (items s') = dom (items s).

(** The return date of a rental across a request: a date once set stays,
    and a date appears only with the status COMPLETED, read off the
    clock. *)
Definition returnDate_rule (env : Env) (r r' : Rental.t) : Prop :=
  match Rental.returnDate r with
  | Some d => Rental.returnDate r' = Some d
  | None =>
      Rental.returnDate r' = None
      ∨ (Rental.status r' = RequestStatus.COMPLETED
         ∧ ∃ n, Rental.returnDate r' = Some (now env n))
  end.

(** A [String?] column after [if (v !== undefined) data.k = v]. *)
Definition column_after (v : JsValue) (old : option string)
  : option string :=
  match v with
  | undefined => old
  | null => None
  | str s => Some s
  end.

(** The status of the item of a rental after a status update to [st]
    through [PATCH /api/admin/rentals], given the status [old] it had. *)
Definition item_status_after (st : RequestStatus.t) (old : ItemStatus.t)
  : ItemStatus.t :=
  match st with
  | RequestStatus.APPROVED => ItemStatus.RENTED
  | RequestStatus.COMPLETED | RequestStatus.REJECTED => ItemStatus.AVAILABLE
  | RequestStatus.PENDING | RequestStatus.CANCELLED => old
  end.

(** The same through [PATCH /api/admin/rentals/[id]]. *)
Definition item_status_after_by_id (st : RequestStatus.t)
    (old : ItemStatus.t) : ItemStatus.t :=
  match st with
  | RequestStatus.APPROVED => ItemStatus.RENTED
  | RequestStatus.COMPLETED | RequestStatus.REJECTED
  | RequestStatus.CANCELLED => ItemStatus.AVAILABLE
  | RequestStatus.PENDING => old
  end.

(** The history rows of a store after [updateMany] closed, at [e], the ones
    open for the rental [id] of the item [sn]: row by row. *)
Definition closed_at (sn id : string) (e : Z) (h h' : ItemHistory.t)
  : Prop :=
  if prisma.itemHistory.open_row sn "RENTED" id h
  then h' = ItemHistory.set_endDate e h
  else h' = h.

(** The item and the owner a response carries are rows of the store [s]. *)
Definition shows_rows_of (s : Store) (x : Included.t) : Prop :=
  items s !! Rental.itemSerial (Included.rental x) = Some (Included.item x)
  ∧ users s !! Rental.userId (Included.rental x) = Some (Included.user x).

(** What a rental detail says about the store [s]: the rental [id] with its
    item and the selected columns of its owner, and the status-log rows of
    this rental, all of them, each no older than the ones after it, each
    with the id and name of its author. *)
Definition describes (s : Store) (id : string) (d : RentalDetail.t) : Prop :=
  rentals s !! id = Some (RentalDetail.rental d)
  ∧ items s !! Rental.itemSerial (RentalDetail.rental d)
    = Some (RentalDetail.item d)
  ∧ (∃ u, users s !! Rental.userId (RentalDetail.rental d) = Some u
          ∧ RentalDetail.user_id d = User.id u
          ∧ RentalDetail.user_name d = User.name u
          ∧ RentalDetail.user_email d = User.email u)
  ∧ map RentalDetail.row (RentalDetail.statusLogs d)
    ≡ₚ filter (λ l, RentalStatusLog.rentalId l = id) (rentalStatusLogs s)
  ∧ StronglySorted newer_first
      (map RentalDetail.row (RentalDetail.statusLogs d))
  ∧ Forall (λ l, ∃ u, users s !! RentalStatusLog.userId (RentalDetail.row l)
                      = Some u
                      ∧ RentalDetail.changedBy_id l = User.id u
                      ∧ RentalDetail.changedBy_name l = User.name u)
      (RentalDetail.statusLogs d).

(** The relations of the schema that the rental routes rely on: the item
    and the owner of every rental are in the store, and so are the rental
    and the author of every status-log row. *)
Definition consistent (s : Store) : Prop :=
  (∀ k r, rentals s !! k = Some r →
          is_Some (items s !! Rental.itemSerial r)
          ∧ is_Some (users s !! Rental.userId r))
  ∧ authors_known s
  ∧ Forall (λ l, is_Some (rentals s !! RentalStatusLog.rentalId l))
      (rentalStatusLogs s).

(** * Properties *)

(** ** The monad *)

Lemma bind_inr {A B} (m : M A) (k : A → M B) env w b w2 :
  bind m k env w = (inr b, w2) →
  ∃ a w1, m env w = (inr a, w1) ∧ k a env w1 = (inr b, w2).
Proof.
  unfold bind. destruct (m env w) as [[e|a] w1]; [discriminate|]. eauto.
Qed.

Lemma bind_ok {A B} (m : M A) (k : A → M B) env w a w1 :
  m env w = (inr a, w1) → bind m k env w = k a env w1.
Proof. unfold bind. by intros ->. Qed.

Lemma transaction_inl {A} (body : M A) env w e w' :
  transaction body env w = (inl e, w') → db w' = db w.
Proof.
  unfold transaction.
  destruct ((query;; a <- body;; query;; ret a) env w) as [[e'|a] w1];
    intros [= <- <-]; done.
Qed.

Lemma transaction_inr {A} (body : M A) env w a w' :
  transaction body env w = (inr a, w') →
  ∃ w1, body env (next w) = (inr a, w1) ∧ w' = next w1.
Proof.
  unfold transaction, bind, query, ret.
  destruct (db_up env (tick w)); [|discriminate].
  destruct (body env (next w)) as [[e|a'] w1]; [discriminate|].
  destruct (db_up env (tick w1)); [|discriminate].
  intros [= <- <-]. eauto.
Qed.

Lemma transaction_ok {A} (body : M A) env w a w1 :
  reliable env →
  body env (next w) = (inr a, w1) →
  transaction body env w = (inr a, next w1).
Proof.
  intros Hup Hb. unfold transaction, bind, query, ret.
  rewrite Hup, Hb, Hup. done.
Qed.

(** ** The client calls *)

Lemma rental_findUnique_db id env w r w' :
  prisma.rental.findUnique id env w = (r, w') → db w' = db w.
Proof.
  unfold prisma.rental.findUnique, bind, query, read, ret, throw.
  repeat case_match; intros ?; by simplify_eq/=.
Qed.

Lemma rental_findUnique_inr id env w x w' :
  prisma.rental.findUnique id env w = (inr (Some x), w') →
  ∃ r, rentals (db w) !! id = Some r ∧ include (db w) r = Some x.
Proof.
  unfold prisma.rental.findUnique, bind, query, read, ret, throw.
  repeat case_match; intros ?; simplify_eq/=; eauto.
Qed.

Lemma include_inv s r x :
  include s r = Some x →
  Included.rental x = r
  ∧ items s !! Rental.itemSerial r = Some (Included.item x)
  ∧ users s !! Rental.userId r = Some (Included.user x).
Proof.
  unfold include. repeat case_match; intros [= <-]; done.
Qed.

Lemma rental_update_inr id d env w x w' :
  prisma.rental.update id d env w = (inr x, w') →
  ∃ r at_,
    rentals (db w) !! id = Some r
    ∧ RentalData.well_typed d = true
    ∧ include (db w) (RentalData.apply d at_ r) = Some x
    ∧ db w' = set_rentals (insert id (RentalData.apply d at_ r)) (db w).
Proof.
  unfold prisma.rental.update, bind, new_Date, query, read, write, ret, throw.
  repeat case_match; intros ?; simplify_eq/=; eauto 10.
Qed.

Lemma rentalStatusLog_create_inr rid status uid notes env w u w' :
  prisma.rentalStatusLog.create rid status uid notes env w = (inr u, w') →
  ∃ st at_,
    RequestStatus.of_string status = Some st
    ∧ db w' = set_rentalStatusLogs
                (λ l, (l ++ [RentalStatusLog.mk rid st (Some notes) uid at_])%list)
                (db w).
Proof.
  unfold prisma.rentalStatusLog.create, bind, new_Date, query, read, write,
    ret, throw.
  repeat case_match; intros ?; simplify_eq/=; eauto 10.
Qed.

Lemma item_update_inr sn st env w u w' :
  prisma.item.update sn st env w = (inr u, w') →
  ∃ i at_,
    items (db w) !! sn = Some i
    ∧ db w' = set_items (insert sn (Item.set_status st at_ i)) (db w).
Proof.
  unfold prisma.item.update, bind, new_Date, query, read, write, ret, throw.
  repeat case_match; intros ?; simplify_eq/=; eauto 10.
Qed.

Lemma itemHistory_updateMany_inr sn action rid e env w u w' :
  prisma.itemHistory.updateMany sn action rid e env w = (inr u, w') →
  db w' = set_itemHistories
            (map (λ h, if prisma.itemHistory.open_row sn action rid h
                       then ItemHistory.set_endDate e h else h)) (db w).
Proof.
  unfold prisma.itemHistory.updateMany, bind, query, write.
  repeat case_match; intros ?; simplify_eq/=; eauto.
Qed.

Lemma activityLog_create_inr d env w u w' :
  prisma.activityLog.create d env w = (inr u, w') →
  ∃ at_,
    db w' = set_activityLogs
              (λ l, (l ++ [prisma.activityLog.row d at_])%list) (db w).
Proof.
  unfold prisma.activityLog.create, bind, new_Date, query, read, write,
    ret, throw.
  repeat case_match; intros ?; simplify_eq/=; eauto.
Qed.

Lemma rental_create_inr d env w x w' :
  prisma.rental.create d env w = (inr x, w') →
  ∃ id at_ sd ed,
    RentalCreate.dates d = Some (sd, ed)
    ∧ rentals (db w) !! id = None
    ∧ include (db w) (RentalCreate.row d id at_ sd ed) = Some x
    ∧ db w' = set_rentals (insert id (RentalCreate.row d id at_ sd ed)) (db w).
Proof.
  unfold prisma.rental.create, bind, new_uuid, new_Date, query, read, write,
    ret, throw.
  repeat case_match; intros ?; simplify_eq/=; eauto 10.
Qed.

(** ** Progress *)

Lemma rental_findUnique_ok id r i u env w :
  reliable env →
  rentals (db w) !! id = Some r →
  items (db w) !! Rental.itemSerial r = Some i →
  users (db w) !! Rental.userId r = Some u →
  prisma.rental.findUnique id env w = (inr (Some (Included.mk r i u)), next w).
Proof.
  intros Hup Hr Hi Hu.
  unfold prisma.rental.findUnique, bind, query, read, ret, include.
  rewrite Hup. simpl. rewrite Hr, Hi, Hu. done.
Qed.

Lemma rental_update_ok id d r i u env w :
  reliable env →
  RentalData.well_typed d = true →
  rentals (db w) !! id = Some r →
  items (db w) !! Rental.itemSerial r = Some i →
  users (db w) !! Rental.userId r = Some u →
  ∃ x w', prisma.rental.update id d env w = (inr x, w').
Proof.
  intros Hup Hd Hr Hi Hu.
  unfold prisma.rental.update, bind, new_Date, query, read, write, ret, include.
  rewrite Hd, Hup. simpl. rewrite Hr. simpl. rewrite Hi, Hu. eauto.
Qed.

Lemma rentalStatusLog_create_ok rid status st uid notes env w :
  reliable env →
  RequestStatus.of_string status = Some st →
  is_Some (rentals (db w) !! rid) →
  is_Some (users (db w) !! uid) →
  ∃ w', prisma.rentalStatusLog.create rid status uid notes env w = (inr tt, w').
Proof.
  intros Hup Hst Hr Hu.
  unfold prisma.rentalStatusLog.create, bind, new_Date, query, read, write, ret.
  rewrite Hst, Hup. simpl.
  rewrite !bool_decide_true by done. simpl. eauto.
Qed.

Lemma item_update_ok sn st env w :
  reliable env →
  is_Some (items (db w) !! sn) →
  ∃ w', prisma.item.update sn st env w = (inr tt, w').
Proof.
  intros Hup [i Hi].
  unfold prisma.item.update, bind, new_Date, query, read, write, ret.
  rewrite Hup. simpl. rewrite Hi. eauto.
Qed.

Lemma itemHistory_updateMany_ok sn action rid e env w :
  reliable env →
  ∃ w', prisma.itemHistory.updateMany sn action rid e env w = (inr tt, w').
Proof.
  intros Hup. unfold prisma.itemHistory.updateMany, bind, query, write.
  rewrite Hup. eauto.
Qed.

Lemma activityLog_create_ok d env w :
  reliable env →
  is_Some (users (db w) !! prisma.activityLog.userId d) →
  refers (prisma.activityLog.itemSerial d) (items (db w)) = true →
  refers (prisma.activityLog.rentalId d) (rentals (db w)) = true →
  refers (prisma.activityLog.affectedUserId d) (users (db w)) = true →
  ∃ w', prisma.activityLog.create d env w = (inr tt, w').
Proof.
  intros Hup Hu Hi Hr Ha.
  unfold prisma.activityLog.create, bind, new_Date, query, read, write, ret.
  rewrite Hup. simpl. rewrite Hi, Hr, Ha, bool_decide_true by done.
  simpl. eauto.
Qed.

Lemma refers_Some {V} (k : string) (m : gmap string V) :
  is_Some (m !! k) → refers (Some k) m = true.
Proof. intros H. unfold refers. by rewrite bool_decide_true. Qed.

(** Running a call that is known to answer. *)
Ltac run_ok E :=
  match type of E with
  | ?m ?env ?w = (inr ?a, ?w1) => rewrite (bind_ok m _ env w a w1 E)
  end.

Lemma AdminRentals_PATCH_tx_ok adminId id st notes rc r i u a env w :
  reliable env →
  rentals (db w) !! id = Some r →
  items (db w) !! Rental.itemSerial r = Some i →
  users (db w) !! Rental.userId r = Some u →
  users (db w) !! adminId = Some a →
  ∃ x w',
    AdminRentals.PATCH_tx adminId id (RequestStatus.to_string st) notes rc
      (Included.mk r i u) env w = (inr x, w').
Proof.
  intros Hup Hr Hi Hu Ha.
  unfold AdminRentals.PATCH_tx, tx.rental.update, tx.rentalStatusLog.create,
    tx.itemHistory.updateMany, tx.item.update, tx.activityLog.create,
    bind, new_Date, query, read, write, ret, throw, include, refers.
  destruct st; simpl;
    try destruct (bool_decide (Rental.returnDate r = None)); simpl;
    repeat (rewrite ?Hup, ?Hr, ?Hi, ?Hu, ?Ha, ?lookup_insert_eq; simpl;
            rewrite ?bool_decide_true by eauto; simpl);
    eauto.
Qed.

(** ** The callbacks of the transactions *)

(** Inversion of a successful run, one call at a time. *)
Ltac inv_run :=
  repeat match goal with
  | H : bind _ _ _ _ = (inr _, _) |- _ =>
      apply bind_inr in H as (? & ? & ? & H); cbv beta in H
  | H : ret _ _ _ = (inr _, _) |- _ => unfold ret in H; simplify_eq
  | H : new_Date _ _ = (inr _, _) |- _ => unfold new_Date in H; simplify_eq
  | H : new_Date_of _ _ _ = (inr _, _) |- _ =>
      unfold new_Date_of in H; simplify_eq
  | H : prisma.rental.update _ _ _ _ = (inr _, _) |- _ =>
      apply rental_update_inr in H as (? & ? & ? & ? & ? & ?)
  | H : prisma.rental.create _ _ _ = (inr _, _) |- _ =>
      apply rental_create_inr in H as (? & ? & ? & ? & ? & ? & ? & ?)
  | H : prisma.rentalStatusLog.create _ _ _ _ _ _ = (inr _, _) |- _ =>
      apply rentalStatusLog_create_inr in H as (? & ? & ? & ?)
  | H : prisma.item.update _ _ _ _ = (inr _, _) |- _ =>
      apply item_update_inr in H as (? & ? & ? & ?)
  | H : prisma.itemHistory.updateMany _ _ _ _ _ _ = (inr _, _) |- _ =>
      apply itemHistory_updateMany_inr in H
  | H : prisma.activityLog.create _ _ _ = (inr _, _) |- _ =>
      apply activityLog_create_inr in H as (? & ?)
  | H : include _ _ = Some _ |- _ => apply include_inv in H as (? & ? & ?)
  | H : (if ?c then _ else _) _ _ = (inr _, _) |- _ => destruct c eqn:?
  | H : match ?o with Some _ => _ | None => _ end _ _ = (inr _, _) |- _ =>
      destruct o eqn:?
  end.

(** Naming the stores of the intermediate worlds and substituting them. *)
Ltac chain_db :=
  repeat match goal with w : World |- _ => destruct w end;
  simpl in *; simplify_eq/=;
  repeat match goal with
  | H : RequestStatus.of_string (String _ _) = Some _ |- _ =>
      vm_compute in H; simplify_eq
  end.

Lemma AdminRentals_PATCH_tx_inr adminId id status notes rc cur env w x w' :
  AdminRentals.PATCH_tx adminId id status notes rc cur env w = (inr x, w') →
  ∃ st r t2 t3,
    let sn := Rental.itemSerial (Included.rental cur) in
    RequestStatus.of_string status = Some st
    ∧ rentals (db w) !! id = Some r
    ∧ Rental.status (Included.rental x) = st
    ∧ Rental.itemSerial (Included.rental x) = Rental.itemSerial r
    ∧ Rental.userId (Included.rental x) = Rental.userId r
    ∧ (if is_status status RequestStatus.COMPLETED
          && bool_decide (Rental.returnDate (Included.rental cur) = None)
       then is_Some (Rental.returnDate (Included.rental x))
       else Rental.returnDate (Included.rental x) = Rental.returnDate r)
    ∧ rentals (db w') = <[id := Included.rental x]> (rentals (db w))
    ∧ rentalStatusLogs (db w')
      = (rentalStatusLogs (db w)
         ++ [RentalStatusLog.mk id st
               (Some (default ("Status changed to " +:+ status) (required notes)))
               adminId t2])%list
    ∧ activityLogs (db w')
      = (activityLogs (db w)
         ++ [prisma.activityLog.row
               (prisma.activityLog.mk ActivityType.RENTAL_UPDATED
                  ("Updated rental status to " +:+ status) adminId
                  (Some sn) (Some id)
                  (Some (Rental.userId (Included.rental cur))) None) t3])%list
    ∧ item_derived sn (AdminRentals.newItemStatus status) (db w) (db w')
    ∧ (if is_status status RequestStatus.COMPLETED
       then ∃ e, itemHistories (db w') = close_history sn id e (itemHistories (db w))
       else itemHistories (db w') = itemHistories (db w))
    ∧ users (db w') = users (db w)
    ∧ customers (db w') = customers (db w)
    ∧ reminders (db w') = reminders (db w)
    ∧ notifications (db w') = notifications (db w).
Proof.
  unfold AdminRentals.PATCH_tx. intros H.
  inv_run; chain_db.
  all: match goal with H : Included.rental _ = _ |- _ => rewrite H end; simpl.
  all: match goal with H : RequestStatus.of_string _ = _ |- _ => rewrite H end.
  all: unfold item_derived, item_status_set, close_history; simpl.
  all: do 4 eexists; repeat split; eauto.
Qed.

Lemma AdminRentals_POST_tx_inr user sn sd b item env w x w' :
  AdminRentals.POST_tx user sn sd b item env w = (inr x, w') →
  ∃ t2 t3,
    let id := Rental.id (Included.rental x) in
    Rental.status (Included.rental x) = RequestStatus.APPROVED
    ∧ Rental.itemSerial (Included.rental x) = sn
    ∧ Rental.userId (Included.rental x) = Session.userId user
    ∧ rentals (db w) !! id = None
    ∧ rentals (db w') = <[id := Included.rental x]> (rentals (db w))
    ∧ rentalStatusLogs (db w')
      = (rentalStatusLogs (db w)
         ++ [RentalStatusLog.mk id RequestStatus.APPROVED
               (Some "Rental created and approved by admin")
               (Session.userId user) t2])%list
    ∧ item_status_set sn ItemStatus.RENTED (db w) (db w')
    ∧ activityLogs (db w')
      = (activityLogs (db w)
         ++ [prisma.activityLog.row
               (prisma.activityLog.mk ActivityType.RENTAL_CREATED
                  ("Created new rental for " +:+ Item.name item +:+
                   (if truthy (AdminRentals.c_customerId b)
                    then " for customer" else EmptyString))
                  (Session.userId user) (Some sn) (Some id)
                  (Some (Session.userId user))
                  (or_null (AdminRentals.c_customerId b))) t3])%list
    ∧ itemHistories (db w') = itemHistories (db w)
    ∧ users (db w') = users (db w)
    ∧ customers (db w') = customers (db w)
    ∧ reminders (db w') = reminders (db w)
    ∧ notifications (db w') = notifications (db w).
Proof.
  unfold AdminRentals.POST_tx. intros H.
  inv_run; chain_db.
  all: match goal with H : Included.rental _ = _ |- _ => rewrite H end; simpl.
  all: unfold item_status_set; simpl.
  all: do 2 eexists; repeat split; eauto.
Qed.

Lemma updateData_total b cur env w :
  ∃ d w1,
    AdminRentalsId.updateData b cur env w = (inr d, w1)
    ∧ db w1 = db w
    ∧ RentalData.status d = required (AdminRentalsId.p_status b)
    ∧ (if match required (AdminRentalsId.p_status b) with
          | Some status => is_status status RequestStatus.COMPLETED
          | None => false
          end
          && bool_decide (Rental.returnDate (Included.rental cur) = None)
       then is_Some (RentalData.returnDate d)
       else RentalData.returnDate d = None).
Proof.
  unfold AdminRentalsId.updateData, bind, new_Date_of, new_Date, ret.
  repeat case_match; simplify_eq/=; do 2 eexists; repeat split; eauto.
Qed.

Lemma AdminRentalsId_PATCH_tx_inr adminId id status b d cur env w x w' :
  required (AdminRentalsId.p_status b) = Some status →
  RentalData.status d = Some status →
  AdminRentalsId.PATCH_tx adminId id b d cur env w = (inr x, w') →
  ∃ st r t2 t3,
    let sn := Rental.itemSerial (Included.rental cur) in
    RequestStatus.of_string status = Some st
    ∧ rentals (db w) !! id = Some r
    ∧ Rental.status (Included.rental x) = st
    ∧ Rental.itemSerial (Included.rental x) = Rental.itemSerial r
    ∧ Rental.userId (Included.rental x) = Rental.userId r
    ∧ Rental.returnDate (Included.rental x)
      = match RentalData.returnDate d with
        | Some z => Some z
        | None => Rental.returnDate r
        end
    ∧ rentals (db w') = <[id := Included.rental x]> (rentals (db w))
    ∧ rentalStatusLogs (db w')
      = (rentalStatusLogs (db w)
         ++ [RentalStatusLog.mk id st
               (Some (default ("Status updated to " +:+ status +:+ " by admin")
                        (required (AdminRentalsId.p_notes b))))
               adminId t2])%list
    ∧ activityLogs (db w')
      = (activityLogs (db w)
         ++ [prisma.activityLog.row
               (prisma.activityLog.mk ActivityType.RENTAL_UPDATED
                  ("Updated rental status to " +:+ status) adminId
                  (Some sn) (Some id)
                  (Some (Rental.userId (Included.rental cur))) None) t3])%list
    ∧ item_derived sn (AdminRentalsId.newItemStatus status) (db w) (db w')
    ∧ itemHistories (db w') = itemHistories (db w)
    ∧ users (db w') = users (db w)
    ∧ customers (db w') = customers (db w)
    ∧ reminders (db w') = reminders (db w)
    ∧ notifications (db w') = notifications (db w).
Proof.
  unfold AdminRentalsId.PATCH_tx. intros Hb Hd H. rewrite Hb in H.
  inv_run; chain_db.
  all: match goal with H : Included.rental _ = _ |- _ => rewrite H end; simpl.
  all: rewrite Hd; simpl.
  all: match goal with H : RequestStatus.of_string _ = _ |- _ => rewrite H end.
  all: unfold item_derived, item_status_set; simpl.
  all: do 4 eexists; repeat split; eauto.
Qed.

Lemma AdminRentalsId_DELETE_tx_inr adminId id cur env w x w' :
  AdminRentalsId.DELETE_tx adminId id cur env w = (inr x, w') →
  ∃ r t2 t3,
    let sn := Rental.itemSerial (Included.rental cur) in
    rentals (db w) !! id = Some r
    ∧ Rental.status (Included.rental x) = RequestStatus.CANCELLED
    ∧ Rental.itemSerial (Included.rental x) = Rental.itemSerial r
    ∧ Rental.userId (Included.rental x) = Rental.userId r
    ∧ rentals (db w') = <[id := Included.rental x]> (rentals (db w))
    ∧ rentalStatusLogs (db w')
      = (rentalStatusLogs (db w)
         ++ [RentalStatusLog.mk id RequestStatus.CANCELLED
               (Some "Rental cancelled by admin") adminId t2])%list
    ∧ activityLogs (db w')
      = (activityLogs (db w)
         ++ [prisma.activityLog.row
               (prisma.activityLog.mk ActivityType.RENTAL_UPDATED
                  ("Cancelled rental for " +:+ Item.name (Included.item cur))
                  adminId (Some sn) (Some id)
                  (Some (Rental.userId (Included.rental cur))) None) t3])%list
    ∧ item_derived sn
        (if bool_decide (Item.status (Included.item cur) = ItemStatus.RENTED)
         then Some ItemStatus.AVAILABLE else None) (db w) (db w')
    ∧ itemHistories (db w') = itemHistories (db w)
    ∧ users (db w') = users (db w)
    ∧ customers (db w') = customers (db w)
    ∧ reminders (db w') = reminders (db w)
    ∧ notifications (db w') = notifications (db w).
Proof.
  unfold AdminRentalsId.DELETE_tx. intros H.
  inv_run; chain_db.
  all: match goal with H : Included.rental _ = _ |- _ => rewrite H end; simpl.
  all: unfold item_derived, item_status_set; simpl.
  all: do 3 eexists; repeat split; eauto.
Qed.

(** ** The routes *)

Lemma req_json_inv {B} (req : NextRequest B) env w r w' :
  req_json req env w = (r, w') →
  w' = w ∧ (∀ b, r = inr b → json req = Some b).
Proof.
  unfold req_json, ret, throw. destruct (json req); intros ?; simplify_eq/=.
  - split; [done|]. by intros ? [= ->].
  - split; [done|]. by intros ? [=].
Qed.

(** The awaited helper inside [try { } catch { }]: its rows are written,
    its rejection is dropped. *)
Lemma notification_swallowed lib id ty env w :
  try_catch (createInstantNotificationForReminder lib id ty) (λ _, ret tt) env w
  = (inr tt,
     mkWorld (reminded (lib_createInstantNotificationForReminder lib id ty) w)
       (S (tick w))).
Proof.
  unfold try_catch, createInstantNotificationForReminder, await_reminding,
    reminded, ret.
  by destruct ((lib_createInstantNotificationForReminder lib id ty w).1).
Qed.

Lemma reminder_swallowed lib id st env w :
  try_catch (handleRentalStatusChange lib id st) (λ _, ret tt) env w
  = (inr tt,
     mkWorld (reminded (lib_handleRentalStatusChange lib id st) w)
       (S (tick w))).
Proof.
  unfold try_catch, handleRentalStatusChange, await_reminding, reminded, ret.
  by destruct ((lib_handleRentalStatusChange lib id st w).1).
Qed.

(** A response other than 200 leaves the store as it was; a 200 comes from
    a committed transaction, followed by the notification when the new
    status is APPROVED. *)
Lemma AdminRentals_PATCH_inv lib req env w resp w' :
  AdminRentals.PATCH lib req env w = (resp, w') →
  (NextResponse.status resp ≠ 200%nat ∧ db w' = db w)
  ∨ (∃ user b id status cur w0 x w1,
       session req = Some user ∧ isAdmin user = true
       ∧ json req = Some b
       ∧ required (AdminRentals.p_id b) = Some id
       ∧ required (AdminRentals.p_status b) = Some status
       ∧ rentals (db w) !! id = Some (Included.rental cur)
       ∧ db w0 = db w
       ∧ AdminRentals.PATCH_tx (Session.userId user) id status
           (AdminRentals.p_notes b) (AdminRentals.p_returnCondition b) cur
           env w0 = (inr x, w1)
       ∧ resp = NextResponse.ok x
       ∧ db w' = if is_status status RequestStatus.APPROVED
                 then reminded (lib_createInstantNotificationForReminder lib
                                  id ReminderType.RENTAL) (next w1)
                 else db w1).
Proof.
  unfold AdminRentals.PATCH, route, getUserFromRequest.
  destruct (session req) as [user|] eqn:Hs; [|intros [= <- <-]; by left].
  destruct (isAdmin user) eqn:Hadm; simpl; [|intros [= <- <-]; by left].
  unfold bind at 1.
  destruct (req_json req env w) as [[e|b] wj] eqn:Hj;
    apply req_json_inv in Hj as [-> Hb]; [intros [= <- <-]; by left|].
  specialize (Hb b eq_refl).
  destruct (required (AdminRentals.p_id b)) as [id|] eqn:Hid;
    [|intros [= <- <-]; by left].
  destruct (required (AdminRentals.p_status b)) as [status|] eqn:Hst;
    [|intros [= <- <-]; by left].
  unfold bind at 1.
  destruct (prisma.rental.findUnique id env w) as [[e|[cur|]] w0] eqn:Hf;
    pose proof (rental_findUnique_db _ _ _ _ _ Hf) as Hdb0;
    [intros [= <- <-]; by left| |intros [= <- <-]; by left].
  apply rental_findUnique_inr in Hf as (r & Hr & Hinc).
  apply include_inv in Hinc as (Hcur & _ & _).
  unfold bind at 1, prisma._transaction.
  destruct (transaction _ env w0) as [[e|x] wt] eqn:Ht.
  { apply transaction_inl in Ht. intros [= <- <-]. left. split; [done|congruence]. }
  apply transaction_inr in Ht as (w1 & Hbody & ->).
  intros H. right.
  exists user, b, id, status, cur, (next w0), x, w1.
  repeat (split; [done || congruence|]).
  destruct (is_status status RequestStatus.APPROVED).
  - unfold bind in H. rewrite notification_swallowed in H.
    unfold ret in H. by simplify_eq.
  - unfold bind, ret in H. by simplify_eq.
Qed.

Lemma item_findUnique_inv sn env w r w' :
  prisma.item.findUnique sn env w = (r, w') →
  db w' = db w ∧ ∀ o, r = inr o → o = items (db w) !! sn.
Proof.
  unfold prisma.item.findUnique, bind, query, read, ret.
  repeat case_match; intros ?; simplify_eq/=; split; try done;
    by intros ? [= <-].
Qed.

Lemma customer_findUnique_db id env w r w' :
  prisma.customer.findUnique id env w = (r, w') → db w' = db w.
Proof.
  unfold prisma.customer.findUnique, bind, query, read, ret.
  repeat case_match; intros ?; by simplify_eq/=.
Qed.

Lemma AdminRentals_POST_inv lib req env w resp w' :
  AdminRentals.POST lib req env w = (resp, w') →
  (NextResponse.status resp ≠ 200%nat ∧ db w' = db w)
  ∨ (∃ user b sn sd item w0 x w1,
       session req = Some user ∧ isAdmin user = true
       ∧ json req = Some b
       ∧ required (AdminRentals.c_itemSerial b) = Some sn
       ∧ required (AdminRentals.c_startDate b) = Some sd
       ∧ items (db w) !! sn = Some item
       ∧ Item.status item = ItemStatus.AVAILABLE
       ∧ db w0 = db w
       ∧ AdminRentals.POST_tx user sn sd b item env w0 = (inr x, w1)
       ∧ resp = NextResponse.ok x
       ∧ db w' = reminded (lib_createInstantNotificationForReminder lib
                             (Rental.id (Included.rental x)) ReminderType.RENTAL)
                   (next w1)).
Proof.
  unfold AdminRentals.POST, route, getUserFromRequest.
  destruct (session req) as [user|] eqn:Hs; [|intros [= <- <-]; by left].
  destruct (isAdmin user) eqn:Hadm; simpl; [|intros [= <- <-]; by left].
  unfold bind at 1.
  destruct (req_json req env w) as [[e|b] wj] eqn:Hj;
    apply req_json_inv in Hj as [-> Hb]; [intros [= <- <-]; by left|].
  specialize (Hb b eq_refl).
  destruct (required (AdminRentals.c_itemSerial b)) as [sn|] eqn:Hsn;
    [|intros [= <- <-]; by left].
  destruct (required (AdminRentals.c_startDate b)) as [sd|] eqn:Hsd;
    [|intros [= <- <-]; by left].
  unfold bind at 1.
  destruct (prisma.item.findUnique sn env w) as [[e|o] w0] eqn:Hf;
    apply item_findUnique_inv in Hf as [Hdb0 Ho];
    [intros [= <- <-]; by left|].
  specialize (Ho o eq_refl). subst o.
  destruct (items (db w) !! sn) as [item|] eqn:Hitem;
    [|intros [= <- <-]; by left].
  rewrite <- Hdb0 in Hitem.
  destruct (bool_decide (Item.status item = ItemStatus.AVAILABLE)) eqn:Hav;
    simpl; [|intros [= <- <-]; by left].
  apply bool_decide_eq_true in Hav.
  unfold bind at 1.
  match goal with
  | |- context [match ?m env w0 with _ => _ end] =>
      destruct (m env w0) as [[e|miss] wc] eqn:Hc
  end.
  all: assert (db wc = db w0) as Hdbc
    by (destruct (required (AdminRentals.c_customerId b));
        [ unfold bind in Hc;
          destruct (prisma.customer.findUnique _ env w0) as [[?|?] ?] eqn:Hq;
          apply customer_findUnique_db in Hq; unfold ret in Hc;
          by simplify_eq
        | unfold ret in Hc; by simplify_eq ]).
  { intros [= <- <-]. left. split; [done|congruence]. }
  destruct miss. { intros [= <- <-]. left. split; [done|congruence]. }
  unfold bind at 1, prisma._transaction.
  destruct (transaction _ env wc) as [[e|x] wt] eqn:Ht.
  { apply transaction_inl in Ht. intros [= <- <-]. left.
    split; [done|congruence]. }
  apply transaction_inr in Ht as (w1 & Hbody & ->).
  unfold bind. rewrite notification_swallowed. unfold ret.
  intros [= <- <-]. right.
  exists user, b, sn, sd, item, (next wc), x, w1.
  rewrite Hdb0 in Hitem.
  repeat (split; [done || (simpl; congruence)|]). done.
Qed.

Lemma verifyAdmin_inv {B} (req : NextRequest B) user :
  verifyAdmin req = Some user → session req = Some user ∧ isAdmin user = true.
Proof.
  unfold verifyAdmin. destruct (session req) as [u|]; [|done].
  destruct (isAdmin u) eqn:?; [|done]. by intros [= <-].
Qed.

(** The by-id update: a response other than 200 with the store as it was, or
    a committed transaction followed by the rows of the activity logger and,
    when that resolved, by the reminder of an approval. *)
Lemma AdminRentalsId_PATCH_inv lib req id env w resp w' :
  AdminRentalsId.PATCH lib req id env w = (resp, w') →
  (NextResponse.status resp ≠ 200%nat ∧ db w' = db w)
  ∨ (∃ user b cur d w0 x w1 rows,
       verifyAdmin req = Some user
       ∧ json req = Some b
       ∧ rentals (db w) !! id = Some (Included.rental cur)
       ∧ db w0 = db w
       ∧ RentalData.status d = required (AdminRentalsId.p_status b)
       ∧ (if match required (AdminRentalsId.p_status b) with
             | Some status => is_status status RequestStatus.COMPLETED
             | None => false
             end
             && bool_decide (Rental.returnDate (Included.rental cur) = None)
          then is_Some (RentalData.returnDate d)
          else RentalData.returnDate d = None)
       ∧ AdminRentalsId.PATCH_tx (Session.userId user) id b d cur env w0
         = (inr x, w1)
       ∧ let s2 := set_activityLogs (λ l, (l ++ rows)%list) (db w1) in
         (NextResponse.status resp = 500%nat ∧ db w' = s2)
         ∨ (resp = NextResponse.ok x
            ∧ (db w' = s2 ∨ ∃ rs ns, db w' = set_reminding rs ns s2))).
Proof.
  unfold AdminRentalsId.PATCH, route.
  destruct (verifyAdmin req) as [user|] eqn:Hs; [|intros [= <- <-]; by left].
  unfold bind at 1.
  destruct (req_json req env w) as [[e|b] wj] eqn:Hj;
    apply req_json_inv in Hj as [-> Hb]; [intros [= <- <-]; by left|].
  specialize (Hb b eq_refl).
  unfold bind at 1.
  destruct (prisma.rental.findUnique id env w) as [[e|[cur|]] w0] eqn:Hf;
    pose proof (rental_findUnique_db _ _ _ _ _ Hf) as Hdb0;
    [intros [= <- <-]; by left| |intros [= <- <-]; by left].
  apply rental_findUnique_inr in Hf as (r & Hr & Hinc).
  apply include_inv in Hinc as (Hcur & _ & _).
  destruct (updateData_total b cur env w0) as (d & wd & Hd & Hdbd & Hst & Hrd).
  unfold bind at 1. rewrite Hd.
  unfold bind at 1, prisma._transaction.
  destruct (transaction _ env wd) as [[e|x] wt] eqn:Ht.
  { apply transaction_inl in Ht. intros [= <- <-]. left.
    split; [done|congruence]. }
  apply transaction_inr in Ht as (w1 & Hbody & ->).
  intros H. right.
  exists user, b, cur, d, (next wd), x, w1.
  unfold bind at 1, logRentalActivity in H.
  match type of H with
  | context [lib_logRentalActivity ?e ?a ?t ?i ?s ?m ?w] =>
      set (lg := lib_logRentalActivity e a t i s m w) in H
  end.
  exists (lg.2).
  repeat (split; [done || (simpl; congruence)|]). cbn zeta.
  destruct (lg.1).
  { left. by simplify_eq/=. }
  right.
  destruct (match required (AdminRentalsId.p_status b) with
            | Some status => is_status status RequestStatus.APPROVED
            | None => false
            end).
  - unfold bind in H. rewrite reminder_swallowed in H. unfold ret in H.
    simplify_eq/=. split; [done|]. right. unfold reminded. simpl. eauto.
  - unfold bind, ret in H. simplify_eq/=. split; [done|]. by left.
Qed.

Lemma AdminRentalsId_DELETE_inv req id env w resp w' :
  AdminRentalsId.DELETE req id env w = (resp, w') →
  (NextResponse.status resp ≠ 200%nat ∧ db w' = db w)
  ∨ (∃ user cur w0 x w1,
       verifyAdmin req = Some user
       ∧ rentals (db w) !! id = Some (Included.rental cur)
       ∧ items (db w) !! Rental.itemSerial (Included.rental cur)
         = Some (Included.item cur)
       ∧ db w0 = db w
       ∧ AdminRentalsId.DELETE_tx (Session.userId user) id cur env w0
         = (inr x, w1)
       ∧ resp = NextResponse.ok x
       ∧ db w' = db w1).
Proof.
  unfold AdminRentalsId.DELETE, route.
  destruct (verifyAdmin req) as [user|] eqn:Hs; [|intros [= <- <-]; by left].
  unfold bind at 1.
  destruct (prisma.rental.findUnique id env w) as [[e|[cur|]] w0] eqn:Hf;
    pose proof (rental_findUnique_db _ _ _ _ _ Hf) as Hdb0;
    [intros [= <- <-]; by left| |intros [= <- <-]; by left].
  apply rental_findUnique_inr in Hf as (r & Hr & Hinc).
  apply include_inv in Hinc as (Hcur & Hitem & _).
  unfold bind at 1, prisma._transaction.
  destruct (transaction _ env w0) as [[e|x] wt] eqn:Ht.
  { apply transaction_inl in Ht. intros [= <- <-]. left.
    split; [done|congruence]. }
  apply transaction_inr in Ht as (w1 & Hbody & ->).
  unfold ret. intros [= <- <-]. right.
  exists user, cur, (next w0), x, w1.
  repeat (split; [done || (simpl; congruence)|]). done.
Qed.

(** ** What a route leaves in the store *)

Lemma AdminRentals_PATCH_applied lib req env w :
  let out := AdminRentals.PATCH lib req env w in
  (NextResponse.status out.1 ≠ 200%nat ∧ db out.2 = db w)
  ∨ (NextResponse.status out.1 = 200%nat
     ∧ ∃ user b id status st,
         session req = Some user
         ∧ json req = Some b
         ∧ required (AdminRentals.p_id b) = Some id
         ∧ required (AdminRentals.p_status b) = Some status
         ∧ RequestStatus.of_string status = Some st
         ∧ transition_applied id st (Session.userId user)
             (AdminRentals.newItemStatus status) [] (db w) (db out.2)).
Proof.
  intros out. subst out.
  destruct (AdminRentals.PATCH lib req env w) as [resp w'] eqn:E. simpl.
  apply AdminRentals_PATCH_inv in E
    as [?|(user & b & id & status & cur & w0 & x & w1 & Hs & _ & Hb & Hid
           & Hst & Hcur & Hdb0 & Htx & -> & Hdb')]; [by left|].
  right. split; [done|].
  apply AdminRentals_PATCH_tx_inr in Htx
    as (st & r & t2 & t3 & Hof & Hr & Hxs & Hxi & Hxu & _ & HR & HL & HA & HI
        & _ & _).
  cbn zeta in *. rewrite Hdb0 in *.
  assert (r = Included.rental cur) as -> by congruence.
  exists user, b, id, status, st. repeat (split; [done|]).
  assert (rentals (db w') = rentals (db w1)
          ∧ rentalStatusLogs (db w') = rentalStatusLogs (db w1)
          ∧ activityLogs (db w') = activityLogs (db w1)
          ∧ items (db w') = items (db w1)) as (R' & L' & A' & I').
  { destruct (is_status status RequestStatus.APPROVED); by rewrite Hdb'. }
  eexists _, (Included.rental x), _, _.
  rewrite R', L', A', HR, HL, HA, lookup_insert_eq.
  repeat (split; [done|]).
  unfold item_derived, item_status_set in *. rewrite I'. done.
Qed.

Lemma AdminRentalsId_PATCH_applied lib req id env w b status :
  json req = Some b →
  required (AdminRentalsId.p_status b) = Some status →
  let out := AdminRentalsId.PATCH lib req id env w in
  (NextResponse.status out.1 ≠ 200%nat ∧ db out.2 = db w)
  ∨ (∃ user st rest,
       verifyAdmin req = Some user
       ∧ RequestStatus.of_string status = Some st
       ∧ transition_applied id st (Session.userId user)
           (AdminRentalsId.newItemStatus status) rest (db w) (db out.2)
       ∧ itemHistories (db out.2) = itemHistories (db w)).
Proof.
  intros Hb0 Hst0 out. subst out.
  destruct (AdminRentalsId.PATCH lib req id env w) as [resp w'] eqn:E. simpl.
  apply AdminRentalsId_PATCH_inv in E
    as [?|(user & b' & cur & d & w0 & x & w1 & rows & Hs & Hb & Hcur & Hdb0
           & Hd & _ & Htx & Hout)]; [by left|].
  right. assert (b' = b) as -> by congruence. rewrite Hst0 in Hd.
  apply (AdminRentalsId_PATCH_tx_inr _ _ status) in Htx
    as (st & r & t2 & t3 & Hof & Hr & Hxs & Hxi & Hxu & _ & HR & HL & HA & HI
        & HH & _); [|done..].
  cbn zeta in *. rewrite Hdb0 in *.
  assert (r = Included.rental cur) as -> by congruence.
  exists user, st, rows. repeat (split; [done|]).
  assert (rentals (db w') = rentals (db w1)
          ∧ rentalStatusLogs (db w') = rentalStatusLogs (db w1)
          ∧ activityLogs (db w') = (activityLogs (db w1) ++ rows)%list
          ∧ items (db w') = items (db w1)
          ∧ itemHistories (db w') = itemHistories (db w1))
    as (R' & L' & A' & I' & H').
  { destruct Hout as [[_ ->]|[_ [->|(rs & ns & ->)]]]; done. }
  split; [|congruence].
  eexists _, (Included.rental x), _, _.
  rewrite R', L', A', HR, HL, HA, lookup_insert_eq, <- app_assoc.
  repeat (split; [done|]).
  unfold item_derived, item_status_set in *. rewrite I'. done.
Qed.

Lemma AdminRentalsId_DELETE_applied req id env w :
  let out := AdminRentalsId.DELETE req id env w in
  (NextResponse.status out.1 ≠ 200%nat ∧ db out.2 = db w)
  ∨ (NextResponse.status out.1 = 200%nat
     ∧ ∃ user r i,
         verifyAdmin req = Some user
         ∧ rentals (db w) !! id = Some r
         ∧ items (db w) !! Rental.itemSerial r = Some i
         ∧ transition_applied id RequestStatus.CANCELLED (Session.userId user)
             (if bool_decide (Item.status i = ItemStatus.RENTED)
              then Some ItemStatus.AVAILABLE else None)
             [] (db w) (db out.2)).
Proof.
  intros out. subst out.
  destruct (AdminRentalsId.DELETE req id env w) as [resp w'] eqn:E. simpl.
  apply AdminRentalsId_DELETE_inv in E
    as [?|(user & cur & w0 & x & w1 & Hs & Hcur & Hitem & Hdb0 & Htx & ->
           & Hdb')]; [by left|].
  right. split; [done|].
  apply AdminRentalsId_DELETE_tx_inr in Htx
    as (r & t2 & t3 & Hr & Hxs & Hxi & Hxu & HR & HL & HA & HI & _).
  cbn zeta in *. rewrite Hdb0 in *.
  assert (r = Included.rental cur) as -> by congruence.
  exists user, (Included.rental cur), (Included.item cur).
  repeat (split; [done|]).
  eexists _, (Included.rental x), _, _.
  rewrite Hdb', HR, HL, HA, lookup_insert_eq.
  repeat (split; [done|]). done.
Qed.

Lemma AdminRentals_POST_applied lib req env w :
  let out := AdminRentals.POST lib req env w in
  (NextResponse.status out.1 ≠ 200%nat ∧ db out.2 = db w)
  ∨ (∃ user b sn item x wc,
       session req = Some user
       ∧ json req = Some b
       ∧ required (AdminRentals.c_itemSerial b) = Some sn
       ∧ items (db w) !! sn = Some item
       ∧ Item.status item = ItemStatus.AVAILABLE
       ∧ out.1 = NextResponse.ok x
       ∧ creation_applied (Included.rental x) (Session.userId user) sn
           (db w) (db wc)
       ∧ db out.2
         = reminded (lib_createInstantNotificationForReminder lib
                       (Rental.id (Included.rental x)) ReminderType.RENTAL) wc).
Proof.
  intros out. subst out.
  destruct (AdminRentals.POST lib req env w) as [resp w'] eqn:E. simpl.
  apply AdminRentals_POST_inv in E
    as [?|(user & b & sn & sd & item & w0 & x & w1 & Hs & _ & Hb & Hsn & _
           & Hitem & Hav & Hdb0 & Htx & -> & Hdb')]; [by left|].
  right.
  apply AdminRentals_POST_tx_inr in Htx
    as (t2 & t3 & Hxs & Hxi & Hxu & Hnew & HR & HL & HI & HA & _).
  cbn zeta in *. rewrite Hdb0 in *.
  exists user, b, sn, item, x, (next w1).
  repeat (split; [done|]). split; [|done].
  eexists _, _. simpl. rewrite HL, HA.
  repeat (split; [done|]). done.
Qed.

(** ** Progress of the routes *)

Lemma required_str (s : string) : s ≠ EmptyString → required (str s) = Some s.
Proof.
  intros H. unfold required.
  destruct (String.eqb s EmptyString) eqn:E; [|done]. by apply String.eqb_eq in E.
Qed.

Lemma required_status (st : RequestStatus.t) :
  required (str (RequestStatus.to_string st)) = Some (RequestStatus.to_string st).
Proof. by destruct st. Qed.

Lemma AdminRentals_PATCH_ok lib env w user id st notes rc r i u a :
  reliable env →
  isAdmin user = true →
  id ≠ EmptyString →
  rentals (db w) !! id = Some r →
  items (db w) !! Rental.itemSerial r = Some i →
  users (db w) !! Rental.userId r = Some u →
  users (db w) !! Session.userId user = Some a →
  NextResponse.status
    (AdminRentals.PATCH lib
       (mkRequest (Some user)
          (Some (AdminRentals.mkPatch (str id)
                   (str (RequestStatus.to_string st)) notes rc)))
       env w).1 = 200%nat.
Proof.
  intros Hup Hadm Hid Hr Hi Hu Ha.
  unfold AdminRentals.PATCH, route, getUserFromRequest, req_json.
  cbn [session json]. rewrite Hadm. cbn [negb].
  unfold bind at 1. unfold ret at 1.
  cbn [AdminRentals.p_id AdminRentals.p_status AdminRentals.p_notes
       AdminRentals.p_returnCondition].
  rewrite (required_str id Hid), required_status.
  rewrite (bind_ok _ _ _ _ _ _ (rental_findUnique_ok id r i u env w Hup Hr Hi Hu)).
  destruct (AdminRentals_PATCH_tx_ok (Session.userId user) id st notes rc r i u
              a env (next (next w)) Hup Hr Hi Hu Ha) as (x & w1 & Htx).
  unfold prisma._transaction.
  rewrite (bind_ok _ _ _ _ _ _ (transaction_ok _ _ _ _ _ Hup Htx)).
  destruct (is_status _ RequestStatus.APPROVED).
  - unfold bind. by rewrite notification_swallowed.
  - done.
Qed.

Lemma AdminRentalsId_PATCH_tx_ok adminId id st notes rd r i u a env w :
  reliable env →
  rentals (db w) !! id = Some r →
  items (db w) !! Rental.itemSerial r = Some i →
  users (db w) !! Rental.userId r = Some u →
  users (db w) !! adminId = Some a →
  ∃ x w',
    AdminRentalsId.PATCH_tx adminId id
      (AdminRentalsId.mkPatch (str (RequestStatus.to_string st)) notes
         undefined undefined undefined undefined)
      (RentalData.mk (Some (RequestStatus.to_string st)) None None None None
         rd None)
      (Included.mk r i u) env w = (inr x, w').
Proof.
  intros Hup Hr Hi Hu Ha.
  unfold AdminRentalsId.PATCH_tx, tx.rental.update, tx.rentalStatusLog.create,
    tx.item.update, tx.activityLog.create,
    bind, new_Date, query, read, write, ret, throw, include, refers.
  destruct st; simpl;
    repeat (rewrite ?Hup, ?Hr, ?Hi, ?Hu, ?Ha, ?lookup_insert_eq; simpl;
            rewrite ?bool_decide_true by eauto; simpl);
    eauto.
Qed.

(** The by-id update of the status alone goes through when the store
    answers and the rows are there; the response is the updated rental unless
    the activity logger rejects. *)
Lemma AdminRentalsId_PATCH_ok lib env w user id st notes r i u a :
  reliable env →
  isAdmin user = true →
  rentals (db w) !! id = Some r →
  items (db w) !! Rental.itemSerial r = Some i →
  users (db w) !! Rental.userId r = Some u →
  users (db w) !! Session.userId user = Some a →
  let out :=
    AdminRentalsId.PATCH lib
      (mkRequest (Some user)
         (Some (AdminRentalsId.mkPatch (str (RequestStatus.to_string st)) notes
                  undefined undefined undefined undefined))) id env w in
  (∃ r', rentals (db out.2) !! id = Some r' ∧ Rental.status r' = st)
  ∧ item_derived (Rental.itemSerial r)
      (AdminRentalsId.newItemStatus (RequestStatus.to_string st))
      (db w) (db out.2)
  ∧ ((∀ a t r s m w, (lib_logRentalActivity lib a t r s m w).1 = None) →
     NextResponse.status out.1 = 200%nat).
Proof.
  intros Hup Hadm Hr Hi Hu Ha out. subst out.
  set (b := AdminRentalsId.mkPatch _ _ _ _ _ _).
  assert (Hb : required (AdminRentalsId.p_status b)
               = Some (RequestStatus.to_string st)) by apply required_status.
  destruct (AdminRentalsId.PATCH lib _ id env w) as [resp w'] eqn:E.
  unfold AdminRentalsId.PATCH, route, verifyAdmin, req_json in E.
  cbn [session json] in E. rewrite Hadm in E.
  unfold bind at 1 in E. unfold ret at 1 in E.
  rewrite (bind_ok _ _ _ _ _ _ (rental_findUnique_ok id r i u env w Hup Hr Hi Hu))
    in E.
  assert (∃ rd w0,
    AdminRentalsId.updateData b (Included.mk r i u) env (next w)
    = (inr (RentalData.mk (Some (RequestStatus.to_string st)) None None None
              None rd None), w0) ∧ db w0 = db w) as (rd & w0 & Hd & Hdb0).
  { unfold AdminRentalsId.updateData. rewrite Hb.
    unfold bind, new_Date, ret. simpl.
    destruct (_ && _); simpl; eauto. }
  rewrite (bind_ok _ _ _ _ _ _ Hd) in E.
  rewrite <- Hdb0 in Hr, Hi, Hu, Ha.
  destruct (AdminRentalsId_PATCH_tx_ok (Session.userId user) id st notes rd r i
              u a env (next w0) Hup Hr Hi Hu Ha) as (x & w1 & Htx).
  unfold prisma._transaction in E.
  rewrite (bind_ok _ _ _ _ _ _ (transaction_ok _ _ _ _ _ Hup Htx)) in E.
  apply (AdminRentalsId_PATCH_tx_inr _ _ (RequestStatus.to_string st)) in Htx
    as (st' & r0 & t2 & t3 & Hof & Hr0 & Hxs & _ & _ & _ & HR & _ & _ & HI & _);
    [|done..].
  assert (st' = st) as -> by (destruct st; vm_compute in Hof; congruence).
  cbn zeta in HI. simpl in HI, HR. rewrite Hdb0 in HI, HR.
  unfold bind at 1, logRentalActivity in E.
  match type of E with
  | context [lib_logRentalActivity ?pe ?pa ?pt ?pi ?ps ?pm ?pw] =>
      pose proof (λ H : ∀ a0 t0 r0 s0 m0 w0,
                        (lib_logRentalActivity lib a0 t0 r0 s0 m0 w0).1 = None,
                    H pa pt pi ps pm pw) as Hlog;
      destruct (lib_logRentalActivity pe pa pt pi ps pm pw) as [lg rows]
  end.
  simpl in Hlog. cbn [fst snd] in E.
  assert (∀ rs ns,
    (∃ r', rentals (set_reminding rs ns
             (set_activityLogs (λ l, (l ++ rows)%list) (db w1))) !! id = Some r'
           ∧ Rental.status r' = st)
    ∧ item_derived (Rental.itemSerial r)
        (AdminRentalsId.newItemStatus (RequestStatus.to_string st)) (db w)
        (set_reminding rs ns
           (set_activityLogs (λ l, (l ++ rows)%list) (db w1)))) as Hfin.
  { intros rs ns. simpl. rewrite HR, lookup_insert_eq. split; [eauto|].
    unfold item_derived, item_status_set in *.
    destruct (AdminRentalsId.newItemStatus _); exact HI. }
  destruct lg as [e|].
  { simplify_eq/=. destruct (Hfin [] []) as [(r' & Hr' & Hs') Hit].
    split; [eauto|]. split; [exact Hit|]. intros H. by specialize (Hlog H). }
  rewrite Hb in E.
  destruct (is_status (RequestStatus.to_string st) RequestStatus.APPROVED).
  - unfold bind in E. rewrite reminder_swallowed in E. unfold ret in E.
    simplify_eq/=. unfold reminded.
    match goal with
    | |- context [set_reminding ?rs ?ns _] =>
        destruct (Hfin rs ns) as [(r' & Hr' & Hs') Hit]
    end. eauto.
  - unfold bind, ret in E. simplify_eq/=.
    destruct (Hfin [] []) as [(r' & Hr' & Hs') Hit]. eauto.
Qed.

Lemma AdminRentals_POST_tx_ok env w user b sn sd z item a :
  reliable env →
  parse_date env sd = Some z →
  (∀ e, required (AdminRentals.c_endDate b) = Some e →
        is_Some (parse_date env e)) →
  (∀ c, required (AdminRentals.c_customerId b) = Some c →
        is_Some (customers (db w) !! c)) →
  items (db w) !! sn = Some item →
  users (db w) !! Session.userId user = Some a →
  (∀ n, rentals (db w) !! uuid env n = None) →
  ∃ x w', AdminRentals.POST_tx user sn sd b item env w = (inr x, w').
Proof.
  intros Hup Hsd Hed Hc Hi Ha Hfresh.
  unfold AdminRentals.POST_tx, tx.rental.create, tx.rentalStatusLog.create,
    tx.item.update, tx.activityLog.create, RentalCreate.dates,
    bind, new_Date_of, new_Date, new_uuid, query, read, write, ret, throw,
    include, refers, Date_of.
  change (or_null (AdminRentals.c_customerId b))
    with (required (AdminRentals.c_customerId b)).
  destruct (required (AdminRentals.c_endDate b)) as [e|] eqn:He;
    [destruct (Hed e eq_refl) as [ze Hze]|];
    (destruct (required (AdminRentals.c_customerId b)) as [c|] eqn:Hcu;
     [destruct (Hc c eq_refl) as [cu Hcust]|]);
    simpl;
    repeat (rewrite ?Hup, ?Hsd, ?Hze, ?Hi, ?Ha, ?Hfresh, ?Hcust,
              ?lookup_insert_eq; simpl;
            rewrite ?bool_decide_true by eauto; simpl);
    eauto.
Qed.

Lemma AdminRentals_POST_ok lib env w user b sn sd z item a :
  reliable env →
  isAdmin user = true →
  required (AdminRentals.c_itemSerial b) = Some sn →
  required (AdminRentals.c_startDate b) = Some sd →
  parse_date env sd = Some z →
  (∀ e, required (AdminRentals.c_endDate b) = Some e →
        is_Some (parse_date env e)) →
  (∀ c, required (AdminRentals.c_customerId b) = Some c →
        is_Some (customers (db w) !! c)) →
  items (db w) !! sn = Some item →
  Item.status item = ItemStatus.AVAILABLE →
  users (db w) !! Session.userId user = Some a →
  (∀ n, rentals (db w) !! uuid env n = None) →
  NextResponse.status
    (AdminRentals.POST lib (mkRequest (Some user) (Some b)) env w).1 = 200%nat.
Proof.
  intros Hup Hadm Hsn Hstart Hsd Hed Hc Hi Hav Ha Hfresh.
  unfold AdminRentals.POST, route, getUserFromRequest, req_json.
  cbn [session json]. rewrite Hadm. cbn [negb].
  unfold bind at 1. unfold ret at 1. rewrite Hsn, Hstart.
  assert (prisma.item.findUnique sn env w = (inr (Some item), next w)) as Hf.
  { unfold prisma.item.findUnique, bind, query, read, ret.
    rewrite Hup. simpl. by rewrite Hi. }
  rewrite (bind_ok _ _ _ _ _ _ Hf).
  rewrite Hav, bool_decide_true by done. cbn [negb].
  match goal with
  | |- context [bind ?m _ env (next w)] =>
      assert (∃ wc, m env (next w) = (inr false, wc) ∧ db wc = db w)
        as (wc & Hcheck & Hdbc)
  end.
  { destruct (required (AdminRentals.c_customerId b)) as [c|] eqn:Hcu.
    - destruct (Hc c eq_refl) as [cu Hcust].
      unfold prisma.customer.findUnique, bind, query, read, ret.
      rewrite Hup. simpl. rewrite Hcust. eauto.
    - unfold ret. eauto. }
  rewrite (bind_ok _ _ _ _ _ _ Hcheck).
  destruct (AdminRentals_POST_tx_ok env (next wc) user b sn sd z item a)
    as (x & w1 & Htx); try done; simpl; rewrite ?Hdbc; try done.
  unfold prisma._transaction.
  rewrite (bind_ok _ _ _ _ _ _ (transaction_ok _ _ _ _ _ Hup Htx)).
  unfold bind. by rewrite notification_swallowed.
Qed.

(** ** Runs under two notification services *)

Lemma agree_bind {A B} (m : M A) (k k' : A → M B) env w :
  (∀ a w1, agree (k' a env w1) (k a env w1)) →
  agree (bind m k' env w) (bind m k env w).
Proof.
  intros Hk. unfold bind.
  destruct (m env w) as [[e|a] w1]; [done|]. apply Hk.
Qed.

Lemma agree_route (m m' : M NextResponse.t) failed env w :
  agree (m' env w) (m env w) →
  agree (route m' failed env w) (route m failed env w).
Proof.
  unfold agree, route.
  destruct (m' env w) as [[e'|r'] w1'], (m env w) as [[e|r] w1]; simpl;
    intros [H1 H2]; (split; [congruence|exact H2]).
Qed.

(** ** The item read back after its update *)

Lemma item_status_set_now sn ist s s' :
  item_status_set sn ist s s' →
  Item.status <$> items s' !! sn = Some ist.
Proof. intros (i & at_ & _ & ->). by rewrite lookup_insert_eq. Qed.

Lemma item_derived_now sn ist s s' i :
  item_derived sn ist s s' →
  items s !! sn = Some i →
  Item.status <$> items s' !! sn = Some (default (Item.status i) ist).
Proof.
  intros HI Hi. destruct ist as [st|]; simpl in *.
  - by apply (item_status_set_now _ _ s).
  - by rewrite HI, Hi.
Qed.

Lemma transition_applied_item id st actor derived rest s s' r :
  transition_applied id st actor derived rest s s' →
  rentals s !! id = Some r →
  item_derived (Rental.itemSerial r) derived s s'.
Proof.
  intros (r0 & r' & log & act & Hr0 & _ & _ & _ & _ & _ & _ & _ & _ & _ & _
          & _ & HI) Hr.
  assert (r0 = r) as -> by congruence. exact HI.
Qed.

(** * The claims *)

(** ** C1: a terminal rental and a new target status *)

(** C1, counterexample.  A COMPLETED rental is sent back to APPROVED through
    [PATCH /api/admin/rentals]: the response is 200 (no illegal-transition
    error), the record is APPROVED again and the item, which was AVAILABLE,
    is RENTED. *)
Lemma terminal_rental_reopened :
  let w := Fixture.world RequestStatus.COMPLETED ItemStatus.AVAILABLE in
  let out := AdminRentals.PATCH Fixture.lib (Fixture.patch "APPROVED") Fixture.env w in
  Rental.status <$> rentals (db w) !! "rental-1" = Some RequestStatus.COMPLETED
  ∧ RequestStatus.terminal RequestStatus.COMPLETED = true
  ∧ Item.status <$> items (db w) !! "SN-001" = Some ItemStatus.AVAILABLE
  ∧ NextResponse.status out.1 = 200%nat
  ∧ Rental.status <$> rentals (db out.2) !! "rental-1"
    = Some RequestStatus.APPROVED
  ∧ Item.status <$> items (db out.2) !! "SN-001" = Some ItemStatus.RENTED.
Proof. vm_compute. repeat split. Qed.

(** C1, amended.  The routes make no legality check.  For a rental in a
    terminal status and any target status, when the store answers, the item
    and the owner of the rental exist and the calling admin has a user row
    (the author of the status-log row), [PATCH /api/admin/rentals] answers
    200 and applies the transition like any other: the record takes the
    target status, one status-log and one activity-log row are written, and
    the item, read back from the store, has the status derived from the
    target alone (RENTED for APPROVED, AVAILABLE for COMPLETED and REJECTED,
    its old status for PENDING and CANCELLED).  The by-id [PATCH] leaves the
    record with the target status and the item, read back, with the derived
    status (there AVAILABLE for CANCELLED too), and answers 200 unless the
    activity logger rejects. *)
Theorem terminal_transition_applied lib env w user id target notes rc r i u a :
  reliable env →
  isAdmin user = true →
  id ≠ EmptyString →
  rentals (db w) !! id = Some r →
  RequestStatus.terminal (Rental.status r) = true →
  items (db w) !! Rental.itemSerial r = Some i →
  users (db w) !! Rental.userId r = Some u →
  users (db w) !! Session.userId user = Some a →
  let status := RequestStatus.to_string target in
  let out :=
    AdminRentals.PATCH lib
      (mkRequest (Some user)
         (Some (AdminRentals.mkPatch (str id) (str status) notes rc))) env w in
  let out' :=
    AdminRentalsId.PATCH lib
      (mkRequest (Some user)
         (Some (AdminRentalsId.mkPatch (str status) notes undefined undefined
                  undefined undefined))) id env w in
  (NextResponse.status out.1 = 200%nat
   ∧ transition_applied id target (Session.userId user)
       (AdminRentals.newItemStatus status) [] (db w) (db out.2)
   ∧ Item.status <$> items (db out.2) !! Rental.itemSerial r
     = Some (item_status_after target (Item.status i)))
  ∧ ((∃ r', rentals (db out'.2) !! id = Some r' ∧ Rental.status r' = target)
     ∧ item_derived (Rental.itemSerial r) (AdminRentalsId.newItemStatus status)
         (db w) (db out'.2)
     ∧ Item.status <$> items (db out'.2) !! Rental.itemSerial r
       = Some (item_status_after_by_id target (Item.status i))
     ∧ ((∀ a t r s m w, (lib_logRentalActivity lib a t r s m w).1 = None) →
        NextResponse.status out'.1 = 200%nat)).
Proof.
  intros Hup Hadm Hid Hr _ Hi Hu Ha status out out'. split.
  - pose proof (AdminRentals_PATCH_ok lib env w user id target notes rc r i u a
                  Hup Hadm Hid Hr Hi Hu Ha) as Hok.
    fold status in Hok. fold out in Hok. split; [done|].
    destruct (AdminRentals_PATCH_applied lib
                (mkRequest (Some user)
                   (Some (AdminRentals.mkPatch (str id) (str status) notes rc)))
                env w)
      as [[Hne _]|(_ & user' & b & id' & status' & st & Hs & Hb & Hid' & Hst
                   & Hof & Happ)]; [done|].
    simpl in Hs, Hb. simplify_eq.
    cbn [AdminRentals.p_id AdminRentals.p_status] in Hid', Hst.
    rewrite (required_str id Hid) in Hid'.
    unfold status in Hst. rewrite required_status in Hst. simplify_eq.
    assert (st = target) as -> by (destruct target; vm_compute in Hof; congruence).
    split; [exact Happ|].
    pose proof (transition_applied_item _ _ _ _ _ _ _ _ Happ Hr) as HI.
    pose proof (item_derived_now _ _ _ _ _ HI Hi) as Hnow.
    etrans; [exact Hnow|]. unfold status. by destruct target.
  - destruct (AdminRentalsId_PATCH_ok lib env w user id target notes r i u a
                Hup Hadm Hr Hi Hu Ha) as (HR & HI & H200).
    fold status in HI. fold out' in HR, HI, H200.
    repeat (split; [done|]). split; [|done].
    pose proof (item_derived_now _ _ _ _ _ HI Hi) as Hnow.
    etrans; [exact Hnow|]. unfold status. by destruct target.
Qed.

(** C1, the amended claim at work: a CANCELLED rental set to COMPLETED by
    either route. *)
Lemma terminal_transition_applied_witness :
  let w := Fixture.world RequestStatus.CANCELLED ItemStatus.RENTED in
  let out :=
    AdminRentals.PATCH Fixture.lib (Fixture.patch "COMPLETED") Fixture.env w in
  let out' :=
    AdminRentalsId.PATCH Fixture.lib (Fixture.patch_by_id "COMPLETED")
      "rental-1" Fixture.env w in
  (NextResponse.status out.1 = 200%nat
   ∧ transition_applied "rental-1" RequestStatus.COMPLETED "admin-1"
       (AdminRentals.newItemStatus "COMPLETED") [] (db w) (db out.2)
   ∧ Item.status <$> items (db out.2) !! "SN-001"
     = Some ItemStatus.AVAILABLE)
  ∧ ((∃ r', rentals (db out'.2) !! "rental-1" = Some r'
            ∧ Rental.status r' = RequestStatus.COMPLETED)
     ∧ item_derived "SN-001" (AdminRentalsId.newItemStatus "COMPLETED")
         (db w) (db out'.2)
     ∧ Item.status <$> items (db out'.2) !! "SN-001"
       = Some ItemStatus.AVAILABLE
     ∧ NextResponse.status out'.1 = 200%nat).
Proof.
  destruct (terminal_transition_applied Fixture.lib Fixture.env
              (Fixture.world RequestStatus.CANCELLED ItemStatus.RENTED)
              Fixture.session "rental-1" RequestStatus.COMPLETED undefined
              undefined (Fixture.rental1 RequestStatus.CANCELLED)
              (Fixture.detector ItemStatus.RENTED) Fixture.renter Fixture.admin)
    as (H1 & H2 & H3 & H3' & H4).
  - intros n. reflexivity.
  - reflexivity.
  - discriminate.
  - reflexivity.
  - reflexivity.
  - reflexivity.
  - reflexivity.
  - reflexivity.
  - split; [exact H1|]. split; [exact H2|]. split; [exact H3|].
    split; [exact H3'|]. apply H4. intros. reflexivity.
Defined.

(** ** C2: the item of a cancelled rental *)

(** C2, counterexample.  A PENDING rental whose item is IN_MAINTENANCE is
    cancelled through [DELETE /api/admin/rentals/rental-1]: the response is
    200, the rental is CANCELLED, and the item is still IN_MAINTENANCE, not
    AVAILABLE. *)
Lemma cancelled_rental_item_not_available :
  let w := Fixture.world RequestStatus.PENDING ItemStatus.IN_MAINTENANCE in
  let out := AdminRentalsId.DELETE Fixture.delete "rental-1" Fixture.env w in
  NextResponse.status out.1 = 200%nat
  ∧ Rental.status <$> rentals (db out.2) !! "rental-1"
    = Some RequestStatus.CANCELLED
  ∧ Item.status <$> items (db out.2) !! "SN-001"
    = Some ItemStatus.IN_MAINTENANCE
  ∧ Item.status <$> items (db out.2) !! "SN-001" ≠ Some ItemStatus.AVAILABLE.
Proof. vm_compute. repeat split. discriminate. Qed.

(** C2, amended.  A transition to CANCELLED through the by-id [PATCH] sets
    the status of the linked item to AVAILABLE: after a 200 the item, read
    back from the store, is AVAILABLE.  Through the admin [DELETE] the item
    is updated, and is AVAILABLE when read back, when it is RENTED at that
    moment; otherwise the item table is left as it is, and the item keeps
    the status it had. *)
Theorem cancel_item_status :
  (∀ lib req id env w b r,
     json req = Some b →
     required (AdminRentalsId.p_status b) = Some "CANCELLED" →
     rentals (db w) !! id = Some r →
     let out := AdminRentalsId.PATCH lib req id env w in
     NextResponse.status out.1 = 200%nat →
     item_status_set (Rental.itemSerial r) ItemStatus.AVAILABLE
       (db w) (db out.2)
     ∧ Item.status <$> items (db out.2) !! Rental.itemSerial r
       = Some ItemStatus.AVAILABLE)
  ∧ (∀ req id env w r i,
       rentals (db w) !! id = Some r →
       items (db w) !! Rental.itemSerial r = Some i →
       let out := AdminRentalsId.DELETE req id env w in
       NextResponse.status out.1 = 200%nat →
       if bool_decide (Item.status i = ItemStatus.RENTED)
       then item_status_set (Rental.itemSerial r) ItemStatus.AVAILABLE
              (db w) (db out.2)
            ∧ Item.status <$> items (db out.2) !! Rental.itemSerial r
              = Some ItemStatus.AVAILABLE
       else items (db out.2) = items (db w)
            ∧ Item.status <$> items (db out.2) !! Rental.itemSerial r
              = Some (Item.status i)).
Proof.
  split.
  - intros lib req id env w b r Hb Hst Hr out H200.
    destruct (AdminRentalsId_PATCH_applied lib req id env w b "CANCELLED" Hb Hst)
      as [[Hne _]|(user & st & rest & _ & _ & Happ & _)]; [done|].
    destruct Happ as (r0 & r' & log & act & Hr0 & _ & _ & _ & _ & _ & _ & _ & _
                      & _ & _ & _ & HI).
    assert (r0 = r) as -> by congruence.
    split; [exact HI|]. by apply (item_status_set_now _ _ (db w)).
  - intros req id env w r i Hr Hi out H200.
    destruct (AdminRentalsId_DELETE_applied req id env w)
      as [[Hne _]|(_ & user & r0 & i0 & _ & Hr0 & Hi0 & Happ)]; [done|].
    assert (r0 = r) as -> by congruence.
    assert (i0 = i) as -> by congruence.
    destruct Happ as (r1 & r' & log & act & Hr1 & _ & _ & _ & _ & _ & _ & _ & _
                      & _ & _ & _ & HI).
    assert (r1 = r) as -> by congruence.
    fold out in HI. destruct (bool_decide _); simpl in HI.
    + split; [exact HI|]. by apply (item_status_set_now _ _ (db w)).
    + split; [exact HI|]. by rewrite HI, Hi.
Qed.

(** C2, the amended claim at work: an APPROVED rental of a RENTED item is
    cancelled by either route. *)
Lemma cancel_item_status_witness :
  let w := Fixture.world RequestStatus.APPROVED ItemStatus.RENTED in
  let patched :=
    AdminRentalsId.PATCH Fixture.lib (Fixture.patch_by_id "CANCELLED")
      "rental-1" Fixture.env w in
  let deleted :=
    AdminRentalsId.DELETE Fixture.delete "rental-1" Fixture.env w in
  (item_status_set "SN-001" ItemStatus.AVAILABLE (db w) (db patched.2)
   ∧ Item.status <$> items (db patched.2) !! "SN-001"
     = Some ItemStatus.AVAILABLE)
  ∧ (item_status_set "SN-001" ItemStatus.AVAILABLE (db w) (db deleted.2)
     ∧ Item.status <$> items (db deleted.2) !! "SN-001"
       = Some ItemStatus.AVAILABLE).
Proof.
  split.
  - apply (proj1 cancel_item_status Fixture.lib (Fixture.patch_by_id "CANCELLED")
             "rental-1" Fixture.env
             (Fixture.world RequestStatus.APPROVED ItemStatus.RENTED)
             (AdminRentalsId.mkPatch (str "CANCELLED") undefined undefined
                undefined undefined undefined)
             (Fixture.rental1 RequestStatus.APPROVED)).
    + reflexivity.
    + reflexivity.
    + reflexivity.
    + vm_compute. reflexivity.
  - apply (proj2 cancel_item_status Fixture.delete "rental-1" Fixture.env
             (Fixture.world RequestStatus.APPROVED ItemStatus.RENTED)
             (Fixture.rental1 RequestStatus.APPROVED)
             (Fixture.detector ItemStatus.RENTED)).
    + reflexivity.
    + reflexivity.
    + vm_compute. reflexivity.
Defined.

(** The same cancellation through [PATCH /api/admin/rentals], computed: that
    route derives no item status for CANCELLED, and the item of the
    cancelled rental stays RENTED. *)
Example cancel_by_collection_patch_run :
  let w := Fixture.world RequestStatus.APPROVED ItemStatus.RENTED in
  let out :=
    AdminRentals.PATCH Fixture.lib (Fixture.patch "CANCELLED") Fixture.env w in
  AdminRentals.newItemStatus "CANCELLED" = None
  ∧ AdminRentalsId.newItemStatus "CANCELLED" = Some ItemStatus.AVAILABLE
  ∧ NextResponse.status out.1 = 200%nat
  ∧ Rental.status <$> rentals (db out.2) !! "rental-1"
    = Some RequestStatus.CANCELLED
  ∧ Item.status <$> items (db out.2) !! "SN-001" = Some ItemStatus.RENTED.
Proof. vm_compute. repeat split. Qed.

(** ** C3: all or nothing *)

(** C3.  Whatever the store, the request, the clock and the points at which
    the store stops answering, each route that changes a status leaves the
    store either exactly as it was, or with all the effects of the
    transition: for the two [PATCH] routes and [DELETE], the rental row
    with the new status, one status-log row, the activity-log row and the
    derived item status; for [POST], the new APPROVED rental, one status-log
    row, one activity-log row and the item RENTED.  For the collection
    [PATCH], [DELETE] and [POST] the first case is the one of every response
    other than 200.  (After the commit the notification service writes its
    own two tables, and the by-id route appends what the activity logger
    returns.) *)
Theorem transition_all_or_nothing :
  (∀ lib req env w,
     let out := AdminRentals.PATCH lib req env w in
     (NextResponse.status out.1 ≠ 200%nat ∧ db out.2 = db w)
     ∨ (NextResponse.status out.1 = 200%nat
        ∧ ∃ user id status st,
            RequestStatus.of_string status = Some st
            ∧ transition_applied id st user
                (AdminRentals.newItemStatus status) [] (db w) (db out.2)))
  ∧ (∀ lib req id env w b status,
       json req = Some b →
       required (AdminRentalsId.p_status b) = Some status →
       let out := AdminRentalsId.PATCH lib req id env w in
       db out.2 = db w
       ∨ (∃ user st rest,
            RequestStatus.of_string status = Some st
            ∧ transition_applied id st user
                (AdminRentalsId.newItemStatus status) rest (db w) (db out.2)))
  ∧ (∀ req id env w,
       let out := AdminRentalsId.DELETE req id env w in
       (NextResponse.status out.1 ≠ 200%nat ∧ db out.2 = db w)
       ∨ (NextResponse.status out.1 = 200%nat
          ∧ ∃ user i,
              transition_applied id RequestStatus.CANCELLED user
                (if bool_decide (Item.status i = ItemStatus.RENTED)
                 then Some ItemStatus.AVAILABLE else None)
                [] (db w) (db out.2)))
  ∧ (∀ lib req env w,
       let out := AdminRentals.POST lib req env w in
       (NextResponse.status out.1 ≠ 200%nat ∧ db out.2 = db w)
       ∨ (∃ x user sn,
            out.1 = NextResponse.ok x
            ∧ creation_applied (Included.rental x) user sn
                (db w) (db out.2))).
Proof.
  split; [|split; [|split]].
  - intros lib req env w out.
    destruct (AdminRentals_PATCH_applied lib req env w)
      as [?|(H200 & user & b & id & status & st & _ & _ & _ & _ & Hof & Happ)];
      [by left|].
    right. split; [done|]. by exists (Session.userId user), id, status, st.
  - intros lib req id env w b status Hb Hst out.
    destruct (AdminRentalsId_PATCH_applied lib req id env w b status Hb Hst)
      as [[_ ?]|(user & st & rest & _ & Hof & Happ & _)]; [by left|].
    right. by exists (Session.userId user), st, rest.
  - intros req id env w out.
    destruct (AdminRentalsId_DELETE_applied req id env w)
      as [?|(H200 & user & r & i & _ & _ & _ & Happ)]; [by left|].
    right. split; [done|]. by exists (Session.userId user), i.
  - intros lib req env w out.
    destruct (AdminRentals_POST_applied lib req env w)
      as [?|(user & b & sn & item & x & wc & _ & _ & _ & _ & _ & Hx & Happ
             & Hdb)]; [by left|].
    right. exists x, (Session.userId user), sn. split; [done|].
    fold out in Hdb. rewrite Hdb. exact Happ.
Qed.

(** C3, the by-id route at work, with a store that stops answering at
    tick 7 (the item update inside the transaction): nothing of the
    transition is left. *)
Lemma transition_all_or_nothing_witness :
  let w := Fixture.world RequestStatus.PENDING ItemStatus.AVAILABLE in
  let env :=
    mkEnv Fixture.clock (λ n, negb (n =? 7)%nat) (uuid Fixture.env)
      (parse_date Fixture.env) in
  let out :=
    AdminRentalsId.PATCH Fixture.lib (Fixture.patch_by_id "APPROVED") "rental-1" env w in
  db out.2 = db w
  ∨ (∃ user st rest,
       RequestStatus.of_string "APPROVED" = Some st
       ∧ transition_applied "rental-1" st user
           (AdminRentalsId.newItemStatus "APPROVED") rest (db w) (db out.2)).
Proof.
  apply (proj1 (proj2 transition_all_or_nothing) Fixture.lib
           (Fixture.patch_by_id "APPROVED") "rental-1" _
           (Fixture.world RequestStatus.PENDING ItemStatus.AVAILABLE)
           (AdminRentalsId.mkPatch (str "APPROVED") undefined undefined
              undefined undefined undefined) "APPROVED").
  - reflexivity.
  - reflexivity.
Defined.

(** The same run, computed: the response is 500 and the store is the one
    the request found, although the rental update and the status log had
    already been issued inside the transaction. *)
Example rollback_run :
  let w := Fixture.world RequestStatus.PENDING ItemStatus.AVAILABLE in
  let env :=
    mkEnv Fixture.clock (λ n, negb (n =? 7)%nat) (uuid Fixture.env)
      (parse_date Fixture.env) in
  let out :=
    AdminRentalsId.PATCH Fixture.lib (Fixture.patch_by_id "APPROVED") "rental-1" env w in
  NextResponse.status out.1 = 500%nat ∧ db out.2 = db w ∧ tick out.2 = 8%nat.
Proof. vm_compute. repeat split. Qed.

(** ** C4: approval *)

(** C4.  A PENDING rental approved with a 200 response: the linked item,
    read back from the store, is RENTED, and the same transaction appended one status-log row (status
    APPROVED, this rental, the acting admin) and one activity-log row for
    this rental, its item and its owner.  Through
    [PATCH /api/admin/rentals] these are the only rows written to the two
    logs; through the by-id [PATCH] the row of the activity log is followed
    by what the activity logger appends after the commit. *)
Theorem approve_rents_item_and_logs :
  (∀ lib req env w b id r,
     json req = Some b →
     required (AdminRentals.p_id b) = Some id →
     required (AdminRentals.p_status b) = Some "APPROVED" →
     rentals (db w) !! id = Some r →
     Rental.status r = RequestStatus.PENDING →
     let out := AdminRentals.PATCH lib req env w in
     NextResponse.status out.1 = 200%nat →
     ∃ user,
       session req = Some user
       ∧ transition_applied id RequestStatus.APPROVED (Session.userId user)
           (Some ItemStatus.RENTED) [] (db w) (db out.2)
       ∧ Item.status <$> items (db out.2) !! Rental.itemSerial r
         = Some ItemStatus.RENTED)
  ∧ (∀ lib req env w b id r,
       json req = Some b →
       required (AdminRentalsId.p_status b) = Some "APPROVED" →
       rentals (db w) !! id = Some r →
       Rental.status r = RequestStatus.PENDING →
       let out := AdminRentalsId.PATCH lib req id env w in
       NextResponse.status out.1 = 200%nat →
       ∃ user rest,
         session req = Some user
         ∧ transition_applied id RequestStatus.APPROVED (Session.userId user)
             (Some ItemStatus.RENTED) rest (db w) (db out.2)
         ∧ Item.status <$> items (db out.2) !! Rental.itemSerial r
           = Some ItemStatus.RENTED).
Proof.
  split.
  - intros lib req env w b id r Hb Hid Hst Hr _ out H200.
    destruct (AdminRentals_PATCH_applied lib req env w)
      as [[Hne _]|(_ & user & b' & id' & status & st & Hs & Hb' & Hid' & Hst'
                   & Hof & Happ)]; [done|].
    simplify_eq. vm_compute in Hof. simplify_eq.
    exists user. split; [done|]. split; [exact Happ|].
    pose proof (transition_applied_item _ _ _ _ _ _ _ _ Happ Hr) as HI.
    by apply (item_status_set_now _ _ (db w)).
  - intros lib req env w b id r Hb Hst Hr _ out H200.
    destruct (AdminRentalsId_PATCH_applied lib req id env w b "APPROVED" Hb Hst)
      as [[Hne _]|(user & st & rest & Hs & Hof & Happ & _)]; [done|].
    vm_compute in Hof. simplify_eq.
    apply verifyAdmin_inv in Hs as [Hs _].
    exists user, rest. split; [done|]. split; [exact Happ|].
    pose proof (transition_applied_item _ _ _ _ _ _ _ _ Happ Hr) as HI.
    by apply (item_status_set_now _ _ (db w)).
Qed.

(** C4 at work on the pending rental of the detector, by both routes. *)
Lemma approve_rents_item_and_logs_witness :
  let w := Fixture.world RequestStatus.PENDING ItemStatus.AVAILABLE in
  (∃ user,
     session (Fixture.patch "APPROVED") = Some user
     ∧ transition_applied "rental-1" RequestStatus.APPROVED
         (Session.userId user) (Some ItemStatus.RENTED) [] (db w)
         (db (AdminRentals.PATCH Fixture.lib (Fixture.patch "APPROVED") Fixture.env w).2)
     ∧ Item.status
         <$> items (db (AdminRentals.PATCH Fixture.lib
                          (Fixture.patch "APPROVED") Fixture.env w).2)
               !! "SN-001"
       = Some ItemStatus.RENTED)
  ∧ (∃ user rest,
       session (Fixture.patch_by_id "APPROVED") = Some user
       ∧ transition_applied "rental-1" RequestStatus.APPROVED
           (Session.userId user) (Some ItemStatus.RENTED) rest (db w)
           (db (AdminRentalsId.PATCH Fixture.lib (Fixture.patch_by_id "APPROVED")
                  "rental-1" Fixture.env w).2)
       ∧ Item.status
           <$> items (db (AdminRentalsId.PATCH Fixture.lib
                            (Fixture.patch_by_id "APPROVED") "rental-1"
                            Fixture.env w).2) !! "SN-001"
         = Some ItemStatus.RENTED).
Proof.
  split.
  - apply (proj1 approve_rents_item_and_logs Fixture.lib (Fixture.patch "APPROVED")
             Fixture.env
             (Fixture.world RequestStatus.PENDING ItemStatus.AVAILABLE)
             (AdminRentals.mkPatch (str "rental-1") (str "APPROVED")
                undefined undefined)
             "rental-1" (Fixture.rental1 RequestStatus.PENDING)).
    + reflexivity.
    + reflexivity.
    + reflexivity.
    + reflexivity.
    + reflexivity.
    + vm_compute. reflexivity.
  - apply (proj2 approve_rents_item_and_logs Fixture.lib (Fixture.patch_by_id "APPROVED")
             Fixture.env
             (Fixture.world RequestStatus.PENDING ItemStatus.AVAILABLE)
             (AdminRentalsId.mkPatch (str "APPROVED") undefined undefined
                undefined undefined undefined)
             "rental-1" (Fixture.rental1 RequestStatus.PENDING)).
    + reflexivity.
    + reflexivity.
    + reflexivity.
    + reflexivity.
    + vm_compute. reflexivity.
Defined.

(** ** C5: completion *)

(** The by-id [PATCH] with a status never writes the item history. *)
Lemma AdminRentalsId_PATCH_history_untouched lib req id env w b status :
  json req = Some b →
  required (AdminRentalsId.p_status b) = Some status →
  itemHistories (db (AdminRentalsId.PATCH lib req id env w).2)
  = itemHistories (db w).
Proof.
  intros Hb Hst.
  destruct (AdminRentalsId_PATCH_applied lib req id env w b status Hb Hst)
    as [[_ ->]|(user & st & rest & _ & _ & _ & HH)]; done.
Qed.

(** C5, the failing input.  The APPROVED rental of the detector, with no
    return date and with its history row open, is completed through
    [PATCH /api/admin/rentals/rental-1]: the response is 200, the rental is
    COMPLETED with the return date stamped from the clock, the item is
    AVAILABLE, and the history row (action RENTED, related to this rental)
    still has no end date.  The same request through
    [PATCH /api/admin/rentals] closes the row. *)
Theorem complete_by_id_leaves_history_open :
  let w := Fixture.world RequestStatus.APPROVED ItemStatus.RENTED in
  let out :=
    AdminRentalsId.PATCH Fixture.lib (Fixture.patch_by_id "COMPLETED") "rental-1"
      Fixture.env w in
  let sibling :=
    AdminRentals.PATCH Fixture.lib (Fixture.patch "COMPLETED") Fixture.env w in
  Rental.returnDate <$> rentals (db w) !! "rental-1" = Some None
  ∧ itemHistories (db w) = [Fixture.handed_out]
  ∧ prisma.itemHistory.open_row "SN-001" "RENTED" "rental-1"
      Fixture.handed_out = true
  ∧ NextResponse.status out.1 = 200%nat
  ∧ Rental.status <$> rentals (db out.2) !! "rental-1"
    = Some RequestStatus.COMPLETED
  ∧ Rental.returnDate <$> rentals (db out.2) !! "rental-1"
    = Some (Some (Fixture.clock 1))
  ∧ Item.status <$> items (db out.2) !! "SN-001" = Some ItemStatus.AVAILABLE
  ∧ itemHistories (db out.2) = [Fixture.handed_out]
  ∧ ItemHistory.endDate <$> itemHistories (db out.2) = [None]
  ∧ NextResponse.status sibling.1 = 200%nat
  ∧ ItemHistory.endDate <$> itemHistories (db sibling.2)
    = [Some (Fixture.clock 7)].
Proof. vm_compute. repeat split. Qed.

(** ** C6: one row in each log *)

(** C6, the failing input.  The PENDING rental of the detector is approved
    through [PATCH /api/admin/rentals/rental-1], the activity logger being
    the one modelled from the specification: the response is 200, one
    status-log row is written, and the activity log holds two rows for this
    transition, the one of the transaction and the one of
    [logRentalActivity] after it.  The same request through
    [PATCH /api/admin/rentals] writes one. *)
Theorem approve_by_id_logs_activity_twice :
  let w := Fixture.world RequestStatus.PENDING ItemStatus.AVAILABLE in
  let out :=
    AdminRentalsId.PATCH Fixture.lib (Fixture.patch_by_id "APPROVED") "rental-1"
      Fixture.env w in
  let sibling :=
    AdminRentals.PATCH Fixture.lib (Fixture.patch "APPROVED") Fixture.env w in
  activityLogs (db w) = []
  ∧ NextResponse.status out.1 = 200%nat
  ∧ length (rentalStatusLogs (db out.2)) = 1%nat
  ∧ length (activityLogs (db out.2)) = 2%nat
  ∧ ActivityLog.rentalId <$> activityLogs (db out.2)
    = [Some "rental-1"; Some "rental-1"]
  ∧ ActivityLog.type <$> activityLogs (db out.2)
    = [ActivityType.RENTAL_UPDATED; ActivityType.RENTAL_UPDATED]
  ∧ ActivityLog.action <$> activityLogs (db out.2)
    = ["Updated rental status to APPROVED";
       "Admin Admin updated rental status to APPROVED"]
  ∧ NextResponse.status sibling.1 = 200%nat
  ∧ length (activityLogs (db sibling.2)) = 1%nat.
Proof. vm_compute. repeat split. Qed.

(** Whatever the activity logger does, the by-id route has written its own
    activity-log row before calling it: the rows of the logger come on top
    of that one. *)
Lemma approve_by_id_logs_before_logger lib req id env w b status :
  json req = Some b →
  required (AdminRentalsId.p_status b) = Some status →
  let out := AdminRentalsId.PATCH lib req id env w in
  NextResponse.status out.1 = 200%nat →
  ∃ act rest,
    activityLogs (db out.2) = (activityLogs (db w) ++ act :: rest)%list
    ∧ ActivityLog.rentalId act = Some id.
Proof.
  intros Hb Hst out H200.
  destruct (AdminRentalsId_PATCH_applied lib req id env w b status Hb Hst)
    as [[Hne _]|(user & st & rest & _ & _ & Happ & _)]; [done|].
  destruct Happ as (r0 & r' & log & act & _ & _ & _ & _ & _ & _ & _ & HA & _
                    & Hid & _).
  by exists act, rest.
Qed.

(** The activity logger itself is awaited outside any [try]: when it
    rejects, the by-id route answers 500 although the transition is
    committed. *)
Example logger_down_run :
  let lib :=
    mkLib Fixture.notify Fixture.remind
      (λ _ _ _ _ _ _, (Some HelperRejected, [])) in
  let out :=
    AdminRentalsId.PATCH lib (Fixture.patch_by_id "APPROVED") "rental-1"
      Fixture.env (Fixture.world RequestStatus.PENDING ItemStatus.AVAILABLE) in
  NextResponse.status out.1 = 500%nat
  ∧ Rental.status <$> rentals (db out.2) !! "rental-1"
    = Some RequestStatus.APPROVED
  ∧ Item.status <$> items (db out.2) !! "SN-001" = Some ItemStatus.RENTED
  ∧ length (activityLogs (db out.2)) = 1%nat.
Proof. vm_compute. repeat split. Qed.

(** ** C7: creation against a busy item *)

(** C7.  A creation request naming an item whose status is not AVAILABLE
    never answers 200 and leaves the store as it was: no rental, no log row,
    no item update.  When the caller is an admin, the required fields are
    there and the store answers the lookup of the item, the response is the
    rejection "Item is not available for rental". *)
Theorem create_on_busy_item_rejected lib req env w b sn item :
  json req = Some b →
  required (AdminRentals.c_itemSerial b) = Some sn →
  items (db w) !! sn = Some item →
  Item.status item ≠ ItemStatus.AVAILABLE →
  let out := AdminRentals.POST lib req env w in
  NextResponse.status out.1 ≠ 200%nat
  ∧ db out.2 = db w
  ∧ (∀ user,
       session req = Some user →
       isAdmin user = true →
       is_Some (required (AdminRentals.c_startDate b)) →
       db_up env (tick w) = true →
       out.1 = ItemNotAvailableError).
Proof.
  intros Hb Hsn Hi Hbusy out.
  assert (NextResponse.status out.1 ≠ 200%nat ∧ db out.2 = db w) as [H1 H2].
  { subst out.
    destruct (AdminRentals.POST lib req env w) as [resp w'] eqn:E. simpl.
    apply AdminRentals_POST_inv in E
      as [?|(user & b' & sn' & sd & item' & w0 & x & w1 & _ & _ & Hb' & Hsn'
             & _ & Hi' & Hav & _)]; [done|].
    simplify_eq. }
  repeat (split; [done|]).
  intros user Hs Hadm [sd Hsd] Hup. subst out.
  unfold AdminRentals.POST, route, getUserFromRequest, req_json.
  rewrite Hs, Hadm, Hb. cbn [negb].
  unfold bind at 1. unfold ret at 1. rewrite Hsn, Hsd.
  unfold bind at 1, prisma.item.findUnique, bind, query, read, ret.
  rewrite Hup. simpl. rewrite Hi, bool_decide_false by done. done.
Qed.

(** C7 at work: the detector is IN_CALIBRATION. *)
Lemma create_on_busy_item_rejected_witness :
  let w := Fixture.fresh ItemStatus.IN_CALIBRATION in
  let out := AdminRentals.POST Fixture.lib Fixture.post Fixture.env w in
  NextResponse.status out.1 ≠ 200%nat
  ∧ db out.2 = db w
  ∧ out.1 = ItemNotAvailableError.
Proof.
  destruct (create_on_busy_item_rejected Fixture.lib Fixture.post Fixture.env
              (Fixture.fresh ItemStatus.IN_CALIBRATION)
              (AdminRentals.mkPost (str "SN-001") (str "2025-01-01")
                 (str "2025-02-01") undefined undefined undefined
                 (str "Budi") undefined undefined undefined)
              "SN-001" (Fixture.detector ItemStatus.IN_CALIBRATION))
    as (H1 & H2 & H3).
  - reflexivity.
  - reflexivity.
  - reflexivity.
  - discriminate.
  - split; [exact H1|]. split; [exact H2|].
    apply (H3 Fixture.session).
    + reflexivity.
    + reflexivity.
    + simpl. eauto.
    + reflexivity.
Defined.

(** The rejection, computed. *)
Example busy_item_run :
  AdminRentals.POST Fixture.lib Fixture.post Fixture.env
    (Fixture.fresh ItemStatus.IN_CALIBRATION)
  = (ItemNotAvailableError,
     mkWorld (db (Fixture.fresh ItemStatus.IN_CALIBRATION)) 1).
Proof. vm_compute. reflexivity. Qed.

(** ** C8: the notification after the commit *)

(** C8.  The response of a route and the tables outside the notification
    service do not depend on what the notification helper does, rejection
    included: run with any two helpers, [PATCH /api/admin/rentals] and
    [POST /api/admin/rentals] give the same response and agree on every
    table but reminders and notifications; and so does the by-id [PATCH] for
    any two reminder helpers. *)
Theorem notification_failure_swallowed :
  (∀ lib req env w h,
     agree (AdminRentals.PATCH (with_notifier h lib) req env w)
       (AdminRentals.PATCH lib req env w))
  ∧ (∀ lib req env w h,
       agree (AdminRentals.POST (with_notifier h lib) req env w)
         (AdminRentals.POST lib req env w))
  ∧ (∀ lib req id env w h,
       agree (AdminRentalsId.PATCH (with_reminder h lib) req id env w)
         (AdminRentalsId.PATCH lib req id env w)).
Proof.
  split; [|split].
  - intros lib req env w h. unfold AdminRentals.PATCH. apply agree_route.
    unfold getUserFromRequest.
    destruct (session req) as [user|]; [|done].
    destruct (negb (isAdmin user)); [done|].
    apply agree_bind. intros b w1.
    destruct (required (AdminRentals.p_id b)) as [id|]; [|done].
    destruct (required (AdminRentals.p_status b)) as [status|]; [|done].
    apply agree_bind. intros [cur|] w2; [|done].
    apply agree_bind. intros x w3.
    destruct (is_status status RequestStatus.APPROVED); [|done].
    unfold bind. rewrite !notification_swallowed. done.
  - intros lib req env w h. unfold AdminRentals.POST. apply agree_route.
    unfold getUserFromRequest.
    destruct (session req) as [user|]; [|done].
    destruct (negb (isAdmin user)); [done|].
    apply agree_bind. intros b w1.
    destruct (required (AdminRentals.c_itemSerial b)) as [sn|]; [|done].
    destruct (required (AdminRentals.c_startDate b)) as [sd|]; [|done].
    apply agree_bind. intros [item|] w2; [|done].
    destruct (negb _); [done|].
    apply agree_bind. intros miss w3.
    destruct miss; [done|].
    apply agree_bind. intros x w4.
    unfold bind. rewrite !notification_swallowed. done.
  - intros lib req id env w h. unfold AdminRentalsId.PATCH. apply agree_route.
    destruct (verifyAdmin req) as [user|]; [|done].
    apply agree_bind. intros b w1.
    apply agree_bind. intros [cur|] w2; [|done].
    apply agree_bind. intros d w3.
    apply agree_bind. intros x w4.
    apply agree_bind. intros [] w5.
    destruct (match required (AdminRentalsId.p_status b) with
              | Some status => is_status status RequestStatus.APPROVED
              | None => false
              end); [|done].
    unfold bind. rewrite !reminder_swallowed. done.
Qed.

(** C8, computed: the notification service is down when the PENDING rental
    of the detector is approved and when a rental is created; both requests
    answer 200 and the transition stays committed. *)
Example notification_down_run :
  let lib := with_notifier Fixture.notify_down Fixture.lib in
  let out :=
    AdminRentals.PATCH lib (Fixture.patch "APPROVED") Fixture.env
      (Fixture.world RequestStatus.PENDING ItemStatus.AVAILABLE) in
  let out' :=
    AdminRentals.POST lib Fixture.post Fixture.env
      (Fixture.fresh ItemStatus.AVAILABLE) in
  (lib_createInstantNotificationForReminder lib "rental-1" ReminderType.RENTAL
     out.2).1 = Some HelperRejected
  ∧ NextResponse.status out.1 = 200%nat
  ∧ Rental.status <$> rentals (db out.2) !! "rental-1"
    = Some RequestStatus.APPROVED
  ∧ Item.status <$> items (db out.2) !! "SN-001" = Some ItemStatus.RENTED
  ∧ notifications (db out.2) = []
  ∧ NextResponse.status out'.1 = 200%nat
  ∧ Rental.status <$> rentals (db out'.2) !! "rental-2"
    = Some RequestStatus.APPROVED
  ∧ Item.status <$> items (db out'.2) !! "SN-001" = Some ItemStatus.RENTED.
Proof. vm_compute. repeat split. Qed.

(** ** C9: creation by an admin *)

(** C9.  An admin creates a rental for an AVAILABLE item, with the required
    fields, dates that parse, an existing customer if one is named, a store
    that answers and a fresh uuid.  The response is 200 with the new rental;
    the transaction left a rental with status APPROVED, the item RENTED
    (read back from the committed store and from the final one), one
    status-log row with status APPROVED and one activity-log row of type
    RENTAL_CREATED, and nothing else; the notification helper then ran on
    that committed store, and the final store is what it returned. *)
Theorem admin_creation_auto_approved lib env w user b sn sd z item a :
  reliable env →
  isAdmin user = true →
  required (AdminRentals.c_itemSerial b) = Some sn →
  required (AdminRentals.c_startDate b) = Some sd →
  parse_date env sd = Some z →
  (∀ e, required (AdminRentals.c_endDate b) = Some e →
        is_Some (parse_date env e)) →
  (∀ c, required (AdminRentals.c_customerId b) = Some c →
        is_Some (customers (db w) !! c)) →
  items (db w) !! sn = Some item →
  Item.status item = ItemStatus.AVAILABLE →
  users (db w) !! Session.userId user = Some a →
  (∀ n, rentals (db w) !! uuid env n = None) →
  let out := AdminRentals.POST lib (mkRequest (Some user) (Some b)) env w in
  ∃ x committed,
    out.1 = NextResponse.ok x
    ∧ creation_applied (Included.rental x) (Session.userId user) sn
        (db w) (db committed)
    ∧ Item.status <$> items (db committed) !! sn = Some ItemStatus.RENTED
    ∧ Item.status <$> items (db out.2) !! sn = Some ItemStatus.RENTED
    ∧ rentals (db out.2) !! Rental.id (Included.rental x)
      = Some (Included.rental x)
    ∧ itemHistories (db committed) = itemHistories (db w)
    ∧ reminders (db committed) = reminders (db w)
    ∧ notifications (db committed) = notifications (db w)
    ∧ db out.2
      = reminded (lib_createInstantNotificationForReminder lib
                    (Rental.id (Included.rental x)) ReminderType.RENTAL)
          committed.
Proof.
  intros Hup Hadm Hsn Hstart Hsd Hed Hc Hi Hav Ha Hfresh out.
  pose proof (AdminRentals_POST_ok lib env w user b sn sd z item a Hup Hadm Hsn
                Hstart Hsd Hed Hc Hi Hav Ha Hfresh) as H200.
  fold out in H200. subst out.
  destruct (AdminRentals.POST lib _ env w) as [resp w'] eqn:E. simpl in *.
  apply AdminRentals_POST_inv in E
    as [[Hne _]|(user' & b' & sn' & sd' & item' & w0 & x & w1 & Hs & _ & Hb
                 & Hsn' & _ & _ & _ & Hdb0 & Htx & -> & Hdb')]; [done|].
  simpl in Hs, Hb. simplify_eq.
  apply AdminRentals_POST_tx_inr in Htx
    as (t2 & t3 & Hxs & Hxi & Hxu & Hnew & HR & HL & HI & HA & HH & _ & _ & HM
        & HN).
  cbn zeta in *. rewrite Hdb0 in *.
  exists x, (next w1). split; [done|].
  pose proof (item_status_set_now _ _ _ _ HI) as Hnow.
  split; [|rewrite Hdb'; simpl; rewrite HR, lookup_insert_eq; done].
  eexists _, _. simpl. rewrite HL, HA.
  repeat (split; [done|]). done.
Qed.

(** C9 at work: the detector rented out to "Budi". *)
Lemma admin_creation_auto_approved_witness :
  let w := Fixture.fresh ItemStatus.AVAILABLE in
  let out := AdminRentals.POST Fixture.lib Fixture.post Fixture.env w in
  ∃ x committed,
    out.1 = NextResponse.ok x
    ∧ creation_applied (Included.rental x) "admin-1" "SN-001"
        (db w) (db committed)
    ∧ Item.status <$> items (db committed) !! "SN-001"
      = Some ItemStatus.RENTED
    ∧ Item.status <$> items (db out.2) !! "SN-001" = Some ItemStatus.RENTED
    ∧ rentals (db out.2) !! Rental.id (Included.rental x)
      = Some (Included.rental x)
    ∧ itemHistories (db committed) = itemHistories (db w)
    ∧ reminders (db committed) = reminders (db w)
    ∧ notifications (db committed) = notifications (db w)
    ∧ db out.2
      = reminded (lib_createInstantNotificationForReminder Fixture.lib
                    (Rental.id (Included.rental x)) ReminderType.RENTAL)
          committed.
Proof.
  apply (admin_creation_auto_approved Fixture.lib Fixture.env
           (Fixture.fresh ItemStatus.AVAILABLE) Fixture.session
           (AdminRentals.mkPost (str "SN-001") (str "2025-01-01")
              (str "2025-02-01") undefined undefined undefined
              (str "Budi") undefined undefined undefined)
           "SN-001" "2025-01-01" 1735689600000
           (Fixture.detector ItemStatus.AVAILABLE) Fixture.admin).
  - intros n. reflexivity.
  - reflexivity.
  - reflexivity.
  - reflexivity.
  - reflexivity.
  - intros e [= <-]. vm_compute. eauto.
  - intros c. simpl. discriminate.
  - reflexivity.
  - reflexivity.
  - reflexivity.
  - intros n. reflexivity.
Defined.

(** Scenario A of the specification, computed: the rows of the creation and
    the reminder and notification of the helper. *)
Example scenario_A :
  let out :=
    AdminRentals.POST Fixture.lib Fixture.post Fixture.env
      (Fixture.fresh ItemStatus.AVAILABLE) in
  NextResponse.status out.1 = 200%nat
  ∧ Rental.status <$> rentals (db out.2) !! "rental-2"
    = Some RequestStatus.APPROVED
  ∧ Item.status <$> items (db out.2) !! "SN-001" = Some ItemStatus.RENTED
  ∧ RentalStatusLog.status <$> rentalStatusLogs (db out.2)
    = [RequestStatus.APPROVED]
  ∧ ActivityLog.type <$> activityLogs (db out.2)
    = [ActivityType.RENTAL_CREATED]
  ∧ length (reminders (db out.2)) = 1%nat
  ∧ Notification.shouldPlaySound <$> notifications (db out.2) = [true].
Proof. vm_compute. repeat split. Qed.

(** ** C10: the admin delete *)

(** C10.  [DELETE /api/admin/rentals/[id]] never removes a rental row,
    whatever its outcome.  On a 200 response the rental is CANCELLED, one
    status-log row and one activity-log row for it were appended, and the
    item table has the item reset to AVAILABLE when the item was RENTED (the
    item, read back from the store, is AVAILABLE) and is untouched when the
    item had any other status (the item keeps that status). *)
Theorem delete_cancels_and_frees_rented_item req id env w r i :
  rentals (db w) !! id = Some r →
  items (db w) !! Rental.itemSerial r = Some i →
  let out := AdminRentalsId.DELETE req id env w in
  (∀ k, is_Some (rentals (db w) !! k) → is_Some (rentals (db out.2) !! k))
  ∧ (NextResponse.status out.1 = 200%nat →
     ∃ user,
       session req = Some user
       ∧ transition_applied id RequestStatus.CANCELLED (Session.userId user)
           (if bool_decide (Item.status i = ItemStatus.RENTED)
            then Some ItemStatus.AVAILABLE else None)
           [] (db w) (db out.2)
       ∧ (Item.status i ≠ ItemStatus.RENTED → items (db out.2) = items (db w))
       ∧ (Item.status i = ItemStatus.RENTED →
          item_status_set (Rental.itemSerial r) ItemStatus.AVAILABLE
            (db w) (db out.2))
       ∧ Item.status <$> items (db out.2) !! Rental.itemSerial r
         = Some (if bool_decide (Item.status i = ItemStatus.RENTED)
                 then ItemStatus.AVAILABLE else Item.status i)).
Proof.
  intros Hr Hi out.
  destruct (AdminRentalsId_DELETE_applied req id env w)
    as [[Hne Hdb]|(H200 & user & r0 & i0 & Hs & Hr0 & Hi0 & Happ)];
    fold out in Hne, Hdb || fold out in H200, Happ.
  - split; [by rewrite Hdb|done].
  - assert (r0 = r) as -> by congruence.
    assert (i0 = i) as -> by congruence.
    apply verifyAdmin_inv in Hs as [Hs _].
    split.
    + destruct Happ as (r1 & r' & log & act & _ & Hr' & _).
      intros k Hk. destruct (decide (k = id)) as [->|Hne]; [eauto|].
      destruct (AdminRentalsId.DELETE req id env w) as [resp w'] eqn:E.
      apply AdminRentalsId_DELETE_inv in E
        as [[? _]|(? & cur & w0 & x & w1 & _ & _ & _ & Hdb0 & Htx & _ & Hdb')];
        [done|].
      apply AdminRentalsId_DELETE_tx_inr in Htx as (? & ? & ? & _ & _ & _ & _
                                                    & HR & _).
      subst out. simpl. rewrite Hdb', HR, Hdb0, lookup_insert_ne; done.
    + intros _. exists user. split; [done|]. split; [done|].
      destruct Happ as (r1 & r' & log & act & Hr1 & _ & _ & _ & _ & _ & _ & _
                        & _ & _ & _ & _ & HI).
      assert (r1 = r) as -> by congruence.
      split; [|split].
      * intros Hst. by rewrite bool_decide_false in HI.
      * intros Hst. by rewrite bool_decide_true in HI.
      * rewrite (item_derived_now _ _ _ _ _ HI Hi).
        by destruct (bool_decide _).
Qed.

(** C10 at work: an approved rental whose item is RENTED is deleted, and the
    item is AVAILABLE afterwards; a pending rental whose item is
    IN_CALIBRATION is deleted, and the item table is untouched. *)
Lemma delete_cancels_and_frees_rented_item_witness :
  let run rst ist :=
    AdminRentalsId.DELETE Fixture.delete "rental-1" Fixture.env
      (Fixture.world rst ist) in
  let rented := run RequestStatus.APPROVED ItemStatus.RENTED in
  let busy := run RequestStatus.PENDING ItemStatus.IN_CALIBRATION in
  ((∀ k, is_Some (rentals (Fixture.store RequestStatus.APPROVED
                             ItemStatus.RENTED) !! k) →
         is_Some (rentals (db rented.2) !! k))
   ∧ ∃ user,
       session Fixture.delete = Some user
       ∧ transition_applied "rental-1" RequestStatus.CANCELLED
           (Session.userId user) (Some ItemStatus.AVAILABLE) []
           (Fixture.store RequestStatus.APPROVED ItemStatus.RENTED)
           (db rented.2)
       ∧ Item.status <$> items (db rented.2) !! "SN-001"
         = Some ItemStatus.AVAILABLE)
  ∧ ((∀ k, is_Some (rentals (Fixture.store RequestStatus.PENDING
                               ItemStatus.IN_CALIBRATION) !! k) →
           is_Some (rentals (db busy.2) !! k))
     ∧ ∃ user,
         session Fixture.delete = Some user
         ∧ transition_applied "rental-1" RequestStatus.CANCELLED
             (Session.userId user) None []
             (Fixture.store RequestStatus.PENDING ItemStatus.IN_CALIBRATION)
             (db busy.2)
         ∧ items (db busy.2)
           = items (Fixture.store RequestStatus.PENDING
                      ItemStatus.IN_CALIBRATION)
         ∧ Item.status <$> items (db busy.2) !! "SN-001"
           = Some ItemStatus.IN_CALIBRATION).
Proof.
  split.
  - destruct (delete_cancels_and_frees_rented_item Fixture.delete "rental-1"
                Fixture.env
                (Fixture.world RequestStatus.APPROVED ItemStatus.RENTED)
                (Fixture.rental1 RequestStatus.APPROVED)
                (Fixture.detector ItemStatus.RENTED))
      as (H1 & H2).
    + reflexivity.
    + reflexivity.
    + split; [exact H1|].
      destruct H2 as (user & Hs & Happ & _ & _ & Hnow).
      * vm_compute. reflexivity.
      * exists user. split; [exact Hs|]. split; [exact Happ|exact Hnow].
  - destruct (delete_cancels_and_frees_rented_item Fixture.delete "rental-1"
                Fixture.env
                (Fixture.world RequestStatus.PENDING ItemStatus.IN_CALIBRATION)
                (Fixture.rental1 RequestStatus.PENDING)
                (Fixture.detector ItemStatus.IN_CALIBRATION))
      as (H1 & H2).
    + reflexivity.
    + reflexivity.
    + split; [exact H1|].
      destruct H2 as (user & Hs & Happ & Hkeep & _ & Hnow).
      * vm_compute. reflexivity.
      * exists user. split; [exact Hs|]. split; [exact Happ|].
        split; [apply Hkeep; discriminate|exact Hnow].
Defined.

(** The three outcomes of the delete on the item, computed. *)
Example delete_runs :
  let run ist :=
    AdminRentalsId.DELETE Fixture.delete "rental-1" Fixture.env
      (Fixture.world RequestStatus.APPROVED ist) in
  let item_after ist := Item.status <$> items (db (run ist).2) !! "SN-001" in
  let rental_after ist :=
    Rental.status <$> rentals (db (run ist).2) !! "rental-1" in
  item_after ItemStatus.RENTED = Some ItemStatus.AVAILABLE
  ∧ item_after ItemStatus.IN_CALIBRATION = Some ItemStatus.IN_CALIBRATION
  ∧ item_after ItemStatus.IN_MAINTENANCE = Some ItemStatus.IN_MAINTENANCE
  ∧ item_after ItemStatus.AVAILABLE = Some ItemStatus.AVAILABLE
  ∧ rental_after ItemStatus.RENTED = Some RequestStatus.CANCELLED
  ∧ rental_after ItemStatus.IN_CALIBRATION = Some RequestStatus.CANCELLED
  ∧ items (db (run ItemStatus.IN_CALIBRATION).2)
    = items (Fixture.store RequestStatus.APPROVED ItemStatus.IN_CALIBRATION).
Proof. vm_compute. repeat split. Qed.

(** * Further properties of the rental routes *)

(** ** The rows behind a response *)

Lemma AdminRentals_PATCH_tx_row adminId id status notes rc cur env w x w' :
  AdminRentals.PATCH_tx adminId id status notes rc cur env w = (inr x, w') →
  ∃ r at_,
    rentals (db w) !! id = Some r
    ∧ Included.rental x
      = RentalData.apply
          (RentalData.mk (Some status) None None None None
             (if is_status status RequestStatus.COMPLETED
                 && bool_decide
                      (Rental.returnDate (Included.rental cur) = None)
              then Some (now env (tick w)) else None)
             (required rc)) at_ r
    ∧ items (db w) !! Rental.itemSerial r = Some (Included.item x)
    ∧ users (db w) !! Rental.userId r = Some (Included.user x).
Proof.
  unfold AdminRentals.PATCH_tx. intros H.
  inv_run; chain_db; do 2 eexists; repeat split; eauto.
Qed.

Lemma AdminRentalsId_PATCH_tx_row adminId id b d cur env w x w' :
  AdminRentalsId.PATCH_tx adminId id b d cur env w = (inr x, w') →
  ∃ r at_,
    rentals (db w) !! id = Some r
    ∧ RentalData.well_typed d = true
    ∧ Included.rental x = RentalData.apply d at_ r
    ∧ items (db w) !! Rental.itemSerial r = Some (Included.item x)
    ∧ users (db w) !! Rental.userId r = Some (Included.user x)
    ∧ rentals (db w') = <[id := Included.rental x]> (rentals (db w))
    ∧ users (db w') = users (db w)
    ∧ customers (db w') = customers (db w)
    ∧ itemHistories (db w') = itemHistories (db w)
    ∧ reminders (db w') = reminders (db w)
    ∧ notifications (db w') = notifications (db w).
Proof.
  unfold AdminRentalsId.PATCH_tx. intros H.
  inv_run; chain_db.
  all: match goal with H : Included.rental _ = _ |- _ => rewrite H end.
  all: do 2 eexists; repeat split; eauto.
Qed.

(** The by-id update without a status: the details alone. *)
Lemma AdminRentalsId_PATCH_tx_details adminId id b d cur env w x w' :
  required (AdminRentalsId.p_status b) = None →
  AdminRentalsId.PATCH_tx adminId id b d cur env w = (inr x, w') →
  ∃ t3,
    rentalStatusLogs (db w') = rentalStatusLogs (db w)
    ∧ items (db w') = items (db w)
    ∧ activityLogs (db w')
      = (activityLogs (db w)
         ++ [prisma.activityLog.row
               (prisma.activityLog.mk ActivityType.RENTAL_UPDATED
                  ("Updated rental details for "
                   +:+ Item.name (Included.item cur)) adminId
                  (Some (Rental.itemSerial (Included.rental cur))) (Some id)
                  (Some (Rental.userId (Included.rental cur))) None) t3])%list.
Proof.
  unfold AdminRentalsId.PATCH_tx. intros Hb H. rewrite Hb in H.
  inv_run; chain_db; eexists; repeat split; eauto.
Qed.

Lemma AdminRentalsId_DELETE_tx_row adminId id cur env w x w' :
  AdminRentalsId.DELETE_tx adminId id cur env w = (inr x, w') →
  ∃ r at_,
    rentals (db w) !! id = Some r
    ∧ Included.rental x
      = RentalData.apply (RentalData.status_only "CANCELLED") at_ r
    ∧ items (db w) !! Rental.itemSerial r = Some (Included.item x)
    ∧ users (db w) !! Rental.userId r = Some (Included.user x).
Proof.
  unfold AdminRentalsId.DELETE_tx. intros H.
  inv_run; chain_db; do 2 eexists; repeat split; eauto.
Qed.

Lemma AdminRentals_POST_tx_row user sn sd b item env w x w' :
  AdminRentals.POST_tx user sn sd b item env w = (inr x, w') →
  ∃ id at_ z ed,
    parse_date env sd = Some z
    ∧ match required (AdminRentals.c_endDate b) with
      | Some e => ∃ ze, parse_date env e = Some ze ∧ ed = Some ze
      | None => ed = None
      end
    ∧ Included.rental x
      = Rental.mk id sn (Session.userId user)
          (or_null (AdminRentals.c_customerId b))
          (nullable (AdminRentals.c_poNumber b))
          (nullable (AdminRentals.c_doNumber b))
          RequestStatus.APPROVED z ed None at_ at_
          (or_null (AdminRentals.c_renterName b))
          (or_null (AdminRentals.c_renterPhone b))
          (or_null (AdminRentals.c_renterAddress b))
          (or_null (AdminRentals.c_initialCondition b)) None
    ∧ items (db w) !! sn = Some (Included.item x)
    ∧ users (db w) !! Session.userId user = Some (Included.user x).
Proof.
  unfold AdminRentals.POST_tx. intros H.
  inv_run; chain_db.
  all: match goal with H : RentalCreate.dates _ = _ |- _ =>
         unfold RentalCreate.dates, Date_of in H; simpl in H end.
  all: destruct (parse_date env sd) eqn:Hz; [|done].
  all: try match goal with
       | H : required (AdminRentals.c_endDate _) = _ |- _ => rewrite H
       end.
  all: repeat case_match; simplify_eq.
  all: match goal with H : Included.rental _ = _ |- _ => rewrite H end.
  all: unfold RentalCreate.row; simpl.
  all: do 4 eexists; split; [reflexivity|].
  all: split;
         [first [reflexivity | eexists; split; reflexivity]|].
  all: split; [reflexivity|]; eauto.
Qed.

(** ** Everything a route leaves behind *)

Lemma AdminRentals_PATCH_effect lib req env w :
  let out := AdminRentals.PATCH lib req env w in
  (NextResponse.status out.1 ≠ 200%nat ∧ db out.2 = db w)
  ∨ (∃ user b id status st r x n at_ t2 t3,
       session req = Some user
       ∧ json req = Some b
       ∧ required (AdminRentals.p_id b) = Some id
       ∧ required (AdminRentals.p_status b) = Some status
       ∧ RequestStatus.of_string status = Some st
       ∧ out.1 = NextResponse.ok x
       ∧ rentals (db w) !! id = Some r
       ∧ Included.rental x
         = RentalData.apply
             (RentalData.mk (Some status) None None None None
                (if is_status status RequestStatus.COMPLETED
                    && bool_decide (Rental.returnDate r = None)
                 then Some (now env n) else None)
                (required (AdminRentals.p_returnCondition b))) at_ r
       ∧ items (db w) !! Rental.itemSerial r = Some (Included.item x)
       ∧ users (db w) !! Rental.userId r = Some (Included.user x)
       ∧ rentals (db out.2) = <[id := Included.rental x]> (rentals (db w))
       ∧ rentalStatusLogs (db out.2)
         = (rentalStatusLogs (db w)
            ++ [RentalStatusLog.mk id st
                  (Some (default ("Status changed to " +:+ status)
                           (required (AdminRentals.p_notes b))))
                  (Session.userId user) t2])%list
       ∧ activityLogs (db out.2)
         = (activityLogs (db w)
            ++ [prisma.activityLog.row
                  (prisma.activityLog.mk ActivityType.RENTAL_UPDATED
                     ("Updated rental status to " +:+ status)
                     (Session.userId user) (Some (Rental.itemSerial r))
                     (Some id) (Some (Rental.userId r)) None) t3])%list
       ∧ item_derived (Rental.itemSerial r)
           (AdminRentals.newItemStatus status) (db w) (db out.2)
       ∧ (if is_status status RequestStatus.COMPLETED
          then ∃ e, itemHistories (db out.2)
                    = close_history (Rental.itemSerial r) id e
                        (itemHistories (db w))
          else itemHistories (db out.2) = itemHistories (db w))
       ∧ users (db out.2) = users (db w)
       ∧ customers (db out.2) = customers (db w)
       ∧ (is_status status RequestStatus.APPROVED = false →
          reminders (db out.2) = reminders (db w)
          ∧ notifications (db out.2) = notifications (db w))).
Proof.
  intros out. subst out.
  destruct (AdminRentals.PATCH lib req env w) as [resp w'] eqn:E. simpl.
  apply AdminRentals_PATCH_inv in E
    as [?|(user & b & id & status & cur & w0 & x & w1 & Hs & _ & Hb & Hid
           & Hst & Hcur & Hdb0 & Htx & -> & Hdb')]; [by left|].
  right.
  pose proof (AdminRentals_PATCH_tx_row _ _ _ _ _ _ _ _ _ _ Htx)
    as (r' & at_ & Hr' & Hx & Hi & Hu).
  apply AdminRentals_PATCH_tx_inr in Htx
    as (st & r & t2 & t3 & Hof & Hr & _ & _ & _ & _ & HR & HL & HA & HI
        & HH & HU & HC & HRm & HN).
  cbn zeta in *. rewrite Hdb0 in *.
  assert (r' = r) as -> by congruence.
  assert (r = Included.rental cur) as -> by congruence.
  assert (rentals (db w') = rentals (db w1)
          ∧ rentalStatusLogs (db w') = rentalStatusLogs (db w1)
          ∧ activityLogs (db w') = activityLogs (db w1)
          ∧ items (db w') = items (db w1)
          ∧ itemHistories (db w') = itemHistories (db w1)
          ∧ users (db w') = users (db w1)
          ∧ customers (db w') = customers (db w1)
          ∧ (is_status status RequestStatus.APPROVED = false →
             db w' = db w1))
    as (R' & L' & A' & I' & H' & U' & C' & N').
  { destruct (is_status status RequestStatus.APPROVED); by rewrite Hdb'. }
  exists user, b, id, status, st, (Included.rental cur), x, (tick w0), at_,
    t2, t3.
  rewrite R', L', A', H', U', C'.
  repeat (split; [done|]).
  split; [unfold item_derived, item_status_set in *; by rewrite I'|].
  repeat (split; [done|]).
  intros Hna. rewrite (N' Hna). done.
Qed.

(** The data of the by-id update, as prepared from the body. *)
Lemma updateData_exact b cur env w :
  ∃ w1,
    AdminRentalsId.updateData b cur env w
    = (inr (RentalData.mk (required (AdminRentalsId.p_status b))
              (AdminRentalsId.if_defined (AdminRentalsId.p_poNumber b))
              (AdminRentalsId.if_defined (AdminRentalsId.p_doNumber b))
              (Date_of env <$> required (AdminRentalsId.p_startDate b))
              (Date_of env <$> required (AdminRentalsId.p_endDate b))
              (if match required (AdminRentalsId.p_status b) with
                  | Some status => is_status status RequestStatus.COMPLETED
                  | None => false
                  end
                  && bool_decide
                       (Rental.returnDate (Included.rental cur) = None)
               then Some (now env (tick w)) else None)
              None), w1)
    ∧ db w1 = db w.
Proof.
  unfold AdminRentalsId.updateData, bind, new_Date_of, new_Date, ret.
  repeat case_match; simplify_eq/=; eexists; split; eauto.
Qed.

Lemma AdminRentalsId_PATCH_effect lib req id env w :
  let out := AdminRentalsId.PATCH lib req id env w in
  (NextResponse.status out.1 ≠ 200%nat ∧ db out.2 = db w)
  ∨ (∃ user b r x n at_ t3 rows,
       let d :=
         RentalData.mk (required (AdminRentalsId.p_status b))
           (AdminRentalsId.if_defined (AdminRentalsId.p_poNumber b))
           (AdminRentalsId.if_defined (AdminRentalsId.p_doNumber b))
           (Date_of env <$> required (AdminRentalsId.p_startDate b))
           (Date_of env <$> required (AdminRentalsId.p_endDate b))
           (if match required (AdminRentalsId.p_status b) with
               | Some status => is_status status RequestStatus.COMPLETED
               | None => false
               end
               && bool_decide (Rental.returnDate r = None)
            then Some (now env n) else None)
           None in
       session req = Some user
       ∧ json req = Some b
       ∧ (NextResponse.status out.1 = 500%nat ∨ out.1 = NextResponse.ok x)
       ∧ rentals (db w) !! id = Some r
       ∧ RentalData.well_typed d = true
       ∧ Included.rental x = RentalData.apply d at_ r
       ∧ items (db w) !! Rental.itemSerial r = Some (Included.item x)
       ∧ users (db w) !! Rental.userId r = Some (Included.user x)
       ∧ rentals (db out.2) = <[id := Included.rental x]> (rentals (db w))
       ∧ match required (AdminRentalsId.p_status b) with
         | Some status =>
             ∃ st t2,
               RequestStatus.of_string status = Some st
               ∧ rentalStatusLogs (db out.2)
                 = (rentalStatusLogs (db w)
                    ++ [RentalStatusLog.mk id st
                          (Some (default
                                   ("Status updated to " +:+ status
                                    +:+ " by admin")
                                   (required (AdminRentalsId.p_notes b))))
                          (Session.userId user) t2])%list
               ∧ activityLogs (db out.2)
                 = (activityLogs (db w)
                    ++ prisma.activityLog.row
                         (prisma.activityLog.mk ActivityType.RENTAL_UPDATED
                            ("Updated rental status to " +:+ status)
                            (Session.userId user)
                            (Some (Rental.itemSerial r)) (Some id)
                            (Some (Rental.userId r)) None) t3 :: rows)%list
               ∧ item_derived (Rental.itemSerial r)
                   (AdminRentalsId.newItemStatus status) (db w) (db out.2)
         | None =>
             rentalStatusLogs (db out.2) = rentalStatusLogs (db w)
             ∧ items (db out.2) = items (db w)
             ∧ activityLogs (db out.2)
               = (activityLogs (db w)
                  ++ prisma.activityLog.row
                       (prisma.activityLog.mk ActivityType.RENTAL_UPDATED
                          ("Updated rental details for "
                           +:+ Item.name (Included.item x))
                          (Session.userId user)
                          (Some (Rental.itemSerial r)) (Some id)
                          (Some (Rental.userId r)) None) t3 :: rows)%list
         end
       ∧ itemHistories (db out.2) = itemHistories (db w)
       ∧ users (db out.2) = users (db w)
       ∧ customers (db out.2) = customers (db w)
       ∧ (match required (AdminRentalsId.p_status b) with
          | Some status => is_status status RequestStatus.APPROVED
          | None => false
          end = false →
          reminders (db out.2) = reminders (db w)
          ∧ notifications (db out.2) = notifications (db w))
       ∧ (∃ wl,
            let logged :=
              lib_logRentalActivity lib (Session.userId user)
                ActivityType.RENTAL_UPDATED id (Rental.itemSerial r)
                ("Admin "
                 +:+ default "Unknown" (required (Session.name user))
                 +:+ " updated rental status to "
                 +:+ template (AdminRentalsId.p_status b)) wl in
            rows = logged.2
            ∧ rentals (db wl) = <[id := Included.rental x]> (rentals (db w))
            ∧ match logged.1 with
              | None => out.1 = NextResponse.ok x
              | Some _ => NextResponse.status out.1 = 500%nat
              end)).
Proof.
  intros out. subst out.
  destruct (AdminRentalsId.PATCH lib req id env w) as [resp w'] eqn:E. simpl.
  unfold AdminRentalsId.PATCH, route in E.
  destruct (verifyAdmin req) as [user|] eqn:Hs;
    [|injection E as <- <-; by left].
  apply verifyAdmin_inv in Hs as [Hs _].
  unfold bind at 1 in E.
  destruct (req_json req env w) as [[e|b] wj] eqn:Hj;
    apply req_json_inv in Hj as [-> Hb]; [injection E as <- <-; by left|].
  specialize (Hb b eq_refl).
  unfold bind at 1 in E.
  destruct (prisma.rental.findUnique id env w) as [[e|[cur|]] w0] eqn:Hf;
    pose proof (rental_findUnique_db _ _ _ _ _ Hf) as Hdb0;
    [injection E as <- <-; by left| |injection E as <- <-; by left].
  apply rental_findUnique_inr in Hf as (r & Hr & Hinc).
  apply include_inv in Hinc as (Hcur & Hci & _).
  destruct (updateData_exact b cur env w0) as (wd & Hd & Hdbd).
  unfold bind at 1 in E. rewrite Hd in E.
  unfold bind at 1, prisma._transaction in E.
  destruct (transaction _ env wd) as [[e|x] wt] eqn:Ht.
  { apply transaction_inl in Ht. injection E as <- <-. left.
    split; [done|congruence]. }
  apply transaction_inr in Ht as (w1 & Hbody & ->).
  right.
  pose proof (AdminRentalsId_PATCH_tx_row _ _ _ _ _ _ _ _ _ Hbody)
    as (r' & at_ & Hr' & Hwt & Hx & Hi & Hu & HR & HU & HC & HH & HRm & HN).
  simpl in Hr', Hi, Hu, HR, HU, HC, HH, HRm, HN.
  rewrite Hdbd, Hdb0 in Hr', Hi, Hu, HR, HU, HC, HH, HRm, HN.
  assert (r' = r) as -> by congruence.
  unfold bind at 1, logRentalActivity in E.
  match type of E with
  | context [lib_logRentalActivity ?pl ?pa ?pt ?pi ?ps ?pm ?pw] =>
      set (lg := lib_logRentalActivity pl pa pt pi ps pm pw) in E
  end.
  assert (∃ t3,
    match required (AdminRentalsId.p_status b) with
    | Some status =>
        ∃ st t2,
          RequestStatus.of_string status = Some st
          ∧ rentalStatusLogs (db w1)
            = (rentalStatusLogs (db w)
               ++ [RentalStatusLog.mk id st
                     (Some (default
                              ("Status updated to " +:+ status +:+ " by admin")
                              (required (AdminRentalsId.p_notes b))))
                     (Session.userId user) t2])%list
          ∧ activityLogs (db w1)
            = (activityLogs (db w)
               ++ [prisma.activityLog.row
                     (prisma.activityLog.mk ActivityType.RENTAL_UPDATED
                        ("Updated rental status to " +:+ status)
                        (Session.userId user)
                        (Some (Rental.itemSerial r)) (Some id)
                        (Some (Rental.userId r)) None) t3])%list
          ∧ item_derived (Rental.itemSerial r)
              (AdminRentalsId.newItemStatus status) (db w) (db w1)
    | None =>
        rentalStatusLogs (db w1) = rentalStatusLogs (db w)
        ∧ items (db w1) = items (db w)
        ∧ activityLogs (db w1)
          = (activityLogs (db w)
             ++ [prisma.activityLog.row
                   (prisma.activityLog.mk ActivityType.RENTAL_UPDATED
                      ("Updated rental details for "
                       +:+ Item.name (Included.item x))
                      (Session.userId user)
                      (Some (Rental.itemSerial r)) (Some id)
                      (Some (Rental.userId r)) None) t3])%list
    end) as (t3 & Hcase).
  { destruct (required (AdminRentalsId.p_status b)) as [status|] eqn:Hst.
    - apply (AdminRentalsId_PATCH_tx_inr _ _ status) in Hbody
        as (st & r0 & t2 & t3 & Hof & Hr0 & _ & _ & _ & _ & _ & HL & HA & HI
            & _); [|done..].
      cbn zeta in *. simpl in HL, HA, HI. rewrite Hdbd, Hdb0 in HL, HA, HI.
      rewrite Hcur in HA, HI. exists t3, st, t2. done.
    - apply AdminRentalsId_PATCH_tx_details in Hbody
        as (t3 & HL & HI & HA); [|done].
      simpl in HL, HA, HI. rewrite Hdbd, Hdb0 in HL, HA, HI.
      rewrite Hcur in HA. exists t3. repeat split; try done.
      rewrite HA. do 5 f_equal.
      assert (Included.item x = Included.item cur) as -> by congruence.
      done. }
  assert (∃ s2,
    (NextResponse.status resp = 500%nat ∨ resp = NextResponse.ok x)
    ∧ db w' = s2
    ∧ rentals s2 = rentals (db w1)
    ∧ rentalStatusLogs s2 = rentalStatusLogs (db w1)
    ∧ activityLogs s2 = (activityLogs (db w1) ++ lg.2)%list
    ∧ items s2 = items (db w1)
    ∧ itemHistories s2 = itemHistories (db w1)
    ∧ users s2 = users (db w1)
    ∧ customers s2 = customers (db w1)
    ∧ (match required (AdminRentalsId.p_status b) with
       | Some status => is_status status RequestStatus.APPROVED
       | None => false
       end = false →
       reminders s2 = reminders (db w1)
       ∧ notifications s2 = notifications (db w1))
    ∧ match lg.1 with
      | None => resp = NextResponse.ok x
      | Some _ => NextResponse.status resp = 500%nat
      end)
    as (s2 & Hresp & -> & R2 & L2 & A2 & I2 & H2 & U2 & C2 & N2 & Hlg).
  { destruct (lg.1).
    { simplify_eq/=. eexists. split; [by left|]. done. }
    destruct (match required (AdminRentalsId.p_status b) with
              | Some status => is_status status RequestStatus.APPROVED
              | None => false
              end).
    - unfold bind in E. rewrite reminder_swallowed in E. unfold ret in E.
      simplify_eq/=. eexists. split; [by right|]. done.
    - unfold bind, ret in E. simplify_eq/=. eexists.
      split; [by right|]. done. }
  exists user, b, r, x, (tick w0), at_, t3, (lg.2). cbn zeta.
  rewrite Hcur in Hd, Hwt, Hx. simpl in Hwt, Hx.
  rewrite R2, L2, A2, I2, H2, U2, C2.
  repeat (split; [done|]).
  split.
  { destruct (required (AdminRentalsId.p_status b)) as [status|].
    - destruct Hcase as (st & t2 & Hof & HL & HA & HI).
      exists st, t2. rewrite HL, HA, <- app_assoc.
      repeat (split; [done|]).
      unfold item_derived, item_status_set in *. by rewrite I2.
    - destruct Hcase as (HL & HI & HA).
      rewrite HL, HI, HA, <- app_assoc. done. }
  repeat (split; [done|]).
  split; [intros Hna; destruct (N2 Hna) as [-> ->]; done|].
  subst lg. rewrite Hcur in Hlg.
  eexists. cbn zeta. split; [by rewrite Hcur|]. split; [|exact Hlg].
  done.
Qed.

Lemma AdminRentalsId_DELETE_effect req id env w :
  let out := AdminRentalsId.DELETE req id env w in
  (NextResponse.status out.1 ≠ 200%nat ∧ db out.2 = db w)
  ∨ (∃ user r x at_ t2 t3,
       verifyAdmin req = Some user
       ∧ out.1 = NextResponse.ok x
       ∧ rentals (db w) !! id = Some r
       ∧ Included.rental x
         = RentalData.apply (RentalData.status_only "CANCELLED") at_ r
       ∧ items (db w) !! Rental.itemSerial r = Some (Included.item x)
       ∧ users (db w) !! Rental.userId r = Some (Included.user x)
       ∧ rentals (db out.2) = <[id := Included.rental x]> (rentals (db w))
       ∧ rentalStatusLogs (db out.2)
         = (rentalStatusLogs (db w)
            ++ [RentalStatusLog.mk id RequestStatus.CANCELLED
                  (Some "Rental cancelled by admin")
                  (Session.userId user) t2])%list
       ∧ activityLogs (db out.2)
         = (activityLogs (db w)
            ++ [prisma.activityLog.row
                  (prisma.activityLog.mk ActivityType.RENTAL_UPDATED
                     ("Cancelled rental for " +:+ Item.name (Included.item x))
                     (Session.userId user) (Some (Rental.itemSerial r))
                     (Some id) (Some (Rental.userId r)) None) t3])%list
       ∧ item_derived (Rental.itemSerial r)
           (if bool_decide (Item.status (Included.item x) = ItemStatus.RENTED)
            then Some ItemStatus.AVAILABLE else None) (db w) (db out.2)
       ∧ itemHistories (db out.2) = itemHistories (db w)
       ∧ users (db out.2) = users (db w)
       ∧ customers (db out.2) = customers (db w)
       ∧ reminders (db out.2) = reminders (db w)
       ∧ notifications (db out.2) = notifications (db w)).
Proof.
  intros out. subst out.
  destruct (AdminRentalsId.DELETE req id env w) as [resp w'] eqn:E. simpl.
  apply AdminRentalsId_DELETE_inv in E
    as [?|(user & cur & w0 & x & w1 & Hs & Hcur & Hci & Hdb0 & Htx & ->
           & Hdb')]; [by left|].
  right.
  pose proof (AdminRentalsId_DELETE_tx_row _ _ _ _ _ _ _ Htx)
    as (r' & at_ & Hr' & Hx & Hi & Hu).
  apply AdminRentalsId_DELETE_tx_inr in Htx
    as (r & t2 & t3 & Hr & _ & _ & _ & HR & HL & HA & HI & HH & HU & HC
        & HRm & HN).
  cbn zeta in *. rewrite Hdb0 in *.
  assert (r' = r) as -> by congruence.
  assert (r = Included.rental cur) as -> by congruence.
  assert (Included.item x = Included.item cur) as Hix by congruence.
  exists user, (Included.rental cur), x, at_, t2, t3.
  rewrite Hdb', Hix.
  repeat (split; [done|]). done.
Qed.

Lemma AdminRentals_POST_effect lib req env w :
  let out := AdminRentals.POST lib req env w in
  (NextResponse.status out.1 ≠ 200%nat ∧ db out.2 = db w)
  ∨ (∃ user b sn sd x id at_ z ed t2 t3,
       session req = Some user
       ∧ json req = Some b
       ∧ required (AdminRentals.c_itemSerial b) = Some sn
       ∧ required (AdminRentals.c_startDate b) = Some sd
       ∧ match required (AdminRentals.c_customerId b) with
         | Some c => is_Some (customers (db w) !! c)
         | None => True
         end
       ∧ out.1 = NextResponse.ok x
       ∧ parse_date env sd = Some z
       ∧ match required (AdminRentals.c_endDate b) with
         | Some e => ∃ ze, parse_date env e = Some ze ∧ ed = Some ze
         | None => ed = None
         end
       ∧ Included.rental x
         = Rental.mk id sn (Session.userId user)
             (or_null (AdminRentals.c_customerId b))
             (nullable (AdminRentals.c_poNumber b))
             (nullable (AdminRentals.c_doNumber b))
             RequestStatus.APPROVED z ed None at_ at_
             (or_null (AdminRentals.c_renterName b))
             (or_null (AdminRentals.c_renterPhone b))
             (or_null (AdminRentals.c_renterAddress b))
             (or_null (AdminRentals.c_initialCondition b)) None
       ∧ items (db w) !! sn = Some (Included.item x)
       ∧ Item.status (Included.item x) = ItemStatus.AVAILABLE
       ∧ users (db w) !! Session.userId user = Some (Included.user x)
       ∧ rentals (db w) !! id = None
       ∧ rentals (db out.2) = <[id := Included.rental x]> (rentals (db w))
       ∧ rentalStatusLogs (db out.2)
         = (rentalStatusLogs (db w)
            ++ [RentalStatusLog.mk id RequestStatus.APPROVED
                  (Some "Rental created and approved by admin")
                  (Session.userId user) t2])%list
       ∧ item_status_set sn ItemStatus.RENTED (db w) (db out.2)
       ∧ activityLogs (db out.2)
         = (activityLogs (db w)
            ++ [prisma.activityLog.row
                  (prisma.activityLog.mk ActivityType.RENTAL_CREATED
                     ("Created new rental for "
                      +:+ Item.name (Included.item x) +:+
                      (if truthy (AdminRentals.c_customerId b)
                       then " for customer" else EmptyString))
                     (Session.userId user) (Some sn) (Some id)
                     (Some (Session.userId user))
                     (or_null (AdminRentals.c_customerId b))) t3])%list
       ∧ itemHistories (db out.2) = itemHistories (db w)
       ∧ users (db out.2) = users (db w)
       ∧ customers (db out.2) = customers (db w)).
Proof.
  intros out. subst out.
  destruct (AdminRentals.POST lib req env w) as [resp w'] eqn:E. simpl.
  unfold AdminRentals.POST, route, getUserFromRequest in E.
  destruct (session req) as [user|] eqn:Hs; [|injection E as <- <-; by left].
  destruct (isAdmin user) eqn:Hadm; simpl in E;
    [|injection E as <- <-; by left].
  unfold bind at 1 in E.
  destruct (req_json req env w) as [[e|b] wj] eqn:Hj;
    apply req_json_inv in Hj as [-> Hb]; [injection E as <- <-; by left|].
  specialize (Hb b eq_refl).
  destruct (required (AdminRentals.c_itemSerial b)) as [sn|] eqn:Hsn;
    [|injection E as <- <-; by left].
  destruct (required (AdminRentals.c_startDate b)) as [sd|] eqn:Hsd;
    [|injection E as <- <-; by left].
  unfold bind at 1 in E.
  destruct (prisma.item.findUnique sn env w) as [[e|o] w0] eqn:Hf;
    apply item_findUnique_inv in Hf as [Hdb0 Ho];
    [injection E as <- <-; by left|].
  specialize (Ho o eq_refl). subst o.
  destruct (items (db w) !! sn) as [item|] eqn:Hitem;
    [|injection E as <- <-; by left].
  destruct (bool_decide (Item.status item = ItemStatus.AVAILABLE)) eqn:Hav;
    simpl in E; [|injection E as <- <-; by left].
  apply bool_decide_eq_true in Hav.
  unfold bind at 1 in E.
  match type of E with
  | context [match ?m env w0 with _ => _ end] =>
      destruct (m env w0) as [[e|miss] wc] eqn:Hc
  end.
  { assert (db wc = db w0) as Hdbc
      by (destruct (required (AdminRentals.c_customerId b));
          [ unfold bind in Hc;
            destruct (prisma.customer.findUnique _ env w0) as [[?|?] ?] eqn:Hq;
            apply customer_findUnique_db in Hq; unfold ret in Hc;
            by simplify_eq
          | unfold ret in Hc; by simplify_eq ]).
    injection E as <- <-. left. split; [done|congruence]. }
  assert (db wc = db w0
          ∧ (miss = false →
             match required (AdminRentals.c_customerId b) with
             | Some c => is_Some (customers (db w) !! c)
             | None => True
             end)) as [Hdbc Hcust].
  { destruct (required (AdminRentals.c_customerId b));
      [|unfold ret in Hc; by simplify_eq].
    unfold prisma.customer.findUnique in Hc.
    unfold bind, query, read, ret in Hc.
    rewrite <- Hdb0.
    destruct (db_up env (tick w0)); simplify_eq/=.
    split; [done|].
    intros Hm. apply bool_decide_eq_false in Hm.
    by apply not_eq_None_Some. }
  destruct miss. { injection E as <- <-. left. split; [done|congruence]. }
  specialize (Hcust eq_refl).
  unfold bind at 1, prisma._transaction in E.
  destruct (transaction _ env wc) as [[e|x] wt] eqn:Ht.
  { apply transaction_inl in Ht. injection E as <- <-. left.
    split; [done|congruence]. }
  apply transaction_inr in Ht as (w1 & Hbody & ->).
  unfold bind in E. rewrite notification_swallowed in E. unfold ret in E.
  injection E as <- <-. right.
  pose proof (AdminRentals_POST_tx_row _ _ _ _ _ _ _ _ _ Hbody)
    as (id & at_ & z & ed & Hz & Hed & Hx & Hi & Hu).
  apply AdminRentals_POST_tx_inr in Hbody
    as (t2 & t3 & _ & _ & _ & Hnone & HR & HL & HI & HA & HH & HU & HC & _).
  cbn zeta in *. simpl in Hi, Hu, Hnone, HR, HL, HI, HA, HH, HU, HC.
  rewrite Hdbc, Hdb0 in Hi, Hu, Hnone, HR, HL, HI, HA, HH, HU, HC.
  assert (Rental.id (Included.rental x) = id) as Hid by (by rewrite Hx).
  rewrite Hid in *.
  assert (Included.item x = item) as Hix by congruence.
  exists user, b, sn, sd, x, id, at_, z, ed, t2, t3. simpl.
  rewrite Hix.
  repeat (split; [first [done|congruence]|]). congruence.
Qed.

(** ** Small facts *)

Lemma is_status_of_string s x :
  is_status s x = true ↔ RequestStatus.of_string s = Some x.
Proof.
  unfold is_status. rewrite String.eqb_eq. split.
  - intros ->. by destruct x.
  - unfold RequestStatus.of_string. intros H.
    repeat case_match; simplify_eq; by apply String.eqb_eq.
Qed.

Lemma is_status_false s x y :
  RequestStatus.of_string s = Some y → x ≠ y → is_status s x = false.
Proof.
  intros Hs Hne. destruct (is_status s x) eqn:E; [|done].
  apply is_status_of_string in E. congruence.
Qed.

Lemma around_refl id sn s : around id sn s s.
Proof.
  repeat split; try done. intros i Hi. exists i. by repeat split.
Qed.

Lemma logs_appended_refl s : logs_appended s s.
Proof. by split. Qed.

Lemma around_same id sn s s' : s' = s → around id sn s s'.
Proof. intros ->. apply around_refl. Qed.

Lemma logs_appended_same s s' : s' = s → logs_appended s s'.
Proof. intros ->. apply logs_appended_refl. Qed.

Lemma around_intro id sn ist r r' s s' :
  rentals s !! id = Some r →
  rentals s' = <[id := r']> (rentals s) →
  item_derived sn ist s s' →
  users s' = users s →
  customers s' = customers s →
  around id sn s s'.
Proof.
  intros Hr HR HI HU HC. unfold around. rewrite HR.
  split; [done|]. split; [done|].
  split. { intros k Hk. by rewrite lookup_insert_ne. }
  assert (dom (rentals s) ⊆ dom (<[id:=r']> (rentals s))) as Hdom
    by (rewrite dom_insert_lookup_L by (by rewrite Hr); reflexivity).
  destruct ist as [st|]; simpl in HI.
  - destruct HI as (i & at_ & Hi & ->).
    split. { intros k Hk. by rewrite lookup_insert_ne. }
    split. { intros i0 Hi0. rewrite lookup_insert_eq. eexists.
             split; [done|]. assert (i0 = i) as -> by congruence.
             by repeat split. }
    split; [done|].
    by apply dom_insert_lookup_L.
  - rewrite HI. split; [done|].
    split. { intros i Hi. exists i. by repeat split. }
    done.
Qed.

Lemma logs_appended_intro s s' l a :
  rentalStatusLogs s' = (rentalStatusLogs s ++ l)%list →
  activityLogs s' = (activityLogs s ++ a)%list →
  logs_appended s s'.
Proof.
  intros HL HA. unfold logs_appended. rewrite HL, HA.
  split; by apply prefix_app_r.
Qed.

Lemma of_string_to_string s st :
  RequestStatus.of_string s = Some st → s = RequestStatus.to_string st.
Proof.
  intros H. apply is_status_of_string in H. by apply String.eqb_eq in H.
Qed.

Lemma item_derived_status sn ist s s' i :
  item_derived sn ist s s' →
  items s !! sn = Some i →
  ∃ i', items s' !! sn = Some i'
        ∧ Item.status i' = default (Item.status i) ist
        ∧ same_item i i'.
Proof.
  intros HI Hi. destruct ist as [st|]; simpl in *.
  - destruct HI as (i0 & at_ & Hi0 & ->). rewrite lookup_insert_eq.
    assert (i0 = i) as -> by congruence.
    eexists. split; [done|]. by repeat split.
  - rewrite HI. exists i. by repeat split.
Qed.

(** ** The status logs of a rental, as [GET] by id returns them *)

#[local] Instance newer_first_total : Total newer_first.
Proof. intros a b. unfold newer_first. lia. Qed.

#[local] Instance newer_first_trans : Transitive newer_first.
Proof. intros a b c. unfold newer_first. lia. Qed.

Lemma statusLogs_of_inv s id logs :
  AdminRentalsIdGet.statusLogs_of s id = Some logs →
  map RentalDetail.row logs
  = merge_sort newer_first
      (filter (λ l, RentalStatusLog.rentalId l = id) (rentalStatusLogs s))
  ∧ Forall (λ l, ∃ u, users s !! RentalStatusLog.userId (RentalDetail.row l)
                      = Some u
                      ∧ RentalDetail.changedBy_id l = User.id u
                      ∧ RentalDetail.changedBy_name l = User.name u) logs.
Proof.
  unfold AdminRentalsIdGet.statusLogs_of. intros H.
  apply mapM_Some in H.
  induction H as [|l y ls ys Hy _ [IH1 IH2]]; [by split|].
  unfold AdminRentalsIdGet.with_changedBy in Hy.
  destruct (users s !! RentalStatusLog.userId l) as [u|] eqn:Hu; [|done].
  injection Hy as <-. simpl. split; [by rewrite IH1|].
  constructor; [|done]. by exists u.
Qed.

Lemma statusLogs_of_total s id :
  Forall (λ l, RentalStatusLog.rentalId l = id →
               is_Some (users s !! RentalStatusLog.userId l))
    (rentalStatusLogs s) →
  is_Some (AdminRentalsIdGet.statusLogs_of s id).
Proof.
  intros Hknown. unfold AdminRentalsIdGet.statusLogs_of.
  apply mapM_is_Some, Forall_forall. intros l Hl.
  rewrite merge_sort_Permutation in Hl.
  apply list_elem_of_filter in Hl as [Hid Hin].
  rewrite Forall_forall in Hknown.
  destruct (Hknown l Hin Hid) as [u Hu].
  simpl. unfold AdminRentalsIdGet.with_changedBy. by rewrite Hu.
Qed.

Lemma AdminRentalsIdGet_GET_inv req id env w :
  let out := AdminRentalsIdGet.GET req id env w in
  db out.2 = db w
  ∧ (AdminRentalsIdGet.status out.1 = 200%nat →
     ∃ d x logs,
       is_Some (verifyAdmin req)
       ∧ db_up env (tick w) = true
       ∧ out.1 = AdminRentalsIdGet.mkResponse (AdminRentalsIdGet.data d) 200
       ∧ rentals (db w) !! id = Some (RentalDetail.rental d)
       ∧ include (db w) (RentalDetail.rental d) = Some x
       ∧ AdminRentalsIdGet.statusLogs_of (db w) id = Some logs
       ∧ d = RentalDetail.mk (Included.rental x) (Included.item x)
               (User.id (Included.user x)) (User.name (Included.user x))
               (User.email (Included.user x)) logs).
Proof.
  intros out. subst out.
  unfold AdminRentalsIdGet.GET, AdminRentalsIdGet.findUnique.
  destruct (verifyAdmin req) as [user|]; [|by split].
  unfold bind, query, read, ret, throw.
  destruct (db_up env (tick w)); simpl; [|by split].
  destruct (rentals (db w) !! id) as [r|] eqn:Hr; simpl; [|by split].
  destruct (include (db w) r) as [x|] eqn:Hx; simpl; [|by split].
  destruct (AdminRentalsIdGet.statusLogs_of (db w) id) as [logs|] eqn:Hl;
    simpl; [|by split].
  split; [done|]. intros _.
  apply include_inv in Hx as Hx'. destruct Hx' as (Hxr & _).
  eexists _, x, logs. repeat split; try done; simpl; by rewrite ?Hxr.
Qed.

Lemma AdminRentalsIdGet_GET_describes req id env w d :
  (AdminRentalsIdGet.GET req id env w).1
  = AdminRentalsIdGet.mkResponse (AdminRentalsIdGet.data d) 200 →
  describes (db w) id d.
Proof.
  intros Hd.
  destruct (AdminRentalsIdGet_GET_inv req id env w) as [_ H].
  destruct H as (d' & x & logs & _ & _ & Hout & Hr & Hx & Hl & ->);
    [by rewrite Hd|].
  rewrite Hd in Hout. injection Hout as ->.
  simpl in Hr, Hx.
  apply include_inv in Hx as (_ & Hi & Hu).
  apply statusLogs_of_inv in Hl as [Hrows Hauth].
  unfold describes. simpl.
  split; [done|]. split; [done|].
  split; [by exists (Included.user x)|].
  rewrite Hrows.
  split; [apply merge_sort_Permutation|].
  split; [apply (StronglySorted_merge_sort _)|done].
Qed.

(** ** Who signs a status-log row *)

Lemma rentalStatusLog_create_author rid status uid notes env w u w' :
  prisma.rentalStatusLog.create rid status uid notes env w = (inr u, w') →
  is_Some (users (db w) !! uid).
Proof.
  unfold prisma.rentalStatusLog.create, bind, new_Date, query, read, write,
    ret, throw.
  repeat case_match; intros ?; simplify_eq/=.
  match goal with
  | H : _ && _ = true |- _ =>
      apply andb_true_iff in H as [_ H]; by apply bool_decide_eq_true in H
  end.
Qed.

Lemma rental_update_users id d env w x w' :
  prisma.rental.update id d env w = (inr x, w') → users (db w') = users (db w).
Proof.
  intros H. apply rental_update_inr in H as (? & ? & _ & _ & _ & ->). done.
Qed.

Lemma AdminRentals_PATCH_tx_author adminId id status notes rc cur env w x w' :
  AdminRentals.PATCH_tx adminId id status notes rc cur env w = (inr x, w') →
  is_Some (users (db w) !! adminId).
Proof.
  unfold AdminRentals.PATCH_tx. intros H.
  apply bind_inr in H as (rd & w1 & H1 & H).
  apply bind_inr in H as (u & w2 & H2 & H).
  apply bind_inr in H as (? & w3 & H3 & _).
  apply rental_update_users in H2.
  apply rentalStatusLog_create_author in H3.
  assert (db w1 = db w) as Hdb.
  { destruct (_ && _); unfold bind, new_Date, ret in H1; by simplify_eq/=. }
  by rewrite H2, Hdb in H3.
Qed.

Lemma AdminRentalsId_PATCH_tx_author adminId id b d cur env w x w' status :
  required (AdminRentalsId.p_status b) = Some status →
  AdminRentalsId.PATCH_tx adminId id b d cur env w = (inr x, w') →
  is_Some (users (db w) !! adminId).
Proof.
  unfold AdminRentalsId.PATCH_tx. intros -> H.
  apply bind_inr in H as (u & w1 & H1 & H).
  apply bind_inr in H as (? & w2 & H2 & _).
  apply bind_inr in H2 as (? & w3 & H3 & _).
  apply rental_update_users in H1.
  apply rentalStatusLog_create_author in H3.
  by rewrite H1 in H3.
Qed.

Lemma AdminRentalsId_DELETE_tx_author adminId id cur env w x w' :
  AdminRentalsId.DELETE_tx adminId id cur env w = (inr x, w') →
  is_Some (users (db w) !! adminId).
Proof.
  unfold AdminRentalsId.DELETE_tx. intros H.
  apply bind_inr in H as (u & w1 & H1 & H).
  apply bind_inr in H as (? & w2 & H2 & _).
  apply rental_update_users in H1.
  apply rentalStatusLog_create_author in H2.
  by rewrite H1 in H2.
Qed.

Lemma AdminRentals_PATCH_author lib req env w user :
  session req = Some user →
  db (AdminRentals.PATCH lib req env w).2 = db w
  ∨ is_Some (users (db w) !! Session.userId user).
Proof.
  intros Hs.
  destruct (AdminRentals.PATCH lib req env w) as [resp w'] eqn:E.
  apply AdminRentals_PATCH_inv in E
    as [[_ ?]|(user' & b & id & status & cur & w0 & x & w1 & Hs' & _ & _ & _
               & _ & _ & Hdb0 & Htx & _)]; [by left|].
  right. apply AdminRentals_PATCH_tx_author in Htx.
  rewrite Hdb0 in Htx. congruence.
Qed.

Lemma AdminRentalsId_PATCH_author lib req id env w user b status :
  session req = Some user →
  json req = Some b →
  required (AdminRentalsId.p_status b) = Some status →
  db (AdminRentalsId.PATCH lib req id env w).2 = db w
  ∨ is_Some (users (db w) !! Session.userId user).
Proof.
  intros Hs Hb Hst.
  destruct (AdminRentalsId.PATCH lib req id env w) as [resp w'] eqn:E.
  apply AdminRentalsId_PATCH_inv in E
    as [[_ ?]|(user' & b' & cur & d & w0 & x & w1 & rows & Hu & Hb' & _
               & Hdb0 & _ & _ & Htx & _)]; [by left|].
  right. apply verifyAdmin_inv in Hu as [Hs' _].
  assert (b' = b) as -> by congruence.
  eapply AdminRentalsId_PATCH_tx_author in Htx; [|done].
  rewrite Hdb0 in Htx. congruence.
Qed.

Lemma AdminRentalsId_DELETE_author req id env w user :
  session req = Some user →
  db (AdminRentalsId.DELETE req id env w).2 = db w
  ∨ is_Some (users (db w) !! Session.userId user).
Proof.
  intros Hs.
  destruct (AdminRentalsId.DELETE req id env w) as [resp w'] eqn:E.
  apply AdminRentalsId_DELETE_inv in E
    as [[_ ?]|(user' & cur & w0 & x & w1 & Hu & _ & _ & Hdb0 & Htx & _)];
    [by left|].
  right. apply verifyAdmin_inv in Hu as [Hs' _].
  apply AdminRentalsId_DELETE_tx_author in Htx.
  rewrite Hdb0 in Htx. congruence.
Qed.

Lemma authors_known_snoc s s' l :
  authors_known s →
  users s' = users s →
  rentalStatusLogs s' = (rentalStatusLogs s ++ [l])%list →
  is_Some (users s !! RentalStatusLog.userId l) →
  authors_known s'.
Proof.
  unfold authors_known. intros Hk HU HL Hl. rewrite HL, HU.
  apply Forall_app. split; [done|]. by constructor.
Qed.

(** ** The relations of the schema *)

Lemma item_derived_dom sn ist s s' :
  item_derived sn ist s s' → dom (items s') = dom (items s).
Proof.
  destruct ist as [st|]; simpl; [|by intros ->].
  intros (i & at_ & Hi & ->). by apply dom_insert_lookup_L.
Qed.

Lemma consistent_step s s' id r' ls :
  consistent s →
  rentals s' = <[id := r']> (rentals s) →
  is_Some (items s !! Rental.itemSerial r') →
  is_Some (users s !! Rental.userId r') →
  users s' = users s →
  dom (items s') = dom (items s) →
  rentalStatusLogs s' = (rentalStatusLogs s ++ ls)%list →
  Forall (λ l, RentalStatusLog.rentalId l = id
               ∧ is_Some (users s !! RentalStatusLog.userId l)) ls →
  consistent s'.
Proof.
  intros (Hrel & Hauth & Hlogs) HR Hi Hu HU HD HL Hls.
  assert (∀ k, is_Some (items s !! k) → is_Some (items s' !! k)) as Hdom.
  { intros k Hk. apply elem_of_dom. rewrite HD. by apply elem_of_dom. }
  unfold consistent, authors_known. rewrite HR, HU, HL.
  split; [|split].
  - intros k r. destruct (decide (k = id)) as [->|Hne].
    + rewrite lookup_insert_eq. intros [= <-]. split; [by apply Hdom|done].
    + rewrite lookup_insert_ne by done. intros Hk.
      destruct (Hrel k r Hk) as [? ?]. split; [by apply Hdom|done].
  - apply Forall_app. split; [done|].
    eapply Forall_impl; [exact Hls|]. by intros l [_ ?].
  - apply Forall_app. split.
    + eapply Forall_impl; [exact Hlogs|]. intros l [r Hl].
      destruct (decide (RentalStatusLog.rentalId l = id)) as [->|Hne].
      * rewrite lookup_insert_eq. by eexists.
      * rewrite lookup_insert_ne by done. by eexists.
    + eapply Forall_impl; [exact Hls|]. intros l [-> _].
      rewrite lookup_insert_eq. by eexists.
Qed.

Lemma AdminRentalsIdGet_GET_ok req id env w r :
  is_Some (verifyAdmin req) →
  db_up env (tick w) = true →
  rentals (db w) !! id = Some r →
  is_Some (items (db w) !! Rental.itemSerial r) →
  is_Some (users (db w) !! Rental.userId r) →
  authors_known (db w) →
  ∃ d, AdminRentalsIdGet.GET req id env w
       = (AdminRentalsIdGet.mkResponse (AdminRentalsIdGet.data d) 200, next w)
       ∧ RentalDetail.rental d = r
       ∧ describes (db w) id d.
Proof.
  intros [user Hadm] Hup Hr [i Hi] [u Hu] Hknown.
  destruct (statusLogs_of_total (db w) id) as [logs Hl].
  { eapply Forall_impl; [exact Hknown|]. by intros l Hl _. }
  assert (AdminRentalsIdGet.GET req id env w
          = (AdminRentalsIdGet.mkResponse
               (AdminRentalsIdGet.data
                  (RentalDetail.mk r i (User.id u) (User.name u)
                     (User.email u) logs)) 200, next w)) as Hout.
  { unfold AdminRentalsIdGet.GET, AdminRentalsIdGet.findUnique.
    rewrite Hadm. unfold bind, query, read, ret. rewrite Hup. simpl.
    rewrite Hr. unfold include. rewrite Hi, Hu, Hl. done. }
  eexists. split; [exact Hout|]. split; [done|].
  eapply AdminRentalsIdGet_GET_describes. by rewrite Hout.
Qed.

Lemma routes_consistent lib reqC reqN reqP reqD id env w :
  consistent (db w) →
  consistent (db (AdminRentals.PATCH lib reqC env w).2)
  ∧ consistent (db (AdminRentals.POST lib reqN env w).2)
  ∧ consistent (db (AdminRentalsId.PATCH lib reqP id env w).2)
  ∧ consistent (db (AdminRentalsId.DELETE reqD id env w).2).
Proof.
  intros Hc. split; [|split; [|split]].
  - destruct (AdminRentals_PATCH_effect lib reqC env w)
      as [[_ ->]|(user & b & id' & status & st & r & x & n & at_ & t2 & t3
                  & Hs & _ & _ & _ & _ & _ & Hr & Hx & Hi & Hu & HR & HL & _
                  & HI & _ & HU & _)]; [done|].
    destruct (AdminRentals_PATCH_author lib reqC env w user Hs)
      as [->|Hauth]; [done|].
    eapply consistent_step; [done|exact HR|..|exact HU| |exact HL|].
    + rewrite Hx. simpl. by rewrite Hi.
    + rewrite Hx. simpl. by rewrite Hu.
    + by eapply item_derived_dom.
    + by repeat constructor.
  - destruct (AdminRentals_POST_effect lib reqN env w)
      as [[_ ->]|(user & b & sn & sd & x & id' & at_ & z & ed & t2 & t3
                  & Hs & _ & _ & _ & _ & _ & _ & _ & Hx & Hi & _ & Hu & _
                  & HR & HL & HI & _ & _ & HU & _)]; [done|].
    eapply consistent_step; [done|exact HR|..|exact HU| |exact HL|].
    + rewrite Hx. simpl. by rewrite Hi.
    + rewrite Hx. simpl. by rewrite Hu.
    + by eapply (item_derived_dom _ (Some ItemStatus.RENTED)).
    + repeat constructor. simpl. by rewrite Hu.
  - destruct (AdminRentalsId_PATCH_effect lib reqP id env w)
      as [[_ ->]|(user & b & r & x & n & at_ & t3 & rows & Hs & Hb & _ & Hr
                  & _ & Hx & Hi & Hu & HR & Hcase & _ & HU & _)]; [done|].
    destruct (required (AdminRentalsId.p_status b)) as [status|] eqn:Hst.
    + destruct Hcase as (st & t2 & _ & HL & _ & HI).
      destruct (AdminRentalsId_PATCH_author lib reqP id env w user b status
                  Hs Hb Hst) as [->|Hauth]; [done|].
      eapply consistent_step; [done|exact HR|..|exact HU| |exact HL|].
      * rewrite Hx. simpl. by rewrite Hi.
      * rewrite Hx. simpl. by rewrite Hu.
      * by eapply item_derived_dom.
      * by repeat constructor.
    + destruct Hcase as (HL & HI & _).
      eapply (consistent_step _ _ _ _ []);
        [done|exact HR|..|exact HU| | |done].
      * rewrite Hx. simpl. by rewrite Hi.
      * rewrite Hx. simpl. by rewrite Hu.
      * by rewrite HI.
      * by rewrite app_nil_r.
  - destruct (AdminRentalsId_DELETE_effect reqD id env w)
      as [[_ ->]|(user & r & x & at_ & t2 & t3 & Hv & _ & Hr & Hx & Hi & Hu
                  & HR & HL & _ & HI & _ & HU & _)]; [done|].
    apply verifyAdmin_inv in Hv as [Hs _].
    destruct (AdminRentalsId_DELETE_author reqD id env w user Hs)
      as [->|Hauth]; [done|].
    eapply consistent_step; [done|exact HR|..|exact HU| |exact HL|].
    + rewrite Hx. simpl. by rewrite Hi.
    + rewrite Hx. simpl. by rewrite Hu.
    + by eapply item_derived_dom.
    + by repeat constructor.
Qed.

Lemma Fixture_store_consistent rst ist : consistent (Fixture.store rst ist).
Proof.
  split; [|split].
  - intros k r Hk. simpl in Hk.
    apply lookup_singleton_Some in Hk as [_ <-].
    split; by eexists.
  - constructor.
  - constructor.
Qed.

Lemma Fixture_fresh_consistent ist : consistent (db (Fixture.fresh ist)).
Proof.
  split; [|split].
  - intros k r Hk. simpl in Hk. by rewrite lookup_empty in Hk.
  - constructor.
  - constructor.
Qed.

Lemma filter_snoc_this (id : string) (l : list RentalStatusLog.t) x :
  RentalStatusLog.rentalId x = id →
  filter (λ l, RentalStatusLog.rentalId l = id) (l ++ [x])%list
  = (filter (λ l, RentalStatusLog.rentalId l = id) l ++ [x])%list.
Proof.
  intros Hx. rewrite filter_app. f_equal.
  rewrite filter_cons_True by done. done.
Qed.

Lemma filter_none_this (id : string) (l : list RentalStatusLog.t) :
  Forall (λ x, RentalStatusLog.rentalId x ≠ id) l →
  filter (λ x, RentalStatusLog.rentalId x = id) l = [].
Proof.
  induction 1 as [|x l Hx _ IH]; [done|].
  by rewrite filter_cons_False.
Qed.

(** * What each request leaves untouched *)

(** X1 ([PATCH /api/admin/rentals]).  Whatever the request, the caller and
    the outcome, a status update that names the rental [id] changes no
    rental other than [id] and no item other than the item of [id]; that
    item keeps every column but its status and its [updatedAt] stamp; no
    rental or item row is removed or added; the users and customers are
    untouched; both audit tables only grow at the end. *)
Theorem patch_changes_one_rental_and_its_item lib req env w b id r :
  json req = Some b →
  required (AdminRentals.p_id b) = Some id →
  rentals (db w) !! id = Some r →
  let out := AdminRentals.PATCH lib req env w in
  around id (Rental.itemSerial r) (db w) (db out.2)
  ∧ logs_appended (db w) (db out.2).
Proof.
  intros Hb Hid Hr out.
  destruct (AdminRentals_PATCH_effect lib req env w)
    as [[_ Hsame]|(user & b' & id' & status & st & r' & x & n & at_ & t2 & t3
                   & _ & Hb' & Hid' & _ & _ & _ & Hr' & _ & _ & _ & HR & HL
                   & HA & HI & _ & HU & HC & _)];
    fold out in Hsame || fold out in HR, HL, HA, HI, HU, HC.
  { split; [by apply around_same|by apply logs_appended_same]. }
  assert (b' = b) as -> by congruence.
  assert (id' = id) as -> by congruence.
  assert (r' = r) as -> by congruence.
  split; [by eapply around_intro|by eapply logs_appended_intro].
Qed.

(** X1 at work: a completion of the fixture's rental. *)
Lemma patch_changes_one_rental_and_its_item_witness :
  let out :=
    AdminRentals.PATCH Fixture.lib (Fixture.patch "COMPLETED") Fixture.env
      (Fixture.world RequestStatus.APPROVED ItemStatus.RENTED) in
  around "rental-1" "SN-001"
    (Fixture.store RequestStatus.APPROVED ItemStatus.RENTED) (db out.2)
  ∧ logs_appended
      (Fixture.store RequestStatus.APPROVED ItemStatus.RENTED) (db out.2).
Proof.
  exact (patch_changes_one_rental_and_its_item Fixture.lib
           (Fixture.patch "COMPLETED") Fixture.env
           (Fixture.world RequestStatus.APPROVED ItemStatus.RENTED)
           _ "rental-1" (Fixture.rental1 RequestStatus.APPROVED)
           eq_refl eq_refl eq_refl).
Defined.

(** X2 ([PATCH] and [DELETE /api/admin/rentals/[id]]).  Whatever the
    request, the caller and the outcome (a rejection of the activity logger
    after the commit included), the two by-id routes change no rental other
    than [id] and no item other than the item of [id], keep every column of
    that item but its status and stamp, remove or add no rental or item row,
    leave users, customers and the item history untouched, and only append
    to the two audit tables. *)
Theorem by_id_routes_change_one_rental_and_its_item
    lib reqP reqD env w id r :
  rentals (db w) !! id = Some r →
  let patched := AdminRentalsId.PATCH lib reqP id env w in
  let deleted := AdminRentalsId.DELETE reqD id env w in
  (around id (Rental.itemSerial r) (db w) (db patched.2)
   ∧ logs_appended (db w) (db patched.2)
   ∧ itemHistories (db patched.2) = itemHistories (db w))
  ∧ (around id (Rental.itemSerial r) (db w) (db deleted.2)
     ∧ logs_appended (db w) (db deleted.2)
     ∧ itemHistories (db deleted.2) = itemHistories (db w)).
Proof.
  intros Hr patched deleted. split.
  - destruct (AdminRentalsId_PATCH_effect lib reqP id env w)
      as [[_ Hsame]|(user & b & r' & x & n & at_ & t3 & rows & _ & _ & _
                     & Hr' & _ & _ & _ & _ & HR & Hcase & HH & HU & HC & _)];
      fold patched in Hsame || fold patched in HR, Hcase, HH, HU, HC.
    { rewrite Hsame.
      split; [apply around_refl|]. split; [apply logs_appended_refl|done]. }
    assert (r' = r) as -> by congruence.
    destruct (required (AdminRentalsId.p_status b)) as [status|].
    + destruct Hcase as (st & t2 & _ & HL & HA & HI).
      split; [by eapply around_intro|].
      split; [by eapply logs_appended_intro|done].
    + destruct Hcase as (HL & HI & HA).
      split; [by eapply (around_intro _ _ None)|].
      split; [|done]. eapply logs_appended_intro; [|done].
      by rewrite HL, app_nil_r.
  - destruct (AdminRentalsId_DELETE_effect reqD id env w)
      as [[_ Hsame]|(user & r' & x & at_ & t2 & t3 & _ & _ & Hr' & _ & _ & _
                     & HR & HL & HA & HI & HH & HU & HC & _)];
      fold deleted in Hsame || fold deleted in HR, HL, HA, HI, HH, HU, HC.
    { rewrite Hsame.
      split; [apply around_refl|]. split; [apply logs_appended_refl|done]. }
    assert (r' = r) as -> by congruence.
    split; [by eapply around_intro|].
    split; [by eapply logs_appended_intro|done].
Qed.

(** X2 at work: a completion and a cancellation of the fixture's rental. *)
Lemma by_id_routes_change_one_rental_and_its_item_witness :
  let w := Fixture.world RequestStatus.APPROVED ItemStatus.RENTED in
  let patched :=
    AdminRentalsId.PATCH Fixture.lib (Fixture.patch_by_id "COMPLETED")
      "rental-1" Fixture.env w in
  let deleted :=
    AdminRentalsId.DELETE Fixture.delete "rental-1" Fixture.env w in
  (around "rental-1" "SN-001" (db w) (db patched.2)
   ∧ logs_appended (db w) (db patched.2)
   ∧ itemHistories (db patched.2) = itemHistories (db w))
  ∧ (around "rental-1" "SN-001" (db w) (db deleted.2)
     ∧ logs_appended (db w) (db deleted.2)
     ∧ itemHistories (db deleted.2) = itemHistories (db w)).
Proof.
  exact (by_id_routes_change_one_rental_and_its_item Fixture.lib
           (Fixture.patch_by_id "COMPLETED") Fixture.delete Fixture.env
           (Fixture.world RequestStatus.APPROVED ItemStatus.RENTED)
           "rental-1" (Fixture.rental1 RequestStatus.APPROVED) eq_refl).
Defined.

(** X3 ([POST /api/admin/rentals]).  Whatever the request and the outcome,
    a creation for the item [sn] leaves every rental that was there as it
    was (a colliding id overwrites nothing), adds at most one rental,
    changes no item other than [sn], adds or removes no item, leaves users,
    customers and the item history untouched, and only appends to the two
    audit tables. *)
Theorem create_changes_nothing_else lib req env w b sn :
  json req = Some b →
  required (AdminRentals.c_itemSerial b) = Some sn →
  let out := AdminRentals.POST lib req env w in
  around_new sn (db w) (db out.2) ∧ logs_appended (db w) (db out.2).
Proof.
  intros Hb Hsn out.
  destruct (AdminRentals_POST_effect lib req env w)
    as [[_ Hsame]|(user & b' & sn' & sd & x & id & at_ & z & ed & t2 & t3
                   & _ & Hb' & Hsn' & _ & _ & _ & _ & _ & _ & _ & _ & _
                   & Hnone & HR & HL & HI & HA & HH & HU & HC)];
    fold out in Hsame || fold out in HR, HL, HA, HI, HH, HU, HC.
  { rewrite Hsame. split; [|apply logs_appended_refl].
    repeat split; try done. by exists EmptyString. }
  assert (b' = b) as -> by congruence.
  assert (sn' = sn) as -> by congruence.
  split; [|by eapply logs_appended_intro].
  destruct HI as (i & ia & Hi & HI).
  unfold around_new. rewrite HR, HI.
  repeat split; try done.
  - intros k r Hk. rewrite lookup_insert_ne; [done|]. congruence.
  - exists id. intros k Hk. by rewrite lookup_insert_ne.
  - intros k Hk. by rewrite lookup_insert_ne.
  - by apply dom_insert_lookup_L.
Qed.

(** X3 at work: a creation next to the fixture's completed rental. *)
Lemma create_changes_nothing_else_witness :
  let out :=
    AdminRentals.POST Fixture.lib Fixture.post Fixture.env
      (Fixture.world RequestStatus.COMPLETED ItemStatus.AVAILABLE) in
  around_new "SN-001"
    (Fixture.store RequestStatus.COMPLETED ItemStatus.AVAILABLE) (db out.2)
  ∧ logs_appended
      (Fixture.store RequestStatus.COMPLETED ItemStatus.AVAILABLE) (db out.2).
Proof.
  exact (create_changes_nothing_else Fixture.lib Fixture.post Fixture.env
           (Fixture.world RequestStatus.COMPLETED ItemStatus.AVAILABLE)
           _ "SN-001" eq_refl eq_refl).
Defined.

(** * The rental row after a status update *)

(** X4 (both [PATCH] routes).  In every outcome every rental that was in
    the store is still there, and its return date obeys one rule: a return
    date once set is never overwritten or cleared, and a rental without one
    gets one only together with the status COMPLETED, read off the clock;
    an update to any other status leaves the return date empty. *)
Theorem returnDate_set_at_most_once lib reqC reqP id env w k r :
  rentals (db w) !! k = Some r →
  (∃ r', rentals (db (AdminRentals.PATCH lib reqC env w).2) !! k = Some r'
         ∧ returnDate_rule env r r')
  ∧ (∃ r', rentals (db (AdminRentalsId.PATCH lib reqP id env w).2) !! k
           = Some r'
           ∧ returnDate_rule env r r').
Proof.
  intros Hr.
  assert (returnDate_rule env r r) as Hsame
    by (unfold returnDate_rule; destruct (Rental.returnDate r); auto).
  split.
  - destruct (AdminRentals_PATCH_effect lib reqC env w)
      as [[_ ->]|(user & b & id' & status & st & r0 & x & n & at_ & t2 & t3
                  & _ & _ & _ & _ & Hof & _ & Hr0 & Hx & _ & _ & HR & _)];
      [by exists r|].
    rewrite HR. destruct (decide (k = id')) as [->|Hne];
      [|rewrite lookup_insert_ne by done; by exists r].
    rewrite lookup_insert_eq. eexists. split; [done|].
    assert (r0 = r) as -> by congruence.
    rewrite Hx. unfold returnDate_rule. simpl. rewrite Hof. simpl.
    destruct (Rental.returnDate r) as [d|]; simpl.
    + by rewrite andb_false_r.
    + rewrite andb_true_r.
      destruct (is_status status RequestStatus.COMPLETED) eqn:E; [|by left].
      apply is_status_of_string in E. right.
      split; [congruence|by exists n].
  - destruct (AdminRentalsId_PATCH_effect lib reqP id env w)
      as [[_ ->]|(user & b & r0 & x & n & at_ & t3 & rows & _ & _ & _ & Hr0
                  & _ & Hx & _ & _ & HR & Hcase & _)];
      [by exists r|].
    rewrite HR. destruct (decide (k = id)) as [->|Hne];
      [|rewrite lookup_insert_ne by done; by exists r].
    rewrite lookup_insert_eq. eexists. split; [done|].
    assert (r0 = r) as -> by congruence.
    rewrite Hx. unfold returnDate_rule. simpl.
    destruct (Rental.returnDate r) as [d|]; simpl.
    + by rewrite andb_false_r.
    + rewrite andb_true_r.
      destruct (required (AdminRentalsId.p_status b)) as [status|];
        [|by left].
      destruct Hcase as (st & t2 & Hof & _). simpl. rewrite Hof. simpl.
      destruct (is_status status RequestStatus.COMPLETED) eqn:E; [|by left].
      apply is_status_of_string in E. right.
      split; [congruence|by exists n].
Qed.

(** X4 at work: a completion and a rejection of the fixture's rental. *)
Lemma returnDate_set_at_most_once_witness :
  let w := Fixture.world RequestStatus.APPROVED ItemStatus.RENTED in
  let r := Fixture.rental1 RequestStatus.APPROVED in
  (∃ r', rentals (db (AdminRentals.PATCH Fixture.lib
                        (Fixture.patch "COMPLETED") Fixture.env w).2)
           !! "rental-1" = Some r'
         ∧ returnDate_rule Fixture.env r r')
  ∧ (∃ r', rentals (db (AdminRentalsId.PATCH Fixture.lib
                          (Fixture.patch_by_id "REJECTED") "rental-1"
                          Fixture.env w).2) !! "rental-1" = Some r'
           ∧ returnDate_rule Fixture.env r r').
Proof.
  exact (returnDate_set_at_most_once Fixture.lib (Fixture.patch "COMPLETED")
           (Fixture.patch_by_id "REJECTED") "rental-1" Fixture.env
           (Fixture.world RequestStatus.APPROVED ItemStatus.RENTED)
           "rental-1" (Fixture.rental1 RequestStatus.APPROVED) eq_refl).
Defined.

(** X5 (both [PATCH] routes).  A 200 answer to a request for the status
    COMPLETED carries, and leaves in the store, the rental with the status
    COMPLETED and a return date: the one it had, or else a reading of the
    clock. *)
Theorem completion_stamps_returnDate lib reqC reqP id env w bC bP :
  json reqC = Some bC →
  required (AdminRentals.p_id bC) = Some id →
  required (AdminRentals.p_status bC) = Some "COMPLETED" →
  json reqP = Some bP →
  required (AdminRentalsId.p_status bP) = Some "COMPLETED" →
  let stamped (out : NextResponse.t * World) :=
    ∃ r x n,
      rentals (db w) !! id = Some r
      ∧ out.1 = NextResponse.ok x
      ∧ rentals (db out.2) !! id = Some (Included.rental x)
      ∧ Rental.status (Included.rental x) = RequestStatus.COMPLETED
      ∧ Rental.returnDate (Included.rental x)
        = Some (default (now env n) (Rental.returnDate r)) in
  (NextResponse.status (AdminRentals.PATCH lib reqC env w).1 = 200%nat →
   stamped (AdminRentals.PATCH lib reqC env w))
  ∧ (NextResponse.status (AdminRentalsId.PATCH lib reqP id env w).1 = 200%nat →
     stamped (AdminRentalsId.PATCH lib reqP id env w)).
Proof.
  intros HbC Hid HstC HbP HstP stamped. subst stamped. split; intros H200.
  - destruct (AdminRentals_PATCH_effect lib reqC env w)
      as [[Hn _]|(user & b & id' & status & st & r & x & n & at_ & t2 & t3
                  & _ & Hb & Hid' & Hst & Hof & Hok & Hr & Hx & _ & _ & HR
                  & _)]; [done|].
    assert (b = bC) as -> by congruence.
    assert (id' = id) as -> by congruence.
    assert (status = "COMPLETED") as -> by congruence.
    exists r, x, n. rewrite HR, lookup_insert_eq, Hx. simpl.
    repeat (split; [done|]).
    by destruct (Rental.returnDate r).
  - destruct (AdminRentalsId_PATCH_effect lib reqP id env w)
      as [[Hn _]|(user & b & r & x & n & at_ & t3 & rows & _ & Hb & Hresp
                  & Hr & _ & Hx & _ & _ & HR & _)]; [done|].
    destruct Hresp as [H500|Hok]; [congruence|].
    assert (b = bP) as -> by congruence.
    exists r, x, n. rewrite HR, lookup_insert_eq, Hx, HstP. simpl.
    repeat (split; [done|]).
    by destruct (Rental.returnDate r).
Qed.

(** X5 at work: the fixture's rental, without a return date, is completed
    through either route. *)
Lemma completion_stamps_returnDate_witness :
  let w := Fixture.world RequestStatus.APPROVED ItemStatus.RENTED in
  let stamped (out : NextResponse.t * World) :=
    ∃ r x n,
      rentals (db w) !! "rental-1" = Some r
      ∧ out.1 = NextResponse.ok x
      ∧ rentals (db out.2) !! "rental-1" = Some (Included.rental x)
      ∧ Rental.status (Included.rental x) = RequestStatus.COMPLETED
      ∧ Rental.returnDate (Included.rental x)
        = Some (default (now Fixture.env n) (Rental.returnDate r)) in
  stamped (AdminRentals.PATCH Fixture.lib (Fixture.patch "COMPLETED")
             Fixture.env w)
  ∧ stamped (AdminRentalsId.PATCH Fixture.lib
               (Fixture.patch_by_id "COMPLETED") "rental-1" Fixture.env w).
Proof.
  pose proof (completion_stamps_returnDate Fixture.lib
                (Fixture.patch "COMPLETED") (Fixture.patch_by_id "COMPLETED")
                "rental-1" Fixture.env
                (Fixture.world RequestStatus.APPROVED ItemStatus.RENTED)
                _ _ eq_refl eq_refl eq_refl eq_refl eq_refl) as [HC HP].
  split; [apply HC|apply HP]; vm_compute; reflexivity.
Defined.

(** X6 (the three status routes).  In every outcome every rental that was
    in the store is still there with the same id, item, owner, customer,
    creation stamp and renter details.  [PATCH /api/admin/rentals] and
    [DELETE] also leave its PO and DO numbers and its start and end dates as
    they were, and [DELETE] its return date; and neither by-id route writes
    the return condition. *)
Theorem status_routes_keep_the_contract lib reqC reqP reqD id env w k r :
  rentals (db w) !! k = Some r →
  (∃ r', rentals (db (AdminRentals.PATCH lib reqC env w).2) !! k = Some r'
         ∧ same_contract r r' ∧ same_terms r r')
  ∧ (∃ r', rentals (db (AdminRentalsId.PATCH lib reqP id env w).2) !! k
           = Some r'
           ∧ same_contract r r'
           ∧ Rental.returnCondition r' = Rental.returnCondition r)
  ∧ (∃ r', rentals (db (AdminRentalsId.DELETE reqD id env w).2) !! k
           = Some r'
           ∧ same_contract r r' ∧ same_terms r r'
           ∧ Rental.returnDate r' = Rental.returnDate r
           ∧ Rental.returnCondition r' = Rental.returnCondition r).
Proof.
  intros Hr.
  assert (same_contract r r) as Hc by by repeat split.
  assert (same_terms r r) as Ht by by repeat split.
  split; [|split].
  - destruct (AdminRentals_PATCH_effect lib reqC env w)
      as [[_ ->]|(user & b & id' & status & st & r0 & x & n & at_ & t2 & t3
                  & _ & _ & _ & _ & _ & _ & Hr0 & Hx & _ & _ & HR & _)];
      [by exists r|].
    rewrite HR. destruct (decide (k = id')) as [->|Hne];
      [|rewrite lookup_insert_ne by done; by exists r].
    rewrite lookup_insert_eq. eexists. split; [done|].
    assert (r0 = r) as -> by congruence.
    rewrite Hx. by repeat split.
  - destruct (AdminRentalsId_PATCH_effect lib reqP id env w)
      as [[_ ->]|(user & b & r0 & x & n & at_ & t3 & rows & _ & _ & _ & Hr0
                  & _ & Hx & _ & _ & HR & _)];
      [by exists r|].
    rewrite HR. destruct (decide (k = id)) as [->|Hne];
      [|rewrite lookup_insert_ne by done; by exists r].
    rewrite lookup_insert_eq. eexists. split; [done|].
    assert (r0 = r) as -> by congruence.
    rewrite Hx. by repeat split.
  - destruct (AdminRentalsId_DELETE_effect reqD id env w)
      as [[_ ->]|(user & r0 & x & at_ & t2 & t3 & _ & _ & Hr0 & Hx & _ & _
                  & HR & _)];
      [by exists r|].
    rewrite HR. destruct (decide (k = id)) as [->|Hne];
      [|rewrite lookup_insert_ne by done; by exists r].
    rewrite lookup_insert_eq. eexists. split; [done|].
    assert (r0 = r) as -> by congruence.
    rewrite Hx. by repeat split.
Qed.

(** X6 at work: the fixture's rental through the three routes. *)
Lemma status_routes_keep_the_contract_witness :
  let w := Fixture.world RequestStatus.APPROVED ItemStatus.RENTED in
  let r := Fixture.rental1 RequestStatus.APPROVED in
  (∃ r', rentals (db (AdminRentals.PATCH Fixture.lib
                        (Fixture.patch "COMPLETED") Fixture.env w).2)
           !! "rental-1" = Some r'
         ∧ same_contract r r' ∧ same_terms r r')
  ∧ (∃ r', rentals (db (AdminRentalsId.PATCH Fixture.lib
                          (Fixture.patch_by_id "COMPLETED") "rental-1"
                          Fixture.env w).2) !! "rental-1" = Some r'
           ∧ same_contract r r'
           ∧ Rental.returnCondition r' = Rental.returnCondition r)
  ∧ (∃ r', rentals (db (AdminRentalsId.DELETE Fixture.delete "rental-1"
                          Fixture.env w).2) !! "rental-1" = Some r'
           ∧ same_contract r r' ∧ same_terms r r'
           ∧ Rental.returnDate r' = Rental.returnDate r
           ∧ Rental.returnCondition r' = Rental.returnCondition r).
Proof.
  exact (status_routes_keep_the_contract Fixture.lib
           (Fixture.patch "COMPLETED") (Fixture.patch_by_id "COMPLETED")
           Fixture.delete "rental-1" Fixture.env
           (Fixture.world RequestStatus.APPROVED ItemStatus.RENTED)
           "rental-1" (Fixture.rental1 RequestStatus.APPROVED) eq_refl).
Defined.

(** X7 ([PATCH /api/admin/rentals/[id]]).  A 200 answer carries, and leaves
    in the store, the rental with exactly the fields of the body written: a
    PO or DO number that is present is stored as given, [null] and the empty
    string included, and one that is absent is kept; a start or end date
    that is present and not empty parsed, and the parsed instant is stored,
    and one that is absent or empty is kept; a status that is present is
    one of the enumeration and is stored, and without one the status is
    kept. *)
Theorem by_id_update_stores_given_fields lib req id env w b :
  json req = Some b →
  let out := AdminRentalsId.PATCH lib req id env w in
  NextResponse.status out.1 = 200%nat →
  ∃ r x,
    rentals (db w) !! id = Some r
    ∧ out.1 = NextResponse.ok x
    ∧ rentals (db out.2) !! id = Some (Included.rental x)
    ∧ Rental.poNumber (Included.rental x)
      = column_after (AdminRentalsId.p_poNumber b) (Rental.poNumber r)
    ∧ Rental.doNumber (Included.rental x)
      = column_after (AdminRentalsId.p_doNumber b) (Rental.doNumber r)
    ∧ match required (AdminRentalsId.p_startDate b) with
      | Some s => parse_date env s
                  = Some (Rental.startDate (Included.rental x))
      | None => Rental.startDate (Included.rental x) = Rental.startDate r
      end
    ∧ match required (AdminRentalsId.p_endDate b) with
      | Some s => parse_date env s = Rental.endDate (Included.rental x)
                  ∧ is_Some (parse_date env s)
      | None => Rental.endDate (Included.rental x) = Rental.endDate r
      end
    ∧ match required (AdminRentalsId.p_status b) with
      | Some s => RequestStatus.of_string s
                  = Some (Rental.status (Included.rental x))
      | None => Rental.status (Included.rental x) = Rental.status r
      end.
Proof.
  intros Hb out H200.
  destruct (AdminRentalsId_PATCH_effect lib req id env w)
    as [[Hn _]|(user & b' & r & x & n & at_ & t3 & rows & _ & Hb' & Hresp
                & Hr & Hwt & Hx & _ & _ & HR & Hcase & _)];
    fold out in Hn || fold out in Hresp, HR, Hcase; [done|].
  destruct Hresp as [H500|Hok]; [congruence|].
  assert (b' = b) as -> by congruence.
  exists r, x. rewrite HR, lookup_insert_eq, Hx.
  repeat (split; [done|]). simpl.
  unfold RentalData.well_typed in Hwt. simpl in Hwt.
  apply andb_true_iff in Hwt as [Hwt He].
  apply andb_true_iff in Hwt as [_ Hs].
  split; [by destruct (AdminRentalsId.p_poNumber b)|].
  split; [by destruct (AdminRentalsId.p_doNumber b)|].
  split.
  { destruct (required (AdminRentalsId.p_startDate b)) as [s|]; [|done].
    simpl in *. unfold Date_of in *. by destruct (parse_date env s). }
  split.
  { destruct (required (AdminRentalsId.p_endDate b)) as [s|]; [|done].
    simpl in *. unfold Date_of in *. by destruct (parse_date env s). }
  destruct (required (AdminRentalsId.p_status b)) as [s|]; [|done].
  destruct Hcase as (st & t2 & Hof & _). simpl. by rewrite Hof.
Qed.

(** X7 at work: a PO number, a [null] DO number and an end date for the
    fixture's rental. *)
Lemma by_id_update_stores_given_fields_witness :
  let req :=
    mkRequest (Some Fixture.session)
      (Some (AdminRentalsId.mkPatch undefined undefined (str "PO-7") null
               undefined (str "2025-02-01"))) in
  let out :=
    AdminRentalsId.PATCH Fixture.lib req "rental-1" Fixture.env
      (Fixture.world RequestStatus.APPROVED ItemStatus.RENTED) in
  ∃ r x,
    rentals (Fixture.store RequestStatus.APPROVED ItemStatus.RENTED)
      !! "rental-1" = Some r
    ∧ out.1 = NextResponse.ok x
    ∧ rentals (db out.2) !! "rental-1" = Some (Included.rental x)
    ∧ Rental.poNumber (Included.rental x) = Some "PO-7"
    ∧ Rental.doNumber (Included.rental x) = None
    ∧ Rental.startDate (Included.rental x) = Rental.startDate r
    ∧ (Some 1738368000000 = Rental.endDate (Included.rental x)
       ∧ is_Some (Some 1738368000000))
    ∧ Rental.status (Included.rental x) = Rental.status r.
Proof.
  exact (by_id_update_stores_given_fields Fixture.lib
           (mkRequest (Some Fixture.session)
              (Some (AdminRentalsId.mkPatch undefined undefined (str "PO-7")
                       null undefined (str "2025-02-01"))))
           "rental-1" Fixture.env
           (Fixture.world RequestStatus.APPROVED ItemStatus.RENTED)
           _ eq_refl eq_refl).
Defined.

(** X8 ([PATCH /api/admin/rentals/[id]]).  A request whose body has no
    status (absent, [null] or empty) is an update of the details: in every
    outcome it writes no status-log row, leaves every item as it is and
    never reaches the reminder service; on a 200 the rental keeps its
    status, the transaction has appended the one activity row "Updated
    rental details for <item name>", and the audit logger was still called
    after the commit, with a message about a status update whose status is
    the missing value spelled out. *)
Theorem details_only_update lib req id env w b :
  json req = Some b →
  required (AdminRentalsId.p_status b) = None →
  let out := AdminRentalsId.PATCH lib req id env w in
  rentalStatusLogs (db out.2) = rentalStatusLogs (db w)
  ∧ items (db out.2) = items (db w)
  ∧ reminders (db out.2) = reminders (db w)
  ∧ notifications (db out.2) = notifications (db w)
  ∧ (NextResponse.status out.1 = 200%nat →
     ∃ user r x t wl,
       session req = Some user
       ∧ rentals (db w) !! id = Some r
       ∧ out.1 = NextResponse.ok x
       ∧ Rental.status (Included.rental x) = Rental.status r
       ∧ activityLogs (db out.2)
         = (activityLogs (db w)
            ++ prisma.activityLog.row
                 (prisma.activityLog.mk ActivityType.RENTAL_UPDATED
                    ("Updated rental details for "
                     +:+ Item.name (Included.item x))
                    (Session.userId user) (Some (Rental.itemSerial r))
                    (Some id) (Some (Rental.userId r)) None) t
               :: (lib_logRentalActivity lib (Session.userId user)
                     ActivityType.RENTAL_UPDATED id (Rental.itemSerial r)
                     ("Admin "
                      +:+ default "Unknown" (required (Session.name user))
                      +:+ " updated rental status to "
                      +:+ template (AdminRentalsId.p_status b)) wl).2)%list).
Proof.
  intros Hb Hst out.
  destruct (AdminRentalsId_PATCH_effect lib req id env w)
    as [[Hn Hsame]|(user & b' & r & x & n & at_ & t3 & rows & Hs & Hb'
                    & Hresp & Hr & _ & Hx & _ & _ & _ & Hcase & _ & _ & _
                    & HN & wl & Hrows & _)];
    fold out in Hn, Hsame || fold out in Hresp, Hcase, HN.
  { rewrite Hsame. by repeat split. }
  assert (b' = b) as -> by congruence.
  rewrite Hst in Hcase, HN, Hx. destruct Hcase as (HL & HI & HA).
  destruct (HN eq_refl) as [HRm HNo].
  repeat (split; [done|]).
  intros H200. destruct Hresp as [H500|Hok]; [congruence|].
  exists user, r, x, t3, wl.
  repeat (split; [done|]).
  split; [by rewrite Hx|]. by rewrite HA, Hrows.
Qed.

(** X8 at work: a body with a PO number and a [null] DO number only; the
    logger is told of a status [undefined]. *)
Lemma details_only_update_witness :
  let req :=
    mkRequest (Some Fixture.session)
      (Some (AdminRentalsId.mkPatch undefined undefined (str "PO-7") null
               undefined undefined)) in
  let w := Fixture.world RequestStatus.APPROVED ItemStatus.RENTED in
  let out := AdminRentalsId.PATCH Fixture.lib req "rental-1" Fixture.env w in
  rentalStatusLogs (db out.2) = rentalStatusLogs (db w)
  ∧ items (db out.2) = items (db w)
  ∧ reminders (db out.2) = reminders (db w)
  ∧ notifications (db out.2) = notifications (db w)
  ∧ ∃ user r x t wl,
      session req = Some user
      ∧ rentals (db w) !! "rental-1" = Some r
      ∧ out.1 = NextResponse.ok x
      ∧ Rental.status (Included.rental x) = Rental.status r
      ∧ activityLogs (db out.2)
        = (activityLogs (db w)
           ++ prisma.activityLog.row
                (prisma.activityLog.mk ActivityType.RENTAL_UPDATED
                   ("Updated rental details for "
                    +:+ Item.name (Included.item x))
                   (Session.userId user) (Some (Rental.itemSerial r))
                   (Some "rental-1") (Some (Rental.userId r)) None) t
              :: (lib_logRentalActivity Fixture.lib (Session.userId user)
                    ActivityType.RENTAL_UPDATED "rental-1"
                    (Rental.itemSerial r)
                    ("Admin "
                     +:+ default "Unknown" (required (Session.name user))
                     +:+ " updated rental status to " +:+ "undefined")
                    wl).2)%list.
Proof.
  pose proof (details_only_update Fixture.lib
                (mkRequest (Some Fixture.session)
                   (Some (AdminRentalsId.mkPatch undefined undefined
                            (str "PO-7") null undefined undefined)))
                "rental-1" Fixture.env
                (Fixture.world RequestStatus.APPROVED ItemStatus.RENTED)
                _ eq_refl eq_refl) as (HL & HI & HR & HN & H).
  repeat (split; [assumption|]). apply H. vm_compute. reflexivity.
Defined.

(** X9 (both [PATCH] routes).  The notes of the status-log row of a 200
    answer are the notes of the body when it has any, and otherwise (notes
    absent, [null] or empty) the route's own sentence about the new status:
    "Status changed to <status>" for [PATCH /api/admin/rentals] and
    "Status updated to <status> by admin" for the by-id route.  The row is
    the last of the log, for the rental of the request, and signed by the
    caller. *)
Theorem status_log_notes lib reqC reqP id env w bC bP status :
  json reqC = Some bC →
  required (AdminRentals.p_id bC) = Some id →
  required (AdminRentals.p_status bC) = Some status →
  json reqP = Some bP →
  required (AdminRentalsId.p_status bP) = Some status →
  let noted {B} (req : NextRequest B) (out : NextResponse.t * World)
      (notes : string) :=
    ∃ user st t,
      session req = Some user
      ∧ RequestStatus.of_string status = Some st
      ∧ rentalStatusLogs (db out.2)
        = (rentalStatusLogs (db w)
           ++ [RentalStatusLog.mk id st (Some notes) (Session.userId user)
                 t])%list in
  (NextResponse.status (AdminRentals.PATCH lib reqC env w).1 = 200%nat →
   noted reqC (AdminRentals.PATCH lib reqC env w)
     (default ("Status changed to " +:+ status)
        (required (AdminRentals.p_notes bC))))
  ∧ (NextResponse.status (AdminRentalsId.PATCH lib reqP id env w).1
     = 200%nat →
     noted reqP (AdminRentalsId.PATCH lib reqP id env w)
       (default ("Status updated to " +:+ status +:+ " by admin")
          (required (AdminRentalsId.p_notes bP)))).
Proof.
  intros HbC Hid HstC HbP HstP noted. subst noted. split; intros H200.
  - destruct (AdminRentals_PATCH_effect lib reqC env w)
      as [[Hn _]|(user & b & id' & status' & st & r & x & n & at_ & t2 & t3
                  & Hs & Hb & Hid' & Hst & Hof & _ & _ & _ & _ & _ & _ & HL
                  & _)]; [done|].
    assert (b = bC) as -> by congruence.
    assert (id' = id) as -> by congruence.
    assert (status' = status) as -> by congruence.
    by exists user, st, t2.
  - destruct (AdminRentalsId_PATCH_effect lib reqP id env w)
      as [[Hn _]|(user & b & r & x & n & at_ & t3 & rows & Hs & Hb & _
                  & _ & _ & _ & _ & _ & _ & Hcase & _)]; [done|].
    assert (b = bP) as -> by congruence.
    rewrite HstP in Hcase. destruct Hcase as (st & t2 & Hof & HL & _).
    by exists user, st, t2.
Qed.

(** X9 at work: empty notes through [PATCH /api/admin/rentals], notes given
    through the by-id route. *)
Lemma status_log_notes_witness :
  let w := Fixture.world RequestStatus.PENDING ItemStatus.AVAILABLE in
  let reqC :=
    mkRequest (Some Fixture.session)
      (Some (AdminRentals.mkPatch (str "rental-1") (str "APPROVED")
               (str EmptyString) undefined)) in
  let reqP :=
    mkRequest (Some Fixture.session)
      (Some (AdminRentalsId.mkPatch (str "APPROVED") (str "Checked by phone")
               undefined undefined undefined undefined)) in
  (∃ user st t,
     session reqC = Some user
     ∧ RequestStatus.of_string "APPROVED" = Some st
     ∧ rentalStatusLogs (db (AdminRentals.PATCH Fixture.lib reqC
                               Fixture.env w).2)
       = (rentalStatusLogs (db w)
          ++ [RentalStatusLog.mk "rental-1" st
                (Some "Status changed to APPROVED")
                (Session.userId user) t])%list)
  ∧ (∃ user st t,
       session reqP = Some user
       ∧ RequestStatus.of_string "APPROVED" = Some st
       ∧ rentalStatusLogs (db (AdminRentalsId.PATCH Fixture.lib reqP
                                 "rental-1" Fixture.env w).2)
         = (rentalStatusLogs (db w)
            ++ [RentalStatusLog.mk "rental-1" st (Some "Checked by phone")
                  (Session.userId user) t])%list).
Proof.
  pose proof (status_log_notes Fixture.lib
                (mkRequest (Some Fixture.session)
                   (Some (AdminRentals.mkPatch (str "rental-1")
                            (str "APPROVED") (str EmptyString) undefined)))
                (mkRequest (Some Fixture.session)
                   (Some (AdminRentalsId.mkPatch (str "APPROVED")
                            (str "Checked by phone") undefined undefined
                            undefined undefined)))
                "rental-1" Fixture.env
                (Fixture.world RequestStatus.PENDING ItemStatus.AVAILABLE)
                _ _ "APPROVED" eq_refl eq_refl eq_refl eq_refl eq_refl)
    as [HC HP].
  split; [apply HC|apply HP]; vm_compute; reflexivity.
Defined.

(** * Requests that are turned down *)

(** X10 (both [PATCH] routes).  A status that is not one of PENDING,
    APPROVED, REJECTED, COMPLETED, CANCELLED is never accepted: the answer
    is not 200 and the store is left exactly as it was. *)
Theorem unknown_status_refused lib reqC reqP id env w bC bP status :
  RequestStatus.of_string status = None →
  json reqC = Some bC →
  required (AdminRentals.p_status bC) = Some status →
  json reqP = Some bP →
  required (AdminRentalsId.p_status bP) = Some status →
  let outC := AdminRentals.PATCH lib reqC env w in
  let outP := AdminRentalsId.PATCH lib reqP id env w in
  (NextResponse.status outC.1 ≠ 200%nat ∧ db outC.2 = db w)
  ∧ (NextResponse.status outP.1 ≠ 200%nat ∧ db outP.2 = db w).
Proof.
  intros Hof HbC HstC HbP HstP outC outP. split.
  - destruct (AdminRentals_PATCH_effect lib reqC env w)
      as [?|(user & b & id' & status' & st & r & x & n & at_ & t2 & t3
             & _ & Hb & _ & Hst & Hof' & _)]; [done|].
    assert (b = bC) as -> by congruence. congruence.
  - destruct (AdminRentalsId_PATCH_effect lib reqP id env w)
      as [?|(user & b & r & x & n & at_ & t3 & rows & _ & Hb & _
             & _ & _ & _ & _ & _ & _ & Hcase & _)]; [done|].
    assert (b = bP) as -> by congruence.
    rewrite HstP in Hcase. destruct Hcase as (st & t2 & Hof' & _).
    congruence.
Qed.

(** X10 at work: the status RETURNED is not one of the enumeration. *)
Lemma unknown_status_refused_witness :
  let w := Fixture.world RequestStatus.PENDING ItemStatus.AVAILABLE in
  let outC :=
    AdminRentals.PATCH Fixture.lib (Fixture.patch "RETURNED") Fixture.env w in
  let outP :=
    AdminRentalsId.PATCH Fixture.lib (Fixture.patch_by_id "RETURNED")
      "rental-1" Fixture.env w in
  (NextResponse.status outC.1 ≠ 200%nat ∧ db outC.2 = db w)
  ∧ (NextResponse.status outP.1 ≠ 200%nat ∧ db outP.2 = db w).
Proof.
  exact (unknown_status_refused Fixture.lib (Fixture.patch "RETURNED")
           (Fixture.patch_by_id "RETURNED") "rental-1" Fixture.env
           (Fixture.world RequestStatus.PENDING ItemStatus.AVAILABLE)
           _ _ "RETURNED" eq_refl eq_refl eq_refl eq_refl eq_refl).
Defined.

(** X11 (the three routes of [/api/admin/rentals/[id]]).  For an id that
    names no rental, [GET], [PATCH] and [DELETE] never answer 200 and leave
    the store as it was, whoever calls; for an admin (with a readable body,
    for [PATCH]) and a store that answers the lookup, each answers exactly
    404 "Rental not found" after that one lookup. *)
Theorem unknown_rental_not_found lib reqG reqP reqD id env w :
  rentals (db w) !! id = None →
  let got := AdminRentalsIdGet.GET reqG id env w in
  let patched := AdminRentalsId.PATCH lib reqP id env w in
  let deleted := AdminRentalsId.DELETE reqD id env w in
  let notFound := (NextResponse.json (error "Rental not found") 404, next w) in
  (AdminRentalsIdGet.status got.1 ≠ 200%nat ∧ db got.2 = db w)
  ∧ (NextResponse.status patched.1 ≠ 200%nat ∧ db patched.2 = db w)
  ∧ (NextResponse.status deleted.1 ≠ 200%nat ∧ db deleted.2 = db w)
  ∧ (db_up env (tick w) = true →
     (is_Some (verifyAdmin reqG) →
      got = (AdminRentalsIdGet.mkResponse
               (AdminRentalsIdGet.error "Rental not found") 404, next w))
     ∧ (is_Some (verifyAdmin reqP) → is_Some (json reqP) →
        patched = notFound)
     ∧ (is_Some (verifyAdmin reqD) → deleted = notFound)).
Proof.
  intros Hnone got patched deleted notFound.
  split; [|split; [|split; [|intros Hup; split; [|split]]]].
  - subst got. unfold AdminRentalsIdGet.GET, AdminRentalsIdGet.findUnique.
    destruct (verifyAdmin reqG); [|done].
    unfold bind, query, read, ret.
    destruct (db_up env (tick w)); simpl; [by rewrite Hnone|done].
  - destruct (AdminRentalsId_PATCH_effect lib reqP id env w)
      as [?|(user & b & r & x & n & at_ & t3 & rows & _ & _ & _ & Hr & _)];
      [done|congruence].
  - destruct (AdminRentalsId_DELETE_effect reqD id env w)
      as [?|(user & r & x & at_ & t2 & t3 & _ & _ & Hr & _)];
      [done|congruence].
  - intros [user Hu]. subst got.
    unfold AdminRentalsIdGet.GET, AdminRentalsIdGet.findUnique.
    rewrite Hu. unfold bind, query, read, ret. rewrite Hup; simpl; by rewrite Hnone.
  - intros [user Hu] [b Hb]. subst patched notFound.
    unfold AdminRentalsId.PATCH, route, req_json, prisma.rental.findUnique.
    rewrite Hu, Hb. unfold bind, query, read, ret. rewrite Hup; simpl; by rewrite Hnone.
  - intros [user Hu]. subst deleted notFound.
    unfold AdminRentalsId.DELETE, route, prisma.rental.findUnique.
    rewrite Hu. unfold bind, query, read, ret. rewrite Hup; simpl; by rewrite Hnone.
Qed.

(** X11 at work: no rental has the id rental-9. *)
Lemma unknown_rental_not_found_witness :
  let w := Fixture.world RequestStatus.PENDING ItemStatus.AVAILABLE in
  let got := AdminRentalsIdGet.GET Fixture.delete "rental-9" Fixture.env w in
  let patched :=
    AdminRentalsId.PATCH Fixture.lib (Fixture.patch_by_id "APPROVED")
      "rental-9" Fixture.env w in
  let deleted :=
    AdminRentalsId.DELETE Fixture.delete "rental-9" Fixture.env w in
  let notFound := (NextResponse.json (error "Rental not found") 404, next w) in
  got = (AdminRentalsIdGet.mkResponse
           (AdminRentalsIdGet.error "Rental not found") 404, next w)
  ∧ patched = notFound
  ∧ deleted = notFound.
Proof.
  pose proof (unknown_rental_not_found Fixture.lib Fixture.delete
                (Fixture.patch_by_id "APPROVED") Fixture.delete "rental-9"
                Fixture.env
                (Fixture.world RequestStatus.PENDING ItemStatus.AVAILABLE)
                eq_refl) as (_ & _ & _ & H).
  destruct (H eq_refl) as (HG & HP & HD).
  split; [|split].
  - apply HG. by eexists.
  - apply HP; by eexists.
  - apply HD. by eexists.
Defined.

(** X12 ([PATCH] and [POST /api/admin/rentals]).  A status update that
    names no rental, a creation that names no item, and a creation for a
    customer that does not exist never answer 200 and leave the store as it
    was; for an admin and a store that answers, the first two answer
    exactly 404 "Rental not found" and 404 "Item not found" after the one
    lookup. *)
Theorem unknown_rental_item_or_customer lib reqC reqN env w bC bN id status sn :
  json reqC = Some bC →
  required (AdminRentals.p_id bC) = Some id →
  required (AdminRentals.p_status bC) = Some status →
  json reqN = Some bN →
  required (AdminRentals.c_itemSerial bN) = Some sn →
  let patched := AdminRentals.PATCH lib reqC env w in
  let created := AdminRentals.POST lib reqN env w in
  (rentals (db w) !! id = None →
   (NextResponse.status patched.1 ≠ 200%nat ∧ db patched.2 = db w)
   ∧ (db_up env (tick w) = true → is_Some (verifyAdmin reqC) →
      patched = (NextResponse.json (error "Rental not found") 404, next w)))
  ∧ (items (db w) !! sn = None →
     (NextResponse.status created.1 ≠ 200%nat ∧ db created.2 = db w)
     ∧ (db_up env (tick w) = true → is_Some (verifyAdmin reqN) →
        is_Some (required (AdminRentals.c_startDate bN)) →
        created = (NextResponse.json (error "Item not found") 404, next w)))
  ∧ (∀ c, required (AdminRentals.c_customerId bN) = Some c →
          customers (db w) !! c = None →
          NextResponse.status created.1 ≠ 200%nat ∧ db created.2 = db w).
Proof.
  intros HbC Hid Hst HbN Hsn patched created.
  split; [|split].
  - intros Hnone. split.
    + destruct (AdminRentals_PATCH_effect lib reqC env w)
        as [?|(user & b & id' & status' & st & r & x & n & at_ & t2 & t3
               & _ & Hb & Hid' & _ & _ & _ & Hr & _)]; [done|].
      assert (b = bC) as -> by congruence. congruence.
    + intros Hup [user Hu]. subst patched.
      apply verifyAdmin_inv in Hu as [Hs Hadm].
      unfold AdminRentals.PATCH, route, getUserFromRequest, req_json,
        prisma.rental.findUnique.
      rewrite Hs, Hadm, HbC. simpl. unfold bind at 1. unfold ret at 1.
      rewrite Hid, Hst.
      unfold bind, query, read, ret. rewrite Hup; simpl; by rewrite Hnone.
  - intros Hnone. split.
    + destruct (AdminRentals_POST_effect lib reqN env w)
        as [?|(user & b & sn' & sd & x & id' & at_ & z & ed & t2 & t3
               & _ & Hb & Hsn' & _ & _ & _ & _ & _ & _ & Hi & _)]; [done|].
      assert (b = bN) as -> by congruence. congruence.
    + intros Hup [user Hu] [sd Hsd]. subst created.
      apply verifyAdmin_inv in Hu as [Hs Hadm].
      unfold AdminRentals.POST, route, getUserFromRequest, req_json,
        prisma.item.findUnique.
      rewrite Hs, Hadm, HbN. simpl. unfold bind at 1. unfold ret at 1.
      rewrite Hsn, Hsd.
      unfold bind, query, read, ret. rewrite Hup; simpl; by rewrite Hnone.
  - intros c Hc Hnone.
    destruct (AdminRentals_POST_effect lib reqN env w)
      as [?|(user & b & sn' & sd & x & id' & at_ & z & ed & t2 & t3
             & _ & Hb & _ & _ & Hcust & _)]; [done|].
    assert (b = bN) as -> by congruence.
    rewrite Hc, Hnone in Hcust. by destruct Hcust.
Qed.

(** X12 at work: on a store without rentals, for an item and a customer
    that do not exist. *)
Lemma unknown_rental_item_or_customer_witness :
  let w := Fixture.fresh ItemStatus.AVAILABLE in
  let reqN :=
    mkRequest (Some Fixture.session)
      (Some (AdminRentals.mkPost (str "SN-404") (str "2025-01-01")
               undefined undefined undefined undefined undefined undefined
               undefined undefined)) in
  let reqK :=
    mkRequest (Some Fixture.session)
      (Some (AdminRentals.mkPost (str "SN-001") (str "2025-01-01")
               undefined undefined undefined (str "customer-9") undefined
               undefined undefined undefined)) in
  AdminRentals.PATCH Fixture.lib (Fixture.patch "APPROVED") Fixture.env w
  = (NextResponse.json (error "Rental not found") 404, next w)
  ∧ AdminRentals.POST Fixture.lib reqN Fixture.env w
    = (NextResponse.json (error "Item not found") 404, next w)
  ∧ (NextResponse.status (AdminRentals.POST Fixture.lib reqK Fixture.env w).1
     ≠ 200%nat
     ∧ db (AdminRentals.POST Fixture.lib reqK Fixture.env w).2 = db w).
Proof.
  split; [|split].
  - refine (proj2 (proj1 (unknown_rental_item_or_customer Fixture.lib
                            (Fixture.patch "APPROVED") Fixture.post
                            Fixture.env (Fixture.fresh ItemStatus.AVAILABLE)
                            _ _ "rental-1" "APPROVED" "SN-001"
                            eq_refl eq_refl eq_refl eq_refl eq_refl) eq_refl)
              eq_refl _).
    by eexists.
  - refine (proj2 (proj1 (proj2
              (unknown_rental_item_or_customer Fixture.lib
                 (Fixture.patch "APPROVED")
                 (mkRequest (Some Fixture.session)
                    (Some (AdminRentals.mkPost (str "SN-404")
                             (str "2025-01-01") undefined undefined undefined
                             undefined undefined undefined undefined
                             undefined)))
                 Fixture.env (Fixture.fresh ItemStatus.AVAILABLE)
                 _ _ "rental-1" "APPROVED" "SN-404"
                 eq_refl eq_refl eq_refl eq_refl eq_refl)) eq_refl)
              eq_refl _ _); by eexists.
  - exact (proj2 (proj2
             (unknown_rental_item_or_customer Fixture.lib
                (Fixture.patch "APPROVED")
                (mkRequest (Some Fixture.session)
                   (Some (AdminRentals.mkPost (str "SN-001")
                            (str "2025-01-01") undefined undefined undefined
                            (str "customer-9") undefined undefined undefined
                            undefined)))
                Fixture.env (Fixture.fresh ItemStatus.AVAILABLE)
                _ _ "rental-1" "APPROVED" "SN-001"
                eq_refl eq_refl eq_refl eq_refl eq_refl))
             "customer-9" eq_refl eq_refl).
Defined.

(** X13 (the five admin rental routes and [GET] by id).  A caller who is
    not an admin is answered 401 "Unauthorized" before anything else
    happens: no query is sent, no clock is read, the world is exactly as it
    was, whatever the body and the id. *)
Theorem non_admin_unauthorized lib s jC jN jP jU id env w :
  (∀ u, s = Some u → Session.role u ≠ Role.ADMIN) →
  let unauthorized := (NextResponse.json (error "Unauthorized") 401, w) in
  AdminRentals.PATCH lib (mkRequest s jC) env w = unauthorized
  ∧ AdminRentals.POST lib (mkRequest s jN) env w = unauthorized
  ∧ AdminRentalsId.PATCH lib (mkRequest s jP) id env w = unauthorized
  ∧ AdminRentalsId.DELETE (mkRequest s jU) id env w = unauthorized
  ∧ AdminRentalsIdGet.GET (mkRequest s jU) id env w
    = (AdminRentalsIdGet.mkResponse
         (AdminRentalsIdGet.error "Unauthorized") 401, w).
Proof.
  intros Hs unauthorized. subst unauthorized.
  unfold AdminRentals.PATCH, AdminRentals.POST, AdminRentalsId.PATCH,
    AdminRentalsId.DELETE, AdminRentalsIdGet.GET, route, verifyAdmin,
    getUserFromRequest, isAdmin. simpl.
  destruct s as [u|]; [|done].
  rewrite bool_decide_false by by apply Hs. done.
Qed.

(** X13 at work: the caller has the role USER. *)
Lemma non_admin_unauthorized_witness :
  let s := Some (Session.mk "user-1" (str "Renter") Role.USER) in
  let w := Fixture.world RequestStatus.PENDING ItemStatus.AVAILABLE in
  let unauthorized := (NextResponse.json (error "Unauthorized") 401, w) in
  AdminRentals.PATCH Fixture.lib (mkRequest s (json (Fixture.patch "APPROVED")))
    Fixture.env w = unauthorized
  ∧ AdminRentals.POST Fixture.lib (mkRequest s (json Fixture.post))
      Fixture.env w = unauthorized
  ∧ AdminRentalsId.PATCH Fixture.lib
      (mkRequest s (json (Fixture.patch_by_id "APPROVED"))) "rental-1"
      Fixture.env w = unauthorized
  ∧ AdminRentalsId.DELETE (mkRequest s (Some tt)) "rental-1" Fixture.env w
    = unauthorized
  ∧ AdminRentalsIdGet.GET (mkRequest s (Some tt)) "rental-1" Fixture.env w
    = (AdminRentalsIdGet.mkResponse
         (AdminRentalsIdGet.error "Unauthorized") 401, w).
Proof.
  apply (non_admin_unauthorized Fixture.lib
           (Some (Session.mk "user-1" (str "Renter") Role.USER))).
  intros u [= <-]. discriminate.
Defined.

(** X14 ([PATCH] and [POST /api/admin/rentals]).  For an admin, a status
    update without an id or without a status, and a creation without an
    item or without a start date (absent, [null] or empty), are answered
    400 "Missing required fields" before any query: the world is exactly as
    it was. *)
Theorem missing_fields_400 lib reqC reqN env w bC bN :
  is_Some (verifyAdmin reqC) →
  json reqC = Some bC →
  is_Some (verifyAdmin reqN) →
  json reqN = Some bN →
  let missing := (NextResponse.json (error "Missing required fields") 400, w) in
  (required (AdminRentals.p_id bC) = None
   ∨ required (AdminRentals.p_status bC) = None →
   AdminRentals.PATCH lib reqC env w = missing)
  ∧ (required (AdminRentals.c_itemSerial bN) = None
     ∨ required (AdminRentals.c_startDate bN) = None →
     AdminRentals.POST lib reqN env w = missing).
Proof.
  intros [uC HuC] HbC [uN HuN] HbN missing. subst missing.
  apply verifyAdmin_inv in HuC as [HsC HaC].
  apply verifyAdmin_inv in HuN as [HsN HaN].
  split; intros Hmiss.
  - unfold AdminRentals.PATCH, route, getUserFromRequest, req_json.
    rewrite HsC, HaC, HbC. simpl. unfold bind, ret.
    destruct Hmiss as [-> | ->]; [done|].
    by destruct (required (AdminRentals.p_id bC)).
  - unfold AdminRentals.POST, route, getUserFromRequest, req_json.
    rewrite HsN, HaN, HbN. simpl. unfold bind, ret.
    destruct Hmiss as [-> | ->]; [done|].
    by destruct (required (AdminRentals.c_itemSerial bN)).
Qed.

(** X14 at work: an empty status, a [null] item. *)
Lemma missing_fields_400_witness :
  let w := Fixture.world RequestStatus.PENDING ItemStatus.AVAILABLE in
  let reqC :=
    mkRequest (Some Fixture.session)
      (Some (AdminRentals.mkPatch (str "rental-1") (str EmptyString) undefined
               undefined)) in
  let reqN :=
    mkRequest (Some Fixture.session)
      (Some (AdminRentals.mkPost null (str "2025-01-01") undefined undefined
               undefined undefined undefined undefined undefined
               undefined)) in
  let missing := (NextResponse.json (error "Missing required fields") 400, w) in
  AdminRentals.PATCH Fixture.lib reqC Fixture.env w = missing
  ∧ AdminRentals.POST Fixture.lib reqN Fixture.env w = missing.
Proof.
  assert (is_Some (Some Fixture.session)) as Hadm by by eexists.
  pose proof (missing_fields_400 Fixture.lib
                (mkRequest (Some Fixture.session)
                   (Some (AdminRentals.mkPatch (str "rental-1") (str EmptyString)
                            undefined undefined)))
                (mkRequest (Some Fixture.session)
                   (Some (AdminRentals.mkPost null (str "2025-01-01")
                            undefined undefined undefined undefined undefined
                            undefined undefined undefined)))
                Fixture.env
                (Fixture.world RequestStatus.PENDING ItemStatus.AVAILABLE)
                _ _ Hadm eq_refl Hadm eq_refl) as [HC HN].
  split; [apply HC; by right|apply HN; by left].
Defined.

(** X15 ([POST /api/admin/rentals] and [PATCH /api/admin/rentals/[id]]).
    A start or end date that does not parse is never stored: the answer is
    not 200 and the store is left exactly as it was. *)
Theorem unparsable_date_refused lib reqN reqP id env w bN bP s :
  parse_date env s = None →
  json reqN = Some bN →
  required (AdminRentals.c_startDate bN) = Some s
  ∨ required (AdminRentals.c_endDate bN) = Some s →
  json reqP = Some bP →
  required (AdminRentalsId.p_startDate bP) = Some s
  ∨ required (AdminRentalsId.p_endDate bP) = Some s →
  let created := AdminRentals.POST lib reqN env w in
  let patched := AdminRentalsId.PATCH lib reqP id env w in
  (NextResponse.status created.1 ≠ 200%nat ∧ db created.2 = db w)
  ∧ (NextResponse.status patched.1 ≠ 200%nat ∧ db patched.2 = db w).
Proof.
  intros Hbad HbN HdN HbP HdP created patched. split.
  - destruct (AdminRentals_POST_effect lib reqN env w)
      as [?|(user & b & sn & sd & x & id' & at_ & z & ed & t2 & t3
             & _ & Hb & _ & Hsd & _ & _ & Hz & Hed & _)]; [done|].
    assert (b = bN) as -> by congruence.
    destruct HdN as [Hd|Hd].
    + congruence.
    + rewrite Hd in Hed. destruct Hed as (ze & Hze & _). congruence.
  - destruct (AdminRentalsId_PATCH_effect lib reqP id env w)
      as [?|(user & b & r & x & n & at_ & t3 & rows & _ & Hb & _ & _ & Hwt
             & _)]; [done|].
    assert (b = bP) as -> by congruence.
    unfold RentalData.well_typed in Hwt. simpl in Hwt.
    apply andb_true_iff in Hwt as [Hwt He].
    apply andb_true_iff in Hwt as [_ Hs].
    destruct HdP as [Hd|Hd]; rewrite Hd in *; simpl in *;
      unfold Date_of in *; by rewrite Hbad in *.
Qed.

(** X15 at work: the date [next week] does not parse. *)
Lemma unparsable_date_refused_witness :
  let w := Fixture.world RequestStatus.PENDING ItemStatus.AVAILABLE in
  let reqN :=
    mkRequest (Some Fixture.session)
      (Some (AdminRentals.mkPost (str "SN-001") (str "2025-01-01")
               (str "next week") undefined undefined undefined undefined
               undefined undefined undefined)) in
  let reqP :=
    mkRequest (Some Fixture.session)
      (Some (AdminRentalsId.mkPatch undefined undefined undefined undefined
               (str "next week") undefined)) in
  let created := AdminRentals.POST Fixture.lib reqN Fixture.env w in
  let patched :=
    AdminRentalsId.PATCH Fixture.lib reqP "rental-1" Fixture.env w in
  (NextResponse.status created.1 ≠ 200%nat ∧ db created.2 = db w)
  ∧ (NextResponse.status patched.1 ≠ 200%nat ∧ db patched.2 = db w).
Proof.
  apply (unparsable_date_refused Fixture.lib
           (mkRequest (Some Fixture.session)
              (Some (AdminRentals.mkPost (str "SN-001") (str "2025-01-01")
                       (str "next week") undefined undefined undefined
                       undefined undefined undefined undefined)))
           (mkRequest (Some Fixture.session)
              (Some (AdminRentalsId.mkPatch undefined undefined undefined
                       undefined (str "next week") undefined)))
           "rental-1" Fixture.env
           (Fixture.world RequestStatus.PENDING ItemStatus.AVAILABLE)
           _ _ "next week" eq_refl eq_refl (or_intror eq_refl) eq_refl
           (or_introl eq_refl)).
Defined.

(** * The item and its history *)

(** X16 (both [PATCH] routes).  After a 200 answer to an update to the
    status [st], the item of the rental is in the store with the status the
    route derives from [st] alone: RENTED for APPROVED, AVAILABLE for
    COMPLETED and REJECTED; for CANCELLED it is AVAILABLE through the by-id
    route and unchanged through [PATCH /api/admin/rentals]; for PENDING it
    is unchanged through both.  Every other column of the item but the
    stamp is as it was. *)
Theorem item_status_after_update lib reqC reqP id env w bC bP status st r i :
  RequestStatus.of_string status = Some st →
  json reqC = Some bC →
  required (AdminRentals.p_id bC) = Some id →
  required (AdminRentals.p_status bC) = Some status →
  json reqP = Some bP →
  required (AdminRentalsId.p_status bP) = Some status →
  rentals (db w) !! id = Some r →
  items (db w) !! Rental.itemSerial r = Some i →
  let outC := AdminRentals.PATCH lib reqC env w in
  let outP := AdminRentalsId.PATCH lib reqP id env w in
  (NextResponse.status outC.1 = 200%nat →
   ∃ i', items (db outC.2) !! Rental.itemSerial r = Some i'
         ∧ Item.status i' = item_status_after st (Item.status i)
         ∧ same_item i i')
  ∧ (NextResponse.status outP.1 = 200%nat →
     ∃ i', items (db outP.2) !! Rental.itemSerial r = Some i'
           ∧ Item.status i' = item_status_after_by_id st (Item.status i)
           ∧ same_item i i').
Proof.
  intros Hof HbC Hid HstC HbP HstP Hr Hi outC outP.
  apply of_string_to_string in Hof as ->.
  split; intros H200.
  - destruct (AdminRentals_PATCH_effect lib reqC env w)
      as [[Hn _]|(user & b & id' & status' & st' & r' & x & n & at_ & t2 & t3
                  & _ & Hb & Hid' & Hst & _ & _ & Hr' & _ & _ & _ & _ & _ & _
                  & HI & _)]; fold outC in Hn || fold outC in HI; [done|].
    assert (b = bC) as -> by congruence.
    assert (id' = id) as -> by congruence.
    assert (r' = r) as -> by congruence.
    assert (status' = RequestStatus.to_string st) as -> by congruence.
    destruct (item_derived_status _ _ _ _ _ HI Hi) as (i' & Hi' & Hs & Hsame).
    exists i'. split; [done|]. split; [|done].
    rewrite Hs. by destruct st.
  - destruct (AdminRentalsId_PATCH_effect lib reqP id env w)
      as [[Hn _]|(user & b & r' & x & n & at_ & t3 & rows & _ & Hb & _ & Hr'
                  & _ & _ & _ & _ & _ & Hcase & _)];
      fold outP in Hn || fold outP in Hcase; [done|].
    assert (b = bP) as -> by congruence.
    assert (r' = r) as -> by congruence.
    rewrite HstP in Hcase. destruct Hcase as (st' & t2 & _ & _ & _ & HI).
    destruct (item_derived_status _ _ _ _ _ HI Hi) as (i' & Hi' & Hs & Hsame).
    exists i'. split; [done|]. split; [|done].
    rewrite Hs. by destruct st.
Qed.

(** X16 at work: a rejection of the fixture's approved rental frees its
    item through both routes. *)
Lemma item_status_after_update_witness :
  let w := Fixture.world RequestStatus.APPROVED ItemStatus.RENTED in
  let outC :=
    AdminRentals.PATCH Fixture.lib (Fixture.patch "REJECTED") Fixture.env w in
  let outP :=
    AdminRentalsId.PATCH Fixture.lib (Fixture.patch_by_id "REJECTED")
      "rental-1" Fixture.env w in
  (∃ i', items (db outC.2) !! "SN-001" = Some i'
         ∧ Item.status i' = ItemStatus.AVAILABLE
         ∧ same_item (Fixture.detector ItemStatus.RENTED) i')
  ∧ (∃ i', items (db outP.2) !! "SN-001" = Some i'
           ∧ Item.status i' = ItemStatus.AVAILABLE
           ∧ same_item (Fixture.detector ItemStatus.RENTED) i').
Proof.
  pose proof (item_status_after_update Fixture.lib (Fixture.patch "REJECTED")
                (Fixture.patch_by_id "REJECTED") "rental-1" Fixture.env
                (Fixture.world RequestStatus.APPROVED ItemStatus.RENTED)
                _ _ "REJECTED" RequestStatus.REJECTED
                (Fixture.rental1 RequestStatus.APPROVED)
                (Fixture.detector ItemStatus.RENTED)
                eq_refl eq_refl eq_refl eq_refl eq_refl eq_refl eq_refl
                eq_refl) as [HC HP].
  split; [apply HC|apply HP]; vm_compute; reflexivity.
Defined.

(** X17 (the three status routes).  The reminder and notification tables
    are reached only through an approval: a status update to anything but
    APPROVED, and every [DELETE], leave both tables exactly as they were,
    in every outcome. *)
Theorem reminders_only_on_approval lib reqC reqP reqD id env w bC bP :
  json reqC = Some bC →
  required (AdminRentals.p_status bC) ≠ Some "APPROVED" →
  json reqP = Some bP →
  required (AdminRentalsId.p_status bP) ≠ Some "APPROVED" →
  let untouched (out : NextResponse.t * World) :=
    reminders (db out.2) = reminders (db w)
    ∧ notifications (db out.2) = notifications (db w) in
  untouched (AdminRentals.PATCH lib reqC env w)
  ∧ untouched (AdminRentalsId.PATCH lib reqP id env w)
  ∧ untouched (AdminRentalsId.DELETE reqD id env w).
Proof.
  intros HbC HstC HbP HstP untouched. subst untouched. cbn beta.
  split; [|split].
  - destruct (AdminRentals_PATCH_effect lib reqC env w)
      as [[_ ->]|(user & b & id' & status & st & r & x & n & at_ & t2 & t3
                  & _ & Hb & _ & Hst & _ & _ & _ & _ & _ & _ & _ & _ & _ & _
                  & _ & _ & _ & HN)]; [done|].
    assert (b = bC) as -> by congruence.
    apply HN. destruct (is_status status RequestStatus.APPROVED) eqn:E;
      [|done].
    apply String.eqb_eq in E. simpl in E. congruence.
  - destruct (AdminRentalsId_PATCH_effect lib reqP id env w)
      as [[_ ->]|(user & b & r & x & n & at_ & t3 & rows & _ & Hb & _ & _
                  & _ & _ & _ & _ & _ & _ & _ & _ & _ & HN & _)]; [done|].
    assert (b = bP) as -> by congruence.
    apply HN. destruct (required (AdminRentalsId.p_status bP)) as [status|];
      [|done].
    destruct (is_status status RequestStatus.APPROVED) eqn:E; [|done].
    apply String.eqb_eq in E. simpl in E. congruence.
  - destruct (AdminRentalsId_DELETE_effect reqD id env w)
      as [[_ ->]|(user & r & x & at_ & t2 & t3 & _ & _ & _ & _ & _ & _ & _
                  & _ & _ & _ & _ & _ & _ & HR & HN)]; done.
Qed.

(** X17 at work: a completion through both routes, and a cancellation. *)
Lemma reminders_only_on_approval_witness :
  let w := Fixture.world RequestStatus.APPROVED ItemStatus.RENTED in
  let untouched (out : NextResponse.t * World) :=
    reminders (db out.2) = reminders (db w)
    ∧ notifications (db out.2) = notifications (db w) in
  untouched (AdminRentals.PATCH Fixture.lib (Fixture.patch "COMPLETED")
               Fixture.env w)
  ∧ untouched (AdminRentalsId.PATCH Fixture.lib
                 (Fixture.patch_by_id "COMPLETED") "rental-1" Fixture.env w)
  ∧ untouched (AdminRentalsId.DELETE Fixture.delete "rental-1" Fixture.env w).
Proof.
  apply (reminders_only_on_approval Fixture.lib (Fixture.patch "COMPLETED")
           (Fixture.patch_by_id "COMPLETED") Fixture.delete "rental-1"
           Fixture.env
           (Fixture.world RequestStatus.APPROVED ItemStatus.RENTED)
           (AdminRentals.mkPatch (str "rental-1") (str "COMPLETED") undefined
              undefined)
           (AdminRentalsId.mkPatch (str "COMPLETED") undefined undefined
              undefined undefined undefined)
           eq_refl); [discriminate|reflexivity|discriminate].
Defined.

(** X18 ([PATCH /api/admin/rentals]).  After a 200 answer to an update to
    COMPLETED no history row is left open for the rental: every row of the
    rental's item with the action RENTED, this rental as its relation and no
    end date has been given one and the same end date, and every other row
    of the history is as it was. *)
Theorem completion_closes_item_history lib req env w b id r :
  json req = Some b →
  required (AdminRentals.p_id b) = Some id →
  required (AdminRentals.p_status b) = Some "COMPLETED" →
  rentals (db w) !! id = Some r →
  let out := AdminRentals.PATCH lib req env w in
  NextResponse.status out.1 = 200%nat →
  Forall (λ h, ¬ open_for (Rental.itemSerial r) id h)
    (itemHistories (db out.2))
  ∧ ∃ e, Forall2 (closed_at (Rental.itemSerial r) id e)
           (itemHistories (db w)) (itemHistories (db out.2)).
Proof.
  intros Hb Hid Hst Hr out H200.
  destruct (AdminRentals_PATCH_effect lib req env w)
    as [[Hn _]|(user & b' & id' & status & st & r' & x & n & at_ & t2 & t3
                & _ & Hb' & Hid' & Hst' & _ & _ & Hr' & _ & _ & _ & _ & _ & _
                & _ & HH & _)]; fold out in Hn || fold out in HH; [done|].
  assert (b' = b) as -> by congruence.
  assert (id' = id) as -> by congruence.
  assert (r' = r) as -> by congruence.
  assert (status = "COMPLETED") as -> by congruence.
  simpl in HH. destruct HH as (e & ->). unfold close_history. split.
  - apply Forall_forall. intros h' Hin.
    apply list_elem_of_fmap in Hin as (h & -> & _).
    unfold open_for.
    destruct (prisma.itemHistory.open_row _ _ _ h) eqn:E.
    + unfold prisma.itemHistory.open_row. simpl.
      rewrite andb_false_r. done.
    + by rewrite E.
  - exists e. apply Forall2_fmap_r, Forall_Forall2_diag, Forall_forall.
    intros h _. simpl. unfold closed_at.
    by destruct (prisma.itemHistory.open_row _ _ _ h).
Qed.

(** X18 at work: the row opened when the detector was handed out is
    closed. *)
Lemma completion_closes_item_history_witness :
  let w := Fixture.world RequestStatus.APPROVED ItemStatus.RENTED in
  let out :=
    AdminRentals.PATCH Fixture.lib (Fixture.patch "COMPLETED") Fixture.env w in
  Forall (λ h, ¬ open_for "SN-001" "rental-1" h) (itemHistories (db out.2))
  ∧ ∃ e, Forall2 (closed_at "SN-001" "rental-1" e)
           [Fixture.handed_out] (itemHistories (db out.2)).
Proof.
  exact (completion_closes_item_history Fixture.lib
           (Fixture.patch "COMPLETED") Fixture.env
           (Fixture.world RequestStatus.APPROVED ItemStatus.RENTED)
           _ "rental-1" (Fixture.rental1 RequestStatus.APPROVED)
           eq_refl eq_refl eq_refl eq_refl eq_refl).
Defined.

(** X19 (the four writing routes).  No route adds, removes or reopens a row
    of the item history: after any request the history has the rows it had,
    in order, each as it was or, when it had no end date, with one.  Only
    [PATCH /api/admin/rentals] ever changes a row; the by-id routes and the
    creation leave the history exactly as it was (the creation of an
    approved rental opens no row). *)
Theorem item_history_only_closed lib reqC reqN reqP reqD id env w :
  Forall2 kept_or_closed (itemHistories (db w))
    (itemHistories (db (AdminRentals.PATCH lib reqC env w).2))
  ∧ itemHistories (db (AdminRentals.POST lib reqN env w).2)
    = itemHistories (db w)
  ∧ itemHistories (db (AdminRentalsId.PATCH lib reqP id env w).2)
    = itemHistories (db w)
  ∧ itemHistories (db (AdminRentalsId.DELETE reqD id env w).2)
    = itemHistories (db w).
Proof.
  assert (∀ l, Forall2 kept_or_closed l l) as Hrefl
    by (intros l; apply Forall_Forall2_diag, Forall_forall; intros h _;
        by left).
  split; [|split; [|split]].
  - destruct (AdminRentals_PATCH_effect lib reqC env w)
      as [[_ ->]|(user & b & id' & status & st & r & x & n & at_ & t2 & t3
                  & _ & _ & _ & _ & _ & _ & _ & _ & _ & _ & _ & _ & _ & _
                  & HH & _)]; [done|].
    destruct (is_status status RequestStatus.COMPLETED); [|by rewrite HH].
    destruct HH as (e & ->). unfold close_history.
    apply Forall2_fmap_r, Forall_Forall2_diag, Forall_forall.
    intros h _. simpl. unfold kept_or_closed.
    destruct (prisma.itemHistory.open_row _ _ _ h) eqn:E; [|by left].
    right. unfold prisma.itemHistory.open_row in E.
    apply andb_true_iff in E as [_ E]. apply bool_decide_eq_true in E.
    split; [done|by exists e].
  - destruct (AdminRentals_POST_effect lib reqN env w)
      as [[_ ->]|(user & b & sn & sd & x & id' & at_ & z & ed & t2 & t3
                  & _ & _ & _ & _ & _ & _ & _ & _ & _ & _ & _ & _ & _ & _
                  & _ & _ & _ & HH & _)]; done.
  - destruct (AdminRentalsId_PATCH_effect lib reqP id env w)
      as [[_ ->]|(user & b & r & x & n & at_ & t3 & rows & _ & _ & _ & _
                  & _ & _ & _ & _ & _ & _ & HH & _)]; done.
  - destruct (AdminRentalsId_DELETE_effect reqD id env w)
      as [[_ ->]|(user & r & x & at_ & t2 & t3 & _ & _ & _ & _ & _ & _ & _
                  & _ & _ & _ & HH & _)]; done.
Qed.

(** X20 (the four writing routes).  The item and the owner in the body of a
    200 answer are the rows as they were BEFORE the request: the rental is
    read back with its relations before the item is updated, so the answer
    to an approval or a creation still shows the item with its old status
    while the store already has the new one. *)
Theorem response_shows_item_before_update lib reqC reqN reqP reqD id env w :
  let stale (out : NextResponse.t * World) :=
    ∀ x, out.1 = NextResponse.ok x → shows_rows_of (db w) x in
  stale (AdminRentals.PATCH lib reqC env w)
  ∧ stale (AdminRentals.POST lib reqN env w)
  ∧ stale (AdminRentalsId.PATCH lib reqP id env w)
  ∧ stale (AdminRentalsId.DELETE reqD id env w).
Proof.
  intros stale. subst stale. cbn beta. unfold shows_rows_of.
  split; [|split; [|split]]; intros x0 Hx0.
  - destruct (AdminRentals_PATCH_effect lib reqC env w)
      as [[Hn _]|(user & b & id' & status & st & r & x & n & at_ & t2 & t3
                  & _ & _ & _ & _ & _ & Hok & _ & Hx & Hi & Hu & _)].
    { by rewrite Hx0 in Hn. }
    assert (x0 = x) as -> by (unfold NextResponse.ok in *; congruence). by rewrite Hx.
  - destruct (AdminRentals_POST_effect lib reqN env w)
      as [[Hn _]|(user & b & sn & sd & x & id' & at_ & z & ed & t2 & t3
                  & _ & _ & _ & _ & _ & Hok & _ & _ & Hx & Hi & _ & Hu & _)].
    { by rewrite Hx0 in Hn. }
    assert (x0 = x) as -> by (unfold NextResponse.ok in *; congruence). by rewrite Hx.
  - destruct (AdminRentalsId_PATCH_effect lib reqP id env w)
      as [[Hn _]|(user & b & r & x & n & at_ & t3 & rows & _ & _ & Hresp & _
                  & _ & Hx & Hi & Hu & _)].
    { by rewrite Hx0 in Hn. }
    destruct Hresp as [H500|Hok]; [by rewrite Hx0 in H500|].
    assert (x0 = x) as -> by (unfold NextResponse.ok in *; congruence). by rewrite Hx.
  - destruct (AdminRentalsId_DELETE_effect reqD id env w)
      as [[Hn _]|(user & r & x & at_ & t2 & t3 & _ & Hok & _ & Hx & Hi & Hu
                  & _)].
    { by rewrite Hx0 in Hn. }
    assert (x0 = x) as -> by (unfold NextResponse.ok in *; congruence). by rewrite Hx.
Qed.

(** X20 at work: the answer to an approval shows the item AVAILABLE while
    the store has it RENTED. *)
Lemma response_shows_item_before_update_witness :
  let w := Fixture.world RequestStatus.PENDING ItemStatus.AVAILABLE in
  let out :=
    AdminRentals.PATCH Fixture.lib (Fixture.patch "APPROVED") Fixture.env w in
  ∃ x, out.1 = NextResponse.ok x
       ∧ shows_rows_of (db w) x
       ∧ Item.status (Included.item x) = ItemStatus.AVAILABLE
       ∧ Item.status <$> items (db out.2) !! "SN-001"
         = Some ItemStatus.RENTED.
Proof.
  eexists. split; [vm_compute; reflexivity|].
  split; [|split; vm_compute; reflexivity].
  apply (proj1 (response_shows_item_before_update Fixture.lib
                  (Fixture.patch "APPROVED") Fixture.post
                  (Fixture.patch_by_id "APPROVED") Fixture.delete "rental-1"
                  Fixture.env
                  (Fixture.world RequestStatus.PENDING ItemStatus.AVAILABLE))).
  vm_compute. reflexivity.
Defined.

(** X21 ([PATCH /api/admin/rentals]).  A 200 answer carries, and leaves in
    the store, the rental with the requested status and with the return
    condition of the body when it has one (whatever the status), and the
    one it had otherwise. *)
Theorem patch_stores_status_and_return_condition lib req env w b id status :
  json req = Some b →
  required (AdminRentals.p_id b) = Some id →
  required (AdminRentals.p_status b) = Some status →
  let out := AdminRentals.PATCH lib req env w in
  NextResponse.status out.1 = 200%nat →
  ∃ r x,
    rentals (db w) !! id = Some r
    ∧ out.1 = NextResponse.ok x
    ∧ rentals (db out.2) !! id = Some (Included.rental x)
    ∧ RequestStatus.of_string status
      = Some (Rental.status (Included.rental x))
    ∧ Rental.returnCondition (Included.rental x)
      = match required (AdminRentals.p_returnCondition b) with
        | Some c => Some c
        | None => Rental.returnCondition r
        end.
Proof.
  intros Hb Hid Hst out H200.
  destruct (AdminRentals_PATCH_effect lib req env w)
    as [[Hn _]|(user & b' & id' & status' & st & r & x & n & at_ & t2 & t3
                & _ & Hb' & Hid' & Hst' & Hof & Hok & Hr & Hx & _ & _ & HR
                & _)]; fold out in Hn || fold out in Hok, HR; [done|].
  assert (b' = b) as -> by congruence.
  assert (id' = id) as -> by congruence.
  assert (status' = status) as -> by congruence.
  exists r, x. rewrite HR, lookup_insert_eq, Hx. simpl. rewrite Hof.
  by repeat split.
Qed.

(** X21 at work: a completion with a return condition. *)
Lemma patch_stores_status_and_return_condition_witness :
  let w := Fixture.world RequestStatus.APPROVED ItemStatus.RENTED in
  let req :=
    mkRequest (Some Fixture.session)
      (Some (AdminRentals.mkPatch (str "rental-1") (str "COMPLETED")
               undefined (str "Scratched housing"))) in
  let out := AdminRentals.PATCH Fixture.lib req Fixture.env w in
  ∃ r x,
    rentals (db w) !! "rental-1" = Some r
    ∧ out.1 = NextResponse.ok x
    ∧ rentals (db out.2) !! "rental-1" = Some (Included.rental x)
    ∧ Some RequestStatus.COMPLETED = Some (Rental.status (Included.rental x))
    ∧ Rental.returnCondition (Included.rental x) = Some "Scratched housing".
Proof.
  exact (patch_stores_status_and_return_condition Fixture.lib
           (mkRequest (Some Fixture.session)
              (Some (AdminRentals.mkPatch (str "rental-1") (str "COMPLETED")
                       undefined (str "Scratched housing"))))
           Fixture.env
           (Fixture.world RequestStatus.APPROVED ItemStatus.RENTED)
           _ "rental-1" "COMPLETED" eq_refl eq_refl eq_refl eq_refl).
Defined.

(** * Requests one after another *)

(** X22 ([DELETE /api/admin/rentals/[id]]).  Cancelling is not repeated on
    the item: after a 200 answer to a [DELETE], a second [DELETE] of the
    same rental, by anyone and at any later time, leaves every item exactly
    as the first left it; when it answers 200 too the rental is still
    there, still CANCELLED, and the status log has one more row. *)
Theorem repeated_cancel_leaves_items reqD reqD' id env env' w :
  let first := AdminRentalsId.DELETE reqD id env w in
  let second := AdminRentalsId.DELETE reqD' id env' first.2 in
  NextResponse.status first.1 = 200%nat →
  items (db second.2) = items (db first.2)
  ∧ (NextResponse.status second.1 = 200%nat →
     ∃ r', rentals (db second.2) !! id = Some r'
           ∧ Rental.status r' = RequestStatus.CANCELLED
           ∧ length (rentalStatusLogs (db second.2))
             = S (S (length (rentalStatusLogs (db w))))).
Proof.
  intros first second H200.
  destruct (AdminRentalsId_DELETE_effect reqD id env w)
    as [[Hn _]|(user & r & x & at_ & t2 & t3 & _ & _ & Hr & Hx & Hi & _ & HR
                & HL & _ & HI & _)];
    fold first in Hn || fold first in HR, HL, HI; [done|].
  destruct (item_derived_status _ _ _ _ _ HI Hi) as (i' & Hi' & Hs & _).
  assert (Item.status i' ≠ ItemStatus.RENTED) as Hfree.
  { rewrite Hs. destruct (bool_decide _) eqn:E; simpl; [done|].
    by apply bool_decide_eq_false in E. }
  destruct (AdminRentalsId_DELETE_effect reqD' id env' first.2)
    as [[Hn Hsame]|(user2 & r2 & x2 & a2 & t4 & t5 & _ & _ & Hr2 & Hx2 & Hi2
                    & _ & HR2 & HL2 & _ & HI2 & _)];
    [fold second in Hn, Hsame|fold second in HR2, HL2, HI2].
  { by rewrite Hsame. }
  rewrite HR, lookup_insert_eq in Hr2.
  assert (r2 = Included.rental x) as -> by congruence.
  assert (Rental.itemSerial (Included.rental x) = Rental.itemSerial r) as Hsn
    by by rewrite Hx.
  rewrite Hsn in Hi2, HI2.
  assert (Included.item x2 = i') as Hix by congruence.
  rewrite Hix, bool_decide_false in HI2 by done.
  split; [done|]. intros _.
  exists (Included.rental x2).
  rewrite HR2, lookup_insert_eq, HL2, HL, !length_app, Hx2. simpl.
  split; [done|]. split; [done|lia].
Qed.

(** X22 at work: the fixture's approved rental is cancelled twice. *)
Lemma repeated_cancel_leaves_items_witness :
  let w := Fixture.world RequestStatus.APPROVED ItemStatus.RENTED in
  let first :=
    AdminRentalsId.DELETE Fixture.delete "rental-1" Fixture.env w in
  let second :=
    AdminRentalsId.DELETE Fixture.delete "rental-1" Fixture.env first.2 in
  items (db second.2) = items (db first.2)
  ∧ ∃ r', rentals (db second.2) !! "rental-1" = Some r'
          ∧ Rental.status r' = RequestStatus.CANCELLED
          ∧ length (rentalStatusLogs (db second.2)) = 2%nat.
Proof.
  destruct (repeated_cancel_leaves_items Fixture.delete Fixture.delete
              "rental-1" Fixture.env Fixture.env
              (Fixture.world RequestStatus.APPROVED ItemStatus.RENTED)
              eq_refl) as [HI H].
  split; [exact HI|]. apply H. vm_compute. reflexivity.
Defined.

(** X23 ([PATCH /api/admin/rentals] then [DELETE /api/admin/rentals/[id]]).
    An approval followed by a cancellation gives the item back: when both
    answer 200, the rental is CANCELLED and its item, RENTED in between, is
    AVAILABLE again with all its other columns (but the stamp) as at the
    start, and the status log has exactly the two rows APPROVED and
    CANCELLED more. *)
Theorem approve_then_cancel_frees_item lib reqC reqD env env' w b id r i :
  json reqC = Some b →
  required (AdminRentals.p_id b) = Some id →
  required (AdminRentals.p_status b) = Some "APPROVED" →
  rentals (db w) !! id = Some r →
  items (db w) !! Rental.itemSerial r = Some i →
  let approved := AdminRentals.PATCH lib reqC env w in
  let cancelled := AdminRentalsId.DELETE reqD id env' approved.2 in
  NextResponse.status approved.1 = 200%nat →
  NextResponse.status cancelled.1 = 200%nat →
  ∃ r' i',
    rentals (db cancelled.2) !! id = Some r'
    ∧ Rental.status r' = RequestStatus.CANCELLED
    ∧ Item.status <$> items (db approved.2) !! Rental.itemSerial r
      = Some ItemStatus.RENTED
    ∧ items (db cancelled.2) !! Rental.itemSerial r = Some i'
    ∧ Item.status i' = ItemStatus.AVAILABLE
    ∧ same_item i i'
    ∧ map RentalStatusLog.status (rentalStatusLogs (db cancelled.2))
      = (map RentalStatusLog.status (rentalStatusLogs (db w))
         ++ [RequestStatus.APPROVED; RequestStatus.CANCELLED])%list.
Proof.
  intros Hb Hid Hst Hr Hi approved cancelled H200 H200'.
  destruct (AdminRentals_PATCH_effect lib reqC env w)
    as [[Hn _]|(user & b' & id' & status & st & r0 & x & n & at_ & t2 & t3
                & _ & Hb' & Hid' & Hst' & Hof & _ & Hr0 & Hx & _ & _ & HR
                & HL & _ & HI & _)];
    fold approved in Hn || fold approved in HR, HL, HI; [done|].
  assert (b' = b) as -> by congruence.
  assert (id' = id) as -> by congruence.
  assert (status = "APPROVED") as -> by congruence.
  assert (r0 = r) as -> by congruence.
  assert (st = RequestStatus.APPROVED) as -> by (vm_compute in Hof; congruence).
  destruct (item_derived_status _ _ _ _ _ HI Hi) as (i1 & Hi1 & Hs1 & Hsame1).
  simpl in Hs1.
  destruct (AdminRentalsId_DELETE_effect reqD id env' approved.2)
    as [[Hn _]|(user2 & r2 & x2 & a2 & t4 & t5 & _ & _ & Hr2 & Hx2 & Hi2 & _
                & HR2 & HL2 & _ & HI2 & _)];
    fold cancelled in Hn || fold cancelled in HR2, HL2, HI2; [done|].
  rewrite HR, lookup_insert_eq in Hr2.
  assert (r2 = Included.rental x) as -> by congruence.
  assert (Rental.itemSerial (Included.rental x) = Rental.itemSerial r) as Hsn
    by by rewrite Hx.
  rewrite Hsn in Hi2, HI2.
  assert (Included.item x2 = i1) as Hix by congruence.
  rewrite Hix, Hs1, bool_decide_true in HI2 by done.
  destruct (item_derived_status _ _ _ _ _ HI2 Hi1) as (i2 & Hi2' & Hs2 & Hsame2).
  exists (Included.rental x2), i2.
  rewrite HR2, lookup_insert_eq, Hi1, HL2, HL, Hx2, !map_app, <- app_assoc.
  simpl. rewrite Hs1.
  repeat (split; [done|]).
  split; [|done].
  destruct Hsame1 as (?&?&?&?&?&?), Hsame2 as (?&?&?&?&?&?).
  repeat split; congruence.
Qed.

(** X23 at work: the fixture's pending rental is approved, then
    cancelled. *)
Lemma approve_then_cancel_frees_item_witness :
  let w := Fixture.world RequestStatus.PENDING ItemStatus.AVAILABLE in
  let approved :=
    AdminRentals.PATCH Fixture.lib (Fixture.patch "APPROVED") Fixture.env w in
  let cancelled :=
    AdminRentalsId.DELETE Fixture.delete "rental-1" Fixture.env approved.2 in
  ∃ r' i',
    rentals (db cancelled.2) !! "rental-1" = Some r'
    ∧ Rental.status r' = RequestStatus.CANCELLED
    ∧ Item.status <$> items (db approved.2) !! "SN-001"
      = Some ItemStatus.RENTED
    ∧ items (db cancelled.2) !! "SN-001" = Some i'
    ∧ Item.status i' = ItemStatus.AVAILABLE
    ∧ same_item (Fixture.detector ItemStatus.AVAILABLE) i'
    ∧ map RentalStatusLog.status (rentalStatusLogs (db cancelled.2))
      = [RequestStatus.APPROVED; RequestStatus.CANCELLED].
Proof.
  exact (approve_then_cancel_frees_item Fixture.lib (Fixture.patch "APPROVED")
           Fixture.delete Fixture.env Fixture.env
           (Fixture.world RequestStatus.PENDING ItemStatus.AVAILABLE)
           _ "rental-1" (Fixture.rental1 RequestStatus.PENDING)
           (Fixture.detector ItemStatus.AVAILABLE)
           eq_refl eq_refl eq_refl eq_refl eq_refl eq_refl eq_refl).
Defined.

(** * Reading a rental back *)

(** X24 ([GET /api/admin/rentals/[id]]).  The route never writes: the store
    is as it was in every outcome.  And a 200 answer is truthful and
    complete: its body is the rental [id] of the store with its item, the
    id, name and email of its owner, and the status-log rows of this rental
    and of no other, every one of them exactly once, each no older than the
    rows after it, each with the id and name of the user who made the
    change. *)
Theorem get_by_id_reads_only_and_truthfully req id env w :
  let out := AdminRentalsIdGet.GET req id env w in
  db out.2 = db w
  ∧ (AdminRentalsIdGet.status out.1 = 200%nat →
     ∃ d, out.1 = AdminRentalsIdGet.mkResponse (AdminRentalsIdGet.data d) 200
          ∧ describes (db w) id d).
Proof.
  intros out.
  destruct (AdminRentalsIdGet_GET_inv req id env w) as [Hdb H].
  fold out in Hdb, H. split; [done|]. intros H200.
  destruct (H H200) as (d & x & logs & _ & _ & Hout & _).
  exists d. split; [done|]. by eapply AdminRentalsIdGet_GET_describes.
Qed.

(** X24 at work: the fixture's rental is read after an approval and a
    cancellation; the newer row comes first. *)
Lemma get_by_id_reads_only_and_truthfully_witness :
  let w :=
    (AdminRentalsId.DELETE Fixture.delete "rental-1" Fixture.env
       (AdminRentals.PATCH Fixture.lib (Fixture.patch "APPROVED") Fixture.env
          (Fixture.world RequestStatus.PENDING ItemStatus.AVAILABLE)).2).2 in
  let out := AdminRentalsIdGet.GET Fixture.delete "rental-1" Fixture.env w in
  db out.2 = db w
  ∧ ∃ d, out.1 = AdminRentalsIdGet.mkResponse (AdminRentalsIdGet.data d) 200
         ∧ describes (db w) "rental-1" d
         ∧ map (λ l, RentalStatusLog.status (RentalDetail.row l))
             (RentalDetail.statusLogs d)
           = [RequestStatus.CANCELLED; RequestStatus.APPROVED].
Proof.
  destruct (get_by_id_reads_only_and_truthfully Fixture.delete "rental-1"
              Fixture.env
              (AdminRentalsId.DELETE Fixture.delete "rental-1" Fixture.env
                 (AdminRentals.PATCH Fixture.lib (Fixture.patch "APPROVED")
                    Fixture.env
                    (Fixture.world RequestStatus.PENDING
                       ItemStatus.AVAILABLE)).2).2) as [Hdb H].
  split; [exact Hdb|].
  destruct (H eq_refl) as (d & Hd & Hdesc).
  exists d. split; [exact Hd|]. split; [exact Hdesc|].
  vm_compute in Hd. injection Hd as <-. vm_compute. reflexivity.
Defined.

(** X25 ([GET /api/admin/rentals/[id]]).  For an admin, a store that
    answers the one query, and a rental whose item, owner and status-log
    authors are in the store (as the foreign keys of the schema demand),
    the route answers 200, with the rental as the store has it. *)
Theorem get_by_id_answers_admin req id env w r :
  is_Some (verifyAdmin req) →
  db_up env (tick w) = true →
  rentals (db w) !! id = Some r →
  is_Some (items (db w) !! Rental.itemSerial r) →
  is_Some (users (db w) !! Rental.userId r) →
  authors_known (db w) →
  ∃ d, AdminRentalsIdGet.GET req id env w
       = (AdminRentalsIdGet.mkResponse (AdminRentalsIdGet.data d) 200, next w)
       ∧ RentalDetail.rental d = r
       ∧ describes (db w) id d.
Proof. apply AdminRentalsIdGet_GET_ok. Qed.

(** X25 at work: the fixture's rental is read after its approval. *)
Lemma get_by_id_answers_admin_witness :
  let w :=
    (AdminRentals.PATCH Fixture.lib (Fixture.patch "APPROVED") Fixture.env
       (Fixture.world RequestStatus.PENDING ItemStatus.AVAILABLE)).2 in
  ∃ d, AdminRentalsIdGet.GET Fixture.delete "rental-1" Fixture.env w
       = (AdminRentalsIdGet.mkResponse (AdminRentalsIdGet.data d) 200, next w)
       ∧ Rental.status (RentalDetail.rental d) = RequestStatus.APPROVED
       ∧ describes (db w) "rental-1" d.
Proof.
  eassert (rentals (db (AdminRentals.PATCH Fixture.lib
                          (Fixture.patch "APPROVED") Fixture.env
                          (Fixture.world RequestStatus.PENDING
                             ItemStatus.AVAILABLE)).2) !! "rental-1"
           = Some _) as Hr by (vm_compute; reflexivity).
  destruct (get_by_id_answers_admin Fixture.delete "rental-1" Fixture.env
              _ _ (ex_intro _ Fixture.session eq_refl) eq_refl Hr)
    as (d & Hout & Hrd & Hdesc).
  - vm_compute. by eexists.
  - vm_compute. by eexists.
  - vm_compute. repeat constructor. by eexists.
  - exists d. split; [exact Hout|]. split; [by rewrite Hrd|exact Hdesc].
Defined.

(** X26 (the four writing routes).  The relations of the schema survive
    every request: when, before it, every rental has its item and its owner
    in the store and every status-log row its rental and its author, the
    same holds after it, in every outcome. *)
Theorem routes_keep_the_store_consistent lib reqC reqN reqP reqD id env w :
  consistent (db w) →
  consistent (db (AdminRentals.PATCH lib reqC env w).2)
  ∧ consistent (db (AdminRentals.POST lib reqN env w).2)
  ∧ consistent (db (AdminRentalsId.PATCH lib reqP id env w).2)
  ∧ consistent (db (AdminRentalsId.DELETE reqD id env w).2).
Proof. apply routes_consistent. Qed.

(** X26 at work: the four routes on the fixture's store. *)
Lemma routes_keep_the_store_consistent_witness :
  let w := Fixture.world RequestStatus.PENDING ItemStatus.AVAILABLE in
  consistent (db (AdminRentals.PATCH Fixture.lib (Fixture.patch "APPROVED")
                    Fixture.env w).2)
  ∧ consistent (db (AdminRentals.POST Fixture.lib Fixture.post
                      Fixture.env w).2)
  ∧ consistent (db (AdminRentalsId.PATCH Fixture.lib
                      (Fixture.patch_by_id "APPROVED") "rental-1"
                      Fixture.env w).2)
  ∧ consistent (db (AdminRentalsId.DELETE Fixture.delete "rental-1"
                      Fixture.env w).2).
Proof.
  apply (routes_keep_the_store_consistent Fixture.lib
           (Fixture.patch "APPROVED") Fixture.post
           (Fixture.patch_by_id "APPROVED") Fixture.delete "rental-1"
           Fixture.env
           (Fixture.world RequestStatus.PENDING ItemStatus.AVAILABLE)).
  apply Fixture_store_consistent.
Defined.

(** X27 ([PATCH /api/admin/rentals], then [GET /api/admin/rentals/[id]]).
    What a status update answers is what a later read returns: on a
    consistent store, after a 200 answer to an update of the rental [id] to
    [status], [GET] by an admin, with the store answering, returns 200 with
    the very rental of the update's answer, its item with the status
    derived from [status], and the status logs of the rental as they were
    with one more row: the row of this update, with the new status, signed
    by the caller. *)
Theorem patched_rental_reads_back lib reqC reqG env env' w b id status :
  consistent (db w) →
  json reqC = Some b →
  required (AdminRentals.p_id b) = Some id →
  required (AdminRentals.p_status b) = Some status →
  let out := AdminRentals.PATCH lib reqC env w in
  NextResponse.status out.1 = 200%nat →
  is_Some (verifyAdmin reqG) →
  db_up env' (tick out.2) = true →
  ∃ user x st d l,
    session reqC = Some user
    ∧ out.1 = NextResponse.ok x
    ∧ RequestStatus.of_string status = Some st
    ∧ AdminRentalsIdGet.GET reqG id env' out.2
      = (AdminRentalsIdGet.mkResponse (AdminRentalsIdGet.data d) 200,
         next out.2)
    ∧ RentalDetail.rental d = Included.rental x
    ∧ Rental.status (RentalDetail.rental d) = st
    ∧ Item.status (RentalDetail.item d)
      = item_status_after st (Item.status (Included.item x))
    ∧ l ∈ RentalDetail.statusLogs d
    ∧ RentalStatusLog.status (RentalDetail.row l) = st
    ∧ RentalStatusLog.userId (RentalDetail.row l) = Session.userId user
    ∧ length (RentalDetail.statusLogs d)
      = S (length (filter (λ l, RentalStatusLog.rentalId l = id)
                     (rentalStatusLogs (db w)))).
Proof.
  intros Hc Hb Hid Hst out H200 Hadm Hup.
  pose proof (proj1 (routes_consistent lib reqC
                       (mkRequest None None) (mkRequest None None)
                       (mkRequest None None) id env w Hc)) as Hc'.
  fold out in Hc'.
  destruct (AdminRentals_PATCH_effect lib reqC env w)
    as [[Hn _]|(user & b' & id' & status' & st & r & x & n & at_ & t2 & t3
                & Hs & Hb' & Hid' & Hst' & Hof & Hok & Hr & Hx & Hi & Hu & HR
                & HL & _ & HI & _)];
    fold out in Hn || fold out in Hok, HR, HL, HI; [done|].
  assert (b' = b) as -> by congruence.
  assert (id' = id) as -> by congruence.
  assert (status' = status) as -> by congruence.
  assert (rentals (db out.2) !! id = Some (Included.rental x)) as Hr'
    by by rewrite HR, lookup_insert_eq.
  destruct Hc' as (Hrel & Hauth & _).
  destruct (Hrel _ _ Hr') as [Hi' Hu'].
  destruct (AdminRentalsIdGet_GET_ok reqG id env' out.2 _ Hadm Hup Hr' Hi' Hu'
              Hauth) as (d & Hget & Hrd & Hdesc).
  destruct Hdesc as (_ & Hdi & _ & Hperm & _ & _).
  rewrite HL, filter_snoc_this in Hperm by done.
  assert (∃ l, l ∈ RentalDetail.statusLogs d
               ∧ RentalDetail.row l
                 = RentalStatusLog.mk id st
                     (Some (default ("Status changed to " +:+ status)
                              (required (AdminRentals.p_notes b))))
                     (Session.userId user) t2) as (l & Hl & Hrow).
  { eassert (_ ∈ map RentalDetail.row (RentalDetail.statusLogs d)) as Hin.
    { rewrite Hperm. apply elem_of_app. right.
      by apply list_elem_of_singleton. }
    apply (list_elem_of_fmap_1 RentalDetail.row) in Hin as (l & Hrow & Hl).
    by exists l. }
  exists user, x, st, d, l.
  repeat (split; [done|]).
  split; [by rewrite Hrd, Hx; simpl; rewrite Hof|].
  split.
  { rewrite Hrd in Hdi.
    assert (Rental.itemSerial (Included.rental x) = Rental.itemSerial r)
      as Hsn by by rewrite Hx.
    rewrite Hsn in Hdi.
    destruct (item_derived_status _ _ _ _ _ HI Hi) as (i' & Hi2 & Hs2 & _).
    assert (RentalDetail.item d = i') as -> by congruence.
    rewrite Hs2. apply of_string_to_string in Hof as ->. by destruct st. }
  split; [done|]. rewrite Hrow. simpl. split; [done|]. split; [done|].
  apply Permutation_length in Hperm.
  rewrite length_map, length_app in Hperm. simpl in Hperm. lia.
Qed.

(** X27 at work: the fixture's rental is approved and read back. *)
Lemma patched_rental_reads_back_witness :
  let w := Fixture.world RequestStatus.PENDING ItemStatus.AVAILABLE in
  let out :=
    AdminRentals.PATCH Fixture.lib (Fixture.patch "APPROVED") Fixture.env w in
  ∃ user x st d l,
    session (Fixture.patch "APPROVED") = Some user
    ∧ out.1 = NextResponse.ok x
    ∧ RequestStatus.of_string "APPROVED" = Some st
    ∧ AdminRentalsIdGet.GET Fixture.delete "rental-1" Fixture.env out.2
      = (AdminRentalsIdGet.mkResponse (AdminRentalsIdGet.data d) 200,
         next out.2)
    ∧ RentalDetail.rental d = Included.rental x
    ∧ Rental.status (RentalDetail.rental d) = st
    ∧ Item.status (RentalDetail.item d)
      = item_status_after st (Item.status (Included.item x))
    ∧ l ∈ RentalDetail.statusLogs d
    ∧ RentalStatusLog.status (RentalDetail.row l) = st
    ∧ RentalStatusLog.userId (RentalDetail.row l) = Session.userId user
    ∧ length (RentalDetail.statusLogs d) = 1%nat.
Proof.
  exact (patched_rental_reads_back Fixture.lib (Fixture.patch "APPROVED")
           Fixture.delete Fixture.env Fixture.env
           (Fixture.world RequestStatus.PENDING ItemStatus.AVAILABLE)
           _ "rental-1" "APPROVED"
           (Fixture_store_consistent RequestStatus.PENDING
              ItemStatus.AVAILABLE)
           eq_refl eq_refl eq_refl eq_refl
           (ex_intro _ Fixture.session eq_refl) eq_refl).
Defined.

(** * The rental a creation leaves *)

(** X28 ([POST /api/admin/rentals]).  A 200 answer carries, and leaves in
    the store under a key that was free, a rental made of the body: the
    item and the caller as owner, the status APPROVED, the parsed start
    date and, when the body has one, the parsed end date, no return date
    and no return condition, the same instant as creation and update
    stamp; the customer and the renter's name, phone, address and the
    initial condition when they are present and not empty; the PO and DO
    numbers as given.  A customer that is named is in the store.  The
    item was AVAILABLE and is RENTED afterwards. *)
Theorem created_rental_row lib req env w b :
  json req = Some b →
  let out := AdminRentals.POST lib req env w in
  NextResponse.status out.1 = 200%nat →
  ∃ user x sn i',
    session req = Some user
    ∧ out.1 = NextResponse.ok x
    ∧ required (AdminRentals.c_itemSerial b) = Some sn
    ∧ rentals (db w) !! Rental.id (Included.rental x) = None
    ∧ rentals (db out.2) !! Rental.id (Included.rental x)
      = Some (Included.rental x)
    ∧ Rental.itemSerial (Included.rental x) = sn
    ∧ Rental.userId (Included.rental x) = Session.userId user
    ∧ Rental.status (Included.rental x) = RequestStatus.APPROVED
    ∧ Some (Rental.startDate (Included.rental x))
      = required (AdminRentals.c_startDate b) ≫= parse_date env
    ∧ Rental.endDate (Included.rental x)
      = required (AdminRentals.c_endDate b) ≫= parse_date env
    ∧ Rental.returnDate (Included.rental x) = None
    ∧ Rental.returnCondition (Included.rental x) = None
    ∧ Rental.updatedAt (Included.rental x)
      = Rental.createdAt (Included.rental x)
    ∧ Rental.customerId (Included.rental x)
      = required (AdminRentals.c_customerId b)
    ∧ (∀ c, Rental.customerId (Included.rental x) = Some c →
            is_Some (customers (db w) !! c))
    ∧ Rental.renterName (Included.rental x)
      = required (AdminRentals.c_renterName b)
    ∧ Rental.renterPhone (Included.rental x)
      = required (AdminRentals.c_renterPhone b)
    ∧ Rental.renterAddress (Included.rental x)
      = required (AdminRentals.c_renterAddress b)
    ∧ Rental.initialCondition (Included.rental x)
      = required (AdminRentals.c_initialCondition b)
    ∧ Rental.poNumber (Included.rental x)
      = nullable (AdminRentals.c_poNumber b)
    ∧ Rental.doNumber (Included.rental x)
      = nullable (AdminRentals.c_doNumber b)
    ∧ Item.status (Included.item x) = ItemStatus.AVAILABLE
    ∧ items (db out.2) !! sn = Some i'
    ∧ Item.status i' = ItemStatus.RENTED
    ∧ same_item (Included.item x) i'.
Proof.
  intros Hb out H200.
  destruct (AdminRentals_POST_effect lib req env w)
    as [[Hn _]|(user & b' & sn & sd & x & id & at_ & z & ed & t2 & t3
                & Hs & Hb' & Hsn & Hsd & Hcust & Hok & Hz & Hed & Hx & Hi
                & Hav & Hu & Hnone & HR & _ & HI & _)];
    fold out in Hn || fold out in Hok, HR, HI; [done|].
  assert (b' = b) as -> by congruence.
  destruct (item_derived_status _ (Some ItemStatus.RENTED) _ _ _ HI Hi)
    as (i' & Hi' & Hs' & Hsame).
  exists user, x, sn, i'.
  rewrite HR, Hx. simpl. rewrite lookup_insert_eq, Hsd. simpl.
  rewrite Hz.
  repeat (split; [done|]).
  split.
  { destruct (required (AdminRentals.c_endDate b)) as [e|]; simpl.
    - destruct Hed as (ze & -> & ->). done.
    - done. }
  repeat (split; [done|]).
  split.
  { intros c Hc.
    change (required (AdminRentals.c_customerId b) = Some c) in Hc.
    by rewrite Hc in Hcust. }
  repeat (split; [done|]). done.
Qed.

(** X28 at work: the creation of the fixture on a store without rentals. *)
Lemma created_rental_row_witness :
  let w := Fixture.fresh ItemStatus.AVAILABLE in
  let out := AdminRentals.POST Fixture.lib Fixture.post Fixture.env w in
  ∃ x i',
    out.1 = NextResponse.ok x
    ∧ rentals (db out.2) !! "rental-2" = Some (Included.rental x)
    ∧ Included.rental x
      = Rental.mk "rental-2" "SN-001" "admin-1" None None None
          RequestStatus.APPROVED 1735689600000 (Some 1738368000000) None
          (Rental.createdAt (Included.rental x))
          (Rental.createdAt (Included.rental x))
          (Some "Budi") None None None None
    ∧ items (db out.2) !! "SN-001" = Some i'
    ∧ Item.status i' = ItemStatus.RENTED.
Proof.
  destruct (created_rental_row Fixture.lib Fixture.post Fixture.env
              (Fixture.fresh ItemStatus.AVAILABLE) _ eq_refl eq_refl)
    as (user & x & sn & i' & _ & Hok & Hsn & _ & Hr & _ & _ & _ & _ & _ & _
        & _ & _ & _ & _ & _ & _ & _ & _ & _ & _ & _ & Hi & Hs & _).
  injection Hsn as <-.
  exists x, i'. split; [exact Hok|].
  vm_compute in Hok. injection Hok as <-.
  split; [vm_compute; reflexivity|].
  split; [vm_compute; reflexivity|].
  split; [exact Hi|exact Hs].
Defined.

(** X29 ([POST /api/admin/rentals], then [GET /api/admin/rentals/[id]]).
    What a creation answers is what a later read returns: on a consistent
    store, after a 200 answer, [GET] of the new rental's id by an admin,
    with the store answering, returns 200 with the very rental of the
    creation's answer, its item RENTED, and exactly one status-log row:
    APPROVED, "Rental created and approved by admin", signed by the
    creator. *)
Theorem created_rental_reads_back lib reqN reqG env env' w :
  consistent (db w) →
  let out := AdminRentals.POST lib reqN env w in
  NextResponse.status out.1 = 200%nat →
  is_Some (verifyAdmin reqG) →
  db_up env' (tick out.2) = true →
  ∃ user x d l,
    session reqN = Some user
    ∧ out.1 = NextResponse.ok x
    ∧ AdminRentalsIdGet.GET reqG (Rental.id (Included.rental x)) env' out.2
      = (AdminRentalsIdGet.mkResponse (AdminRentalsIdGet.data d) 200,
         next out.2)
    ∧ RentalDetail.rental d = Included.rental x
    ∧ Item.status (RentalDetail.item d) = ItemStatus.RENTED
    ∧ RentalDetail.statusLogs d = [l]
    ∧ RentalStatusLog.status (RentalDetail.row l) = RequestStatus.APPROVED
    ∧ RentalStatusLog.notes (RentalDetail.row l)
      = Some "Rental created and approved by admin"
    ∧ RentalStatusLog.userId (RentalDetail.row l) = Session.userId user.
Proof.
  intros Hc out H200 Hadm Hup.
  pose proof (proj1 (proj2 (routes_consistent lib (mkRequest None None)
                              reqN (mkRequest None None)
                              (mkRequest None None) EmptyString env w Hc))) as Hc'.
  fold out in Hc'.
  destruct (AdminRentals_POST_effect lib reqN env w)
    as [[Hn _]|(user & b & sn & sd & x & id & at_ & z & ed & t2 & t3
                & Hs & _ & _ & _ & _ & Hok & _ & _ & Hx & Hi & _ & _ & Hnone
                & HR & HL & HI & _)];
    fold out in Hn || fold out in Hok, HR, HL, HI; [done|].
  assert (Rental.id (Included.rental x) = id) as Hid by by rewrite Hx.
  assert (rentals (db out.2) !! id = Some (Included.rental x)) as Hr'
    by by rewrite HR, lookup_insert_eq.
  destruct Hc as (_ & _ & Hlogs).
  destruct Hc' as (Hrel & Hauth & _).
  destruct (Hrel _ _ Hr') as [Hi' Hu'].
  destruct (AdminRentalsIdGet_GET_ok reqG id env' out.2 _ Hadm Hup Hr' Hi' Hu'
              Hauth) as (d & Hget & Hrd & Hdesc).
  destruct Hdesc as (_ & Hdi & _ & Hperm & _ & _).
  rewrite HL, filter_snoc_this in Hperm by done.
  assert (filter (λ l, RentalStatusLog.rentalId l = id)
            (rentalStatusLogs (db w)) = []) as Hold.
  { apply filter_none_this. eapply Forall_impl; [exact Hlogs|].
    intros l [r Hl] Heq. rewrite Heq in Hl. congruence. }
  rewrite Hold in Hperm. simpl in Hperm.
  apply Permutation_singleton_r in Hperm.
  destruct (RentalDetail.statusLogs d) as [|l [|]] eqn:Hd; try done.
  injection Hperm as Hrow.
  exists user, x, d, l. rewrite Hid, Hrow. simpl.
  repeat (split; [done|]).
  split; [|done].
  rewrite Hrd, Hx in Hdi. simpl in Hdi.
  destruct (item_derived_status _ (Some ItemStatus.RENTED) _ _ _ HI Hi)
    as (i' & Hi2 & Hs2 & _).
  assert (RentalDetail.item d = i') as -> by congruence. done.
Qed.

(** X29 at work: the rental created on a store without rentals is read
    back. *)
Lemma created_rental_reads_back_witness :
  let w := Fixture.fresh ItemStatus.AVAILABLE in
  let out := AdminRentals.POST Fixture.lib Fixture.post Fixture.env w in
  ∃ user x d l,
    session Fixture.post = Some user
    ∧ out.1 = NextResponse.ok x
    ∧ AdminRentalsIdGet.GET Fixture.delete (Rental.id (Included.rental x))
        Fixture.env out.2
      = (AdminRentalsIdGet.mkResponse (AdminRentalsIdGet.data d) 200,
         next out.2)
    ∧ RentalDetail.rental d = Included.rental x
    ∧ Item.status (RentalDetail.item d) = ItemStatus.RENTED
    ∧ RentalDetail.statusLogs d = [l]
    ∧ RentalStatusLog.status (RentalDetail.row l) = RequestStatus.APPROVED
    ∧ RentalStatusLog.notes (RentalDetail.row l)
      = Some "Rental created and approved by admin"
    ∧ RentalStatusLog.userId (RentalDetail.row l) = Session.userId user.
Proof.
  exact (created_rental_reads_back Fixture.lib Fixture.post Fixture.delete
           Fixture.env Fixture.env (Fixture.fresh ItemStatus.AVAILABLE)
           (Fixture_fresh_consistent ItemStatus.AVAILABLE) eq_refl
           (ex_intro _ Fixture.session eq_refl) eq_refl).
Defined.

(** * The audit logger of the by-id update *)

(** X30 ([PATCH /api/admin/rentals/[id]]).  The by-id update answers 200
    only when the audit logger, awaited after the commit, accepted: behind
    every 200 there is a call of the logger for the caller, the rental and
    its item, made on a store that already holds the updated rental, which
    did not reject; its rows are the last of the activity log. *)
Theorem by_id_update_answers_200_only_if_logged lib req id env w :
  let out := AdminRentalsId.PATCH lib req id env w in
  NextResponse.status out.1 = 200%nat →
  ∃ user b r x wl,
    let logged :=
      lib_logRentalActivity lib (Session.userId user)
        ActivityType.RENTAL_UPDATED id (Rental.itemSerial r)
        ("Admin " +:+ default "Unknown" (required (Session.name user))
         +:+ " updated rental status to "
         +:+ template (AdminRentalsId.p_status b)) wl in
    session req = Some user
    ∧ json req = Some b
    ∧ rentals (db w) !! id = Some r
    ∧ out.1 = NextResponse.ok x
    ∧ rentals (db wl) !! id = Some (Included.rental x)
    ∧ logged.1 = None
    ∧ logged.2 `suffix_of` activityLogs (db out.2).
Proof.
  intros out H200.
  destruct (AdminRentalsId_PATCH_effect lib req id env w)
    as [[Hn _]|(user & b & r & x & n & at_ & t3 & rows & Hs & Hb & Hresp
                & Hr & _ & _ & _ & _ & _ & Hcase & _ & _ & _ & _ & wl
                & Hrows & HRl & Hlg)];
    fold out in Hn || fold out in Hresp, Hcase, Hlg; [done|].
  destruct Hresp as [H500|Hok]; [congruence|].
  exists user, b, r, x, wl. cbn zeta in *.
  rewrite HRl, lookup_insert_eq, <- Hrows.
  repeat (split; [done|]).
  split.
  { destruct (lib_logRentalActivity _ _ _ _ _ _ _).1; [congruence|done]. }
  destruct (required (AdminRentalsId.p_status b)).
  - destruct Hcase as (st & t2 & _ & _ & -> & _).
    rewrite (cons_middle _ (activityLogs (db w))), app_assoc.
    by apply suffix_app_r.
  - destruct Hcase as (_ & _ & ->).
    rewrite (cons_middle _ (activityLogs (db w))), app_assoc.
    by apply suffix_app_r.
Qed.

(** X30 at work: an approval of the fixture's rental. *)
Lemma by_id_update_answers_200_only_if_logged_witness :
  let w := Fixture.world RequestStatus.PENDING ItemStatus.AVAILABLE in
  let out :=
    AdminRentalsId.PATCH Fixture.lib (Fixture.patch_by_id "APPROVED")
      "rental-1" Fixture.env w in
  ∃ user b r x wl,
    let logged :=
      lib_logRentalActivity Fixture.lib (Session.userId user)
        ActivityType.RENTAL_UPDATED "rental-1" (Rental.itemSerial r)
        ("Admin " +:+ default "Unknown" (required (Session.name user))
         +:+ " updated rental status to "
         +:+ template (AdminRentalsId.p_status b)) wl in
    session (Fixture.patch_by_id "APPROVED") = Some user
    ∧ json (Fixture.patch_by_id "APPROVED") = Some b
    ∧ rentals (db w) !! "rental-1" = Some r
    ∧ out.1 = NextResponse.ok x
    ∧ rentals (db wl) !! "rental-1" = Some (Included.rental x)
    ∧ logged.1 = None
    ∧ logged.2 `suffix_of` activityLogs (db out.2).
Proof.
  exact (by_id_update_answers_200_only_if_logged Fixture.lib
           (Fixture.patch_by_id "APPROVED") "rental-1" Fixture.env
           (Fixture.world RequestStatus.PENDING ItemStatus.AVAILABLE)
           eq_refl).
Defined.
